(** * appleLoops: manifest resolution and download orchestration

    A shallow embedding of [appleLoops.py] (class [AppleLoops]) and the
    properties its design document states about it.

    Conventions of the embedding:
    - values that the code handles dynamically are explicit: a package size
      is a [pyval] (an integer or a string), the three-valued result of
      [file_exists] is a [pyflag];
    - a float is a [pyfloat]: the integer it equals, as far as that is sure
      (up to 2^53), and otherwise a value that is not evaluated;
    - an uncaught Python exception is the [Raise] case of [result];
    - the network and the filesystem are explicit arguments: a [Net] maps a
      URL to what [urllib2.urlopen] would answer, an [FS] is the ordered list
      of paths that exist, with their [os.stat] data;
    - instance attributes that the code mutates ([master_list],
      [download_amount]) and the filesystem are threaded through the calls. *)

From Stdlib Require Import ZArith Lia Ascii String.
From stdpp Require Import base decidable option list strings sorting.

Local Open Scope string_scope.
Local Open Scope list_scope.
Local Open Scope Z_scope.

(** ** Python strings *)

Module PyStr.

Definition startswith (s p : string) : bool := String.prefix p s.

Definition endswith (s suffix : string) : bool :=
  String.prefix (String.rev suffix) (String.rev s).

Fixpoint lstrip_char (c : ascii) (s : string) : string :=
  match s with
  | String a s' => if Ascii.eqb a c then lstrip_char c s' else s
  | EmptyString => EmptyString
  end.

(** [s.rstrip(c)] for a one-character argument. *)
Definition rstrip_char (c : ascii) (s : string) : string :=
  String.rev (lstrip_char c (String.rev s)).

Fixpoint lstrip (s : string) : string :=
  match s with
  | String a s' => if Ascii.is_space a then lstrip s' else s
  | EmptyString => EmptyString
  end.

(** [s.strip()]: whitespace removed at both ends. *)
Definition strip (s : string) : string :=
  String.rev (lstrip (String.rev (lstrip s))).

(** [sep.join(l)] *)
Fixpoint join (sep : string) (l : list string) : string :=
  match l with
  | [] => ""
  | [x] => x
  | x :: rest => x +:+ sep +:+ join sep rest
  end.

(** [s.split(sep)] for a one-character separator. *)
Fixpoint split (sep : ascii) (s : string) : list string :=
  match s with
  | EmptyString => [""]
  | String a s' =>
      if Ascii.eqb a sep then "" :: split sep s'
      else match split sep s' with
           | w :: ws => String a w :: ws
           | [] => [String a ""]
           end
  end.

(** [needle in s] *)
Fixpoint contains (needle s : string) : bool :=
  String.prefix needle s ||
  match s with
  | String _ s' => contains needle s'
  | EmptyString => false
  end.

(** [s[-n:]] *)
Definition last_chars (n : nat) (s : string) : string :=
  String.substring (String.length s - n) n s.

(** [s[n:]] *)
Fixpoint drop (n : nat) (s : string) : string :=
  match n, s with
  | O, _ => s
  | S n', String _ s' => drop n' s'
  | S _, EmptyString => EmptyString
  end.

Fixpoint filter (keep : ascii -> bool) (s : string) : string :=
  match s with
  | String a s' => if keep a then String a (filter keep s') else filter keep s'
  | EmptyString => EmptyString
  end.

(** [s.replace(c, '')] for a one-character [c]. *)
Definition remove_char (c : ascii) (s : string) : string :=
  filter (fun a => negb (Ascii.eqb a c)) s.

Fixpoint rfind_go (c : ascii) (s : string) (i acc : Z) : Z :=
  match s with
  | String a s' => rfind_go c s' (i + 1) (if Ascii.eqb a c then i else acc)
  | EmptyString => acc
  end.

(** [s.rfind(c)], -1 when [c] does not occur. *)
Definition rfind (c : ascii) (s : string) : Z := rfind_go c s 0 (-1).

Fixpoint all_chars (p : ascii -> bool) (s : string) : bool :=
  match s with
  | String a s' => p a && all_chars p s'
  | EmptyString => true
  end.

End PyStr.

(** ** [os.path] (posixpath) *)

Module OsPath.

(** [os.path.join(a, b)] *)
Definition join (a b : string) : string :=
  if PyStr.startswith b "/" then b
  else if (String.eqb a "" || PyStr.endswith a "/")%bool then a +:+ b
  else a +:+ "/" +:+ b.

(** [os.path.basename(p)]: what follows the last slash. *)
Definition basename (p : string) : string :=
  PyStr.drop (Z.to_nat (PyStr.rfind "/" p + 1)) p.

(** [os.path.splitext(p)[0]]: the extension starts at the last dot of the
    last component, leading dots of that component not counted. *)
Definition splitext_root (p : string) : string :=
  let sepIndex := PyStr.rfind "/" p in
  let dotIndex := PyStr.rfind "." p in
  if dotIndex >? sepIndex then
    let stem := String.substring (Z.to_nat (sepIndex + 1))
                  (Z.to_nat (dotIndex - (sepIndex + 1))) p in
    if PyStr.all_chars (fun a => Ascii.eqb a ".") stem then p
    else String.substring 0 (Z.to_nat dotIndex) p
  else p.

End OsPath.

(** [urlparse(url).netloc] for a URL of the form [scheme://netloc...]; the
    code applies it to the constant [base_url] only. *)
Definition is_netloc_end (a : ascii) : bool :=
  (Ascii.eqb a "/" || Ascii.eqb a "?" || Ascii.eqb a "#")%bool.

Fixpoint take_netloc (s : string) : string :=
  match s with
  | String a s' => if is_netloc_end a then "" else String a (take_netloc s')
  | EmptyString => EmptyString
  end.

Definition urlparse_netloc (url : string) : string :=
  match String.index 0 ":" url with
  | Some i =>
      let rest := PyStr.drop (S i) url in
      if PyStr.startswith rest "//" then take_netloc (PyStr.drop 2 rest) else ""
  | None => ""
  end.

(** ** Python values and exceptions *)

(** A package size as the code holds it: the integer of the feed's
    [DownloadSize], or the text of a [Content-Length] header (or of a
    [DownloadSize] given as text). An integer and a string never compare
    equal in Python, so [==] on sizes is equality of [pyval]. *)
Inductive pyval : Type :=
  | PyInt (n : Z)
  | PyStr (s : string).

#[global] Instance pyval_eq_dec : EqDecision pyval.
Proof. solve_decision. Defined.

(** What [file_exists] and [duplicate_file] hand back: [True], [False], or
    the [None] of a function that ends without [return]. *)
Inductive pyflag : Type :=
  | PyTrue
  | PyFalse
  | PyNone.

(** Truth value of an object in a condition ([if x:], [if not x:]). *)
Definition truthy (v : pyflag) : bool :=
  match v with
  | PyTrue => true
  | PyFalse => false
  | PyNone => false
  end.

Inductive exn : Type :=
  | ValueError | IndexError | KeyError | AttributeError | ZeroDivisionError
  | URLError | PlistError | OSError | IOError | TypeError.

Inductive result (A : Type) : Type :=
  | Ok (a : A)
  | Raise (e : exn).
Arguments Ok {A} a.
Arguments Raise {A} e.

Definition bind {A B} (r : result A) (k : A -> result B) : result B :=
  match r with
  | Ok a => k a
  | Raise e => Raise e
  end.

Notation "'do' x <- r ; k" := (bind r (fun x => k))
  (at level 10, x name, r at level 100, k at level 200).

(** [try: r  except: handler] with a bare [except]. *)
Definition try_except {A} (r : result A) (handler : result A) : result A :=
  match r with
  | Ok a => Ok a
  | Raise _ => handler
  end.

Fixpoint parse_digits (acc : Z) (s : string) : option Z :=
  match s with
  | EmptyString => Some acc
  | String a s' =>
      match Ascii.is_nat a with
      | Some d => parse_digits (10 * acc + Z.of_nat d) s'
      | None => None
      end
  end.

(** [int(s)] on a string: surrounding whitespace, an optional sign, then at
    least one decimal digit. *)
Definition int_of_string (s : string) : option Z :=
  match PyStr.strip s with
  | EmptyString => None
  | String "-" EmptyString | String "+" EmptyString => None
  | String "-" ds => Z.opp <$> parse_digits 0 ds
  | String "+" ds => parse_digits 0 ds
  | ds => parse_digits 0 ds
  end.

(** [int(v)] *)
Definition py_int (v : pyval) : result Z :=
  match v with
  | PyInt n => Ok n
  | PyStr s => match int_of_string s with Some n => Ok n | None => Raise ValueError end
  end.

(** ** Python floats *)

(** A double as far as the model follows it: [Exact n] is the double equal
    to the integer [n]; [Untracked] is a double that the model does not
    evaluate (a rounded integer beyond 2^53, a fraction, an infinity, a
    NaN). *)
Inductive pyfloat : Type :=
  | Exact (n : Z)
  | Untracked.

(** The double nearest to an integer: the integer itself up to 2^53 in
    absolute value, where every integer is a double. *)
Definition to_float (n : Z) : pyfloat :=
  if Z.abs n <=? 2 ^ 53 then Exact n else Untracked.

Definition fneg (f : pyfloat) : pyfloat :=
  match f with
  | Exact n => Exact (- n)
  | Untracked => Untracked
  end.

(** [x + y]; the sum of two integers that are doubles is followed as long
    as it is a double for sure. *)
Definition fadd (x y : pyfloat) : pyfloat :=
  match x, y with
  | Exact a, Exact b => to_float (a + b)
  | _, _ => Untracked
  end.

(** [x == 0]. What [py_float] gives as [Untracked] is never zero. *)
Definition float_is_zero (f : pyfloat) : bool :=
  match f with
  | Exact n => n =? 0
  | Untracked => false
  end.

(** [sum(l)]: the additions from the left, starting from [0]. *)
Definition fsum (l : list pyfloat) : pyfloat := foldl fadd (Exact 0) l.

Fixpoint span_digits (s : string) : string * string :=
  match s with
  | String a s' =>
      match Ascii.is_nat a with
      | Some _ => let '(d, r) := span_digits s' in (String a d, r)
      | None => (EmptyString, s)
      end
  | EmptyString => (EmptyString, EmptyString)
  end.

Definition lower_char (a : ascii) : ascii :=
  let n := nat_of_ascii a in
  if ((65 <=? n) && (n <=? 90))%nat then ascii_of_nat (n + 32) else a.

Fixpoint lower (s : string) : string :=
  match s with
  | String a s' => String (lower_char a) (lower s')
  | EmptyString => EmptyString
  end.

(** The exponent part of a float literal: nothing, or [e], an optional
    sign and at least one digit. *)
Definition parse_exponent (s : string) : option Z :=
  match s with
  | EmptyString => Some 0
  | String a r =>
      if (Ascii.eqb a "e" || Ascii.eqb a "E")%bool then
        let '(negative, ds) :=
          match r with
          | String "-" t => (true, t)
          | String "+" t => (false, t)
          | _ => (false, r)
          end in
        match ds with
        | EmptyString => None
        | _ => (fun e => if negative : bool then - e else e) <$> parse_digits 0 ds
        end
      else None
  end.

(** The double nearest to [m * 10^k] for [m >= 0]: followed when the value
    is an integer up to 2^53; zero when the value is at most 2^-1075, half
    of the smallest double above zero. *)
Definition nearest_double (m k : Z) : pyfloat :=
  if m =? 0 then Exact 0
  else if 0 <=? k then to_float (m * 10 ^ k)
  else
    let d := 10 ^ (- k) in
    if m mod d =? 0 then to_float (m / d)
    else if m * 2 ^ 1075 <=? d then Exact 0
    else Untracked.

(** A float literal without its sign: [inf], [infinity] or [nan] in any
    case, or digits with an optional point and an optional exponent, one
    digit at least before the exponent. *)
Definition float_body (s : string) : option pyfloat :=
  let l := lower s in
  if (String.eqb l "inf" || String.eqb l "infinity" || String.eqb l "nan")%bool
  then Some Untracked
  else
    let '(ip, r1) := span_digits s in
    let '(fp, r2) :=
      match r1 with
      | String "." t => span_digits t
      | _ => (EmptyString, r1)
      end in
    if (String.length ip + String.length fp =? 0)%nat then None
    else
      (fun e => nearest_double (default 0 (parse_digits 0 (ip +:+ fp)))
                  (e - Z.of_nat (String.length fp)))
      <$> parse_exponent r2.

(** [float(s)] on a string: surrounding whitespace, an optional sign, a
    literal. *)
Definition float_of_string (s : string) : option pyfloat :=
  match PyStr.strip s with
  | String "-" b => fneg <$> float_body b
  | String "+" b => float_body b
  | b => float_body b
  end.

(** [float(v)]. An integer of a feed is a number that
    [NSPropertyListSerialization] has read, of 64 bits at most, far from the
    range where [float] raises [OverflowError]. A string that [int] reads is
    read by [float] as the same integer. *)
Definition py_float (v : pyval) : result pyfloat :=
  match v with
  | PyInt n => Ok (to_float n)
  | PyStr s =>
      match int_of_string s with
      | Some n => Ok (to_float n)
      | None =>
          match float_of_string s with
          | Some f => Ok f
          | None => Raise ValueError
          end
      end
  end.

(** ** The [AppleLoops] instance *)

(** The [Loop] named tuple. *)
Record Loop : Type := mkLoop {
  pkg_name : string;
  pkg_url : string;
  pkg_mandatory : bool;
  pkg_size : pyval;
  pkg_year : string;
  pkg_loop_for : string;
  pkg_plist : string
}.

#[global] Instance Loop_eq_dec : EqDecision Loop.
Proof. solve_decision. Defined.

(** [config['loop_feeds']]: product -> year -> sub-feed file names. *)
Definition feed_table : Type := list (string * list (string * list string)).

Record AppleLoops : Type := mkAppleLoops {
  download_location : string;
  dry_run : bool;
  package_set : list string;
  package_year : list string;
  mandatory_pkg : bool;
  optional_pkg : bool;
  base_url : string;
  caching_server : option string;
  (* set together with [caching_server]; never read otherwise *)
  source_url : string;
  cache_base_url : string;
  files_process : option (list string);
  jss_mode : bool;
  dmg_path : option string;
  loop_feed_locations : feed_table;
  alt_loop_feed_base_url : string;
  master_list : list Loop;
  download_amount : list pyfloat
}.

Definition origin_base : string :=
  "http://audiocontentdownload.apple.com/lp10_ms3_content_".

Definition origin_host : string := "audiocontentdownload.apple.com".

(** Constructor arguments of [AppleLoops.__init__]. *)
Record init_args : Type := mkArgs {
  arg_download_location : option string;
  arg_dry_run : bool;
  arg_package_set : list string;
  arg_package_year : list string;
  arg_mandatory_pkg : bool;
  arg_optional_pkg : bool;
  arg_caching_server : option string;
  arg_files_process : option (list string);
  arg_jss_mode : bool;
  arg_dmg_path : option string
}.

Definition opt_truthy (o : option string) : bool :=
  match o with
  | Some s => negb (String.eqb s "")
  | None => false
  end.

(** [__init__]; [feeds] is the decoded [loop_feeds] table of the
    configuration plist. *)
Definition init (a : init_args) (feeds : feed_table) : AppleLoops :=
  let base := origin_base in
  let cs :=
    if opt_truthy (arg_caching_server a)
    then PyStr.rstrip_char "/" <$> arg_caching_server a
    else None in
  {| download_location :=
       (if opt_truthy (arg_download_location a)
        then default "" (arg_download_location a)
        else OsPath.join "/tmp" "appleLoops");
     dry_run := arg_dry_run a;
     package_set := arg_package_set a;
     package_year := arg_package_year a;
     mandatory_pkg := arg_mandatory_pkg a;
     optional_pkg := arg_optional_pkg a;
     base_url := base;
     caching_server := cs;
     source_url :=
       match cs with
       | Some _ => "?source=" +:+ urlparse_netloc base
       | None => ""
       end;
     cache_base_url :=
       match cs with
       | Some c => c +:+ "/lp10_ms3_content_"
       | None => ""
       end;
     files_process :=
       match arg_files_process a with
       | Some (_ :: _ as l) => Some l
       | _ => None
       end;
     jss_mode := arg_jss_mode a;
     dmg_path := if opt_truthy (arg_dmg_path a) then arg_dmg_path a else None;
     loop_feed_locations := feeds;
     alt_loop_feed_base_url :=
       "https://raw.githubusercontent.com/carlashley/appleLoops/master/lp10_ms3_content_";
     master_list := [];
     download_amount := [] |}.

(** [build_url] *)
Definition build_url (self : AppleLoops) (loop_year filename : string) : string :=
  let seperator := "/" in
  if (opt_truthy (caching_server self) && PyStr.endswith filename ".pkg")%bool
  then PyStr.join seperator [cache_base_url self +:+ loop_year;
                             filename +:+ source_url self]
  else PyStr.join seperator [base_url self +:+ loop_year; filename].


(** ** The network *)

(** One entry of a sub-feed's [Packages] dictionary, as the feeds have
    them: with a name and a size; [IsMandatory] may be missing. *)
Record pkg_entry : Type := mkEntry {
  DownloadName : string;
  IsMandatory : option bool;
  DownloadSize : pyval
}.

(** The body of an answer read as a sub-feed: [readPlistFromString] raises,
    or it gives an object that is no dictionary, or a dictionary without the
    key ['Packages'], or one with the package entries (in the dictionary's
    iteration order). *)
Inductive decoded : Type :=
  | Undecodable
  | NoDictionary
  | NoPackages
  | Packages (entries : list (string * pkg_entry)).

(** What [urllib2.urlopen] answers: the body read as a sub-feed, the
    [Content-Length] header if there is one, and the body as the successive
    non-empty buffers that [read(8192)] returns. *)
Record response : Type := mkResponse {
  resp_packages : decoded;
  resp_content_length : option string;
  resp_body : list string
}.

(** [None]: the request raises. *)
Definition Net : Type := string -> option response.

(** [request_url] *)
Definition request_url (net : Net) (url : string) : result response :=
  match net url with
  | Some r => Ok r
  | None => Raise URLError
  end.

(** ** Manifest Builder *)

Definition set_master_list (self : AppleLoops) (ml : list Loop) : AppleLoops :=
  {| download_location := download_location self;
     dry_run := dry_run self;
     package_set := package_set self;
     package_year := package_year self;
     mandatory_pkg := mandatory_pkg self;
     optional_pkg := optional_pkg self;
     base_url := base_url self;
     caching_server := caching_server self;
     source_url := source_url self;
     cache_base_url := cache_base_url self;
     files_process := files_process self;
     jss_mode := jss_mode self;
     dmg_path := dmg_path self;
     loop_feed_locations := loop_feed_locations self;
     alt_loop_feed_base_url := alt_loop_feed_base_url self;
     master_list := ml;
     download_amount := download_amount self |}.

(** The size clean-up at the head of [add_loop]:
    [package_size.replace('.', '')], left alone when the value is no string. *)
Definition clean_size (package_size : pyval) : pyval :=
  match package_size with
  | PyStr s => PyStr (PyStr.remove_char "." s)
  | PyInt n => PyInt n
  end.

(** The tuple [add_loop] builds from its arguments. *)
Definition new_loop (package_name package_url : string) (package_mandatory : bool)
    (package_size : pyval) (package_year loop_for plist : string) : Loop :=
  {| pkg_name := package_name;
     pkg_url := package_url;
     pkg_mandatory := package_mandatory;
     pkg_size := clean_size package_size;
     pkg_year := package_year;
     pkg_loop_for := loop_for;
     pkg_plist := plist |}.

(** [add_loop] *)
Definition add_loop (self : AppleLoops) (package_name package_url : string)
    (package_mandatory : bool) (package_size : pyval)
    (package_year loop_for plist : string) : AppleLoops :=
  let loop := new_loop package_name package_url package_mandatory package_size
                package_year loop_for plist in
  if decide (loop ∈ master_list self) then self
  else set_master_list self (master_list self ++ [loop]).

Definition legacy_origin : string := "http://audiocontentdownload.apple.com/".

Definition catalog_marker : string := "lp10_ms3".

(** [[x[-4:] for x in url.split('/') if 'lp10_ms3' in x][0]] *)
Definition year_of_url (url : string) : result string :=
  match PyStr.last_chars 4 <$>
        List.filter (PyStr.contains catalog_marker) (PyStr.split "/" url) with
  | y :: _ => Ok y
  | [] => Raise IndexError
  end.

(** The size probe of [process_plist]: the stripped [Content-Length] of the
    package URL, and under a bare [except] the feed's [DownloadSize]. *)
Definition probe_size (net : Net) (url : string) (e : pkg_entry) : result pyval :=
  try_except
    (do request <- request_url net url;
     match resp_content_length request with
     | Some h => Ok (PyStr (PyStr.strip h))
     | None => Raise AttributeError
     end)
    (Ok (DownloadSize e)).

(** Name and URL of an entry, after the fix-up of names that start with
    [../]. *)
Definition name_and_url (self : AppleLoops) (loop_year : string) (e : pkg_entry)
    : string * string :=
  let name := DownloadName e in
  let url := build_url self loop_year name in
  if PyStr.startswith name "../"
  then (OsPath.basename name, legacy_origin +:+ PyStr.drop 3 name)
  else (name, url).

(** The last statements of the loop body of [process_plist]: the
    mandatory/optional gate in front of [add_loop]. *)
Definition gate_add_loop (self : AppleLoops) (name url : string) (mandatory : bool)
    (size : pyval) (year loop_for _plist : string) : AppleLoops :=
  let self1 :=
    if (mandatory_pkg self && negb (optional_pkg self))%bool then
      if mandatory then add_loop self name url mandatory size year loop_for _plist
      else self
    else if (optional_pkg self && negb (mandatory_pkg self))%bool then
      if negb mandatory then add_loop self name url mandatory size year loop_for _plist
      else self
    else self in
  if (negb (mandatory_pkg self1) && negb (optional_pkg self1))%bool
  then add_loop self1 name url mandatory size year loop_for _plist
  else self1.

(** The arguments [process_plist] computes for [add_loop] from one entry. *)
Definition entry_loop (self : AppleLoops) (net : Net) (loop_year loop_for _plist : string)
    (e : pkg_entry) : result Loop :=
  let '(name, url) := name_and_url self loop_year e in
  let mandatory := default false (IsMandatory e) in
  do year <- year_of_url url;
  do size <- probe_size net url e;
  Ok (new_loop name url mandatory size year loop_for _plist).

(** One turn of the loop [for pkg in data['Packages']]. *)
Definition process_package (net : Net) (loop_year loop_for _plist : string)
    (e : pkg_entry) (self : AppleLoops) : result AppleLoops :=
  let '(name, url) := name_and_url self loop_year e in
  let mandatory := default false (IsMandatory e) in
  do year <- year_of_url url;
  do size <- probe_size net url e;
  Ok (gate_add_loop self name url mandatory size year loop_for _plist).

(** A [for] loop whose body may raise. *)
Fixpoint for_each {A S : Type} (body : A -> S -> result S) (l : list A) (s : S)
    : result S :=
  match l with
  | [] => Ok s
  | x :: rest => do s' <- body x s; for_each body rest s'
  end.

Definition is_digit (a : ascii) : bool :=
  match Ascii.is_nat a with Some _ => true | None => false end.

(** [process_plist] *)
Definition process_plist (self : AppleLoops) (net : Net) (loop_year plist : string)
    : result AppleLoops :=
  let plist_url := build_url self loop_year plist in
  let alt_plist_url :=
    alt_loop_feed_base_url self +:+ loop_year +:+ "/" +:+ plist in
  let _plist := OsPath.splitext_root plist in
  do request <- try_except (request_url net plist_url)
                           (request_url net alt_plist_url);
  do data <- match resp_packages request with
             | Packages d => Ok d
             | NoPackages => Raise KeyError
             | NoDictionary => Raise TypeError
             | Undecodable => Raise PlistError
             end;
  let loop_for :=
    PyStr.filter (fun c => negb (is_digit c)) (OsPath.splitext_root plist) in
  for_each (fun pkg => process_package net loop_year loop_for _plist (snd pkg))
    data self.

(** The records of all the entries of a sub-feed, whatever the
    mandatory/optional options say: what [process_plist] would hand to
    [add_loop] for each entry in turn. *)
Fixpoint collect {A B : Type} (f : A -> result B) (l : list A) : result (list B) :=
  match l with
  | [] => Ok []
  | x :: rest => do y <- f x; do ys <- collect f rest; Ok (y :: ys)
  end.

Definition feed_loops (self : AppleLoops) (net : Net) (loop_year plist : string)
    : result (list Loop) :=
  let plist_url := build_url self loop_year plist in
  let alt_plist_url :=
    alt_loop_feed_base_url self +:+ loop_year +:+ "/" +:+ plist in
  let _plist := OsPath.splitext_root plist in
  do request <- try_except (request_url net plist_url)
                           (request_url net alt_plist_url);
  do data <- match resp_packages request with
             | Packages d => Ok d
             | NoPackages => Raise KeyError
             | NoDictionary => Raise TypeError
             | Undecodable => Raise PlistError
             end;
  let loop_for :=
    PyStr.filter (fun c => negb (is_digit c)) (OsPath.splitext_root plist) in
  collect (fun pkg => entry_loop self net loop_year loop_for _plist (snd pkg)) data.

(** Does the mandatory/optional gate of [process_plist] let an entry
    through? *)
Definition passes_gate (self : AppleLoops) (mandatory : bool) : bool :=
  (mandatory_pkg self && negb (optional_pkg self) && mandatory
   || optional_pkg self && negb (mandatory_pkg self) && negb mandatory
   || negb (mandatory_pkg self) && negb (optional_pkg self))%bool.

(** [d[k]] on a dictionary held as an association list. *)
Definition getitem {V : Type} (d : list (string * V)) (k : string) : result V :=
  match List.find (fun kv => String.eqb (fst kv) k) d with
  | Some kv => Ok (snd kv)
  | None => Raise KeyError
  end.

Definition str_in (x : string) (l : list string) : bool :=
  List.existsb (String.eqb x) l.

(** [build_master_list] *)
Definition build_master_list (self : AppleLoops) (net : Net) : result AppleLoops :=
  match files_process self with
  | Some files =>
      for_each (fun pkg_set =>
        for_each (fun year self =>
          do by_year <- getitem (loop_feed_locations self) pkg_set;
          do package_plist <- getitem by_year year;
          for_each (fun plist self =>
            if str_in plist package_plist
            then process_plist self net year plist
            else Ok self) files self)
          (package_year self))
        (package_set self) self
  | None =>
      for_each (fun pkg_set =>
        for_each (fun year self =>
          do by_year <- getitem (loop_feed_locations self) pkg_set;
          do package_plist <- getitem by_year year;
          for_each (fun plist self => process_plist self net year plist)
            package_plist self)
          (package_year self))
        (package_set self) self
  end.

(** ** The filesystem *)

Record node : Type := mkNode {
  nd_isdir : bool;
  nd_size : Z        (* [os.path.getsize] *)
}.

(** The paths that exist, in the order the directory listings enumerate
    them, under normalised names; [blksize] is the [st_blksize] that
    [os.stat] reports on this filesystem; [homes] gives the home
    directories that [os.path.expanduser] finds, the one of the user who
    runs the program under the empty name. *)
Record FS : Type := mkFS {
  blksize : Z;
  nodes : list (string * node);
  homes : list (string * string)
}.

Definition nonempty (s : string) : bool := negb (String.eqb s "").

Definition components (p : string) : list string :=
  List.filter nonempty (PyStr.split "/" p).

(** Runs of slashes and a trailing slash do not change what a path names. *)
Definition normpath (p : string) : string :=
  (if PyStr.startswith p "/" then "/" else "") +:+ PyStr.join "/" (components p).

Definition fs_lookup (fs : FS) (p : string) : option node :=
  snd <$> List.find (fun kv => String.eqb (fst kv) (normpath p)) (nodes fs).

(** [os.path.exists] *)
Definition path_exists (fs : FS) (p : string) : bool :=
  match fs_lookup fs p with Some _ => true | None => false end.

(** [os.path.isdir] *)
Definition path_isdir (fs : FS) (p : string) : bool :=
  match fs_lookup fs p with Some nd => nd_isdir nd | None => false end.

Fixpoint put_node (k : string) (nd : node) (l : list (string * node))
    : list (string * node) :=
  match l with
  | [] => [(k, nd)]
  | (k', nd') :: rest =>
      if String.eqb k' k then (k, nd) :: rest else (k', nd') :: put_node k nd rest
  end.

Definition fs_put (fs : FS) (p : string) (nd : node) : FS :=
  {| blksize := blksize fs;
     nodes := put_node (normpath p) nd (nodes fs);
     homes := homes fs |}.

(** A name that the pattern [*] matches: not empty, not hidden. *)
Definition star_matches (name : string) : bool :=
  (nonempty name && negb (PyStr.startswith name "."))%bool.

(** [glob('%s/*/*/*/' % root)]: the directories three levels under [root],
    each with a trailing slash. *)
Definition glob3 (fs : FS) (root : string) : list string :=
  let r := normpath root in
  let pre := if String.eqb r "/" then "/" else r +:+ "/" in
  let hit (kv : string * node) :=
    (nd_isdir (snd kv) && PyStr.startswith (fst kv) pre &&
     match PyStr.split "/" (PyStr.drop (String.length pre) (fst kv)) with
     | [a; b; c] => star_matches a && star_matches b && star_matches c
     | _ => false
     end)%bool in
  (fun kv => fst kv +:+ "/") <$> List.filter hit (nodes fs).

Fixpoint prefixes_go (acc : string) (comps : list string) : list string :=
  match comps with
  | [] => []
  | c :: rest =>
      let p := (if (String.eqb acc "" || String.eqb acc "/")%bool
                then acc else acc +:+ "/") +:+ c in
      p :: prefixes_go p rest
  end.

(** [os.makedirs]: the directory and its missing parents; an existing file
    on the way is an error. *)
Definition makedirs (fs : FS) (folder : string) : result FS :=
  for_each (fun p fs =>
              match fs_lookup fs p with
              | Some nd => if nd_isdir nd then Ok fs else Raise OSError
              | None => Ok (fs_put fs p (mkNode true 0))
              end)
    (prefixes_go (if PyStr.startswith folder "/" then "/" else "")
       (components folder))
    fs.

(** ** Effects and output *)

Inductive message : Type :=
  | MsgCopied (counter total : Z) (existing_copy : string)
  | MsgCopy (existing_copy : string)
  | MsgSkipped (counter total : Z) (name : string)
  | MsgSkip (name : string)
  | MsgDownloading (counter total : Z) (name : string) (size : pyfloat)
  | MsgProgress (counter total : Z) (name : string) (bytes_so_far : Z)
      (size : pyfloat)
  | MsgNewline
  | MsgDownload (name : string) (size : pyfloat)
  | MsgToDownload (packages download_counter : Z) (download_amount : pyfloat)
  | MsgDownloaded (download_counter : Z) (download_amount : pyfloat)
  | MsgBuild (dmg src : string)
  | MsgBuilding (dmg src : string).

Inductive event : Type :=
  | EvPrint (m : message)
  | EvMakedirs (folder : string)
  | EvCopy (src dst : string)
  | EvRequest (url : string)
  | EvOpenWrite (path : string)
  | EvWrite (path : string) (len : Z)
  | EvClose (url : string)
  | EvSleepUniform (lo hi : Z)
  | EvHdiutil (src dmg : string).

Definition is_print (e : event) : bool :=
  match e with EvPrint _ => true | _ => false end.

(** What a run acts on besides the instance: the filesystem and the record
    of what was done, oldest first. *)
Record World : Type := mkWorld {
  fs : FS;
  trace : list event
}.

Definition emit (w : World) (e : event) : World :=
  {| fs := fs w; trace := trace w ++ [e] |}.

Definition set_fs (w : World) (f : FS) : World :=
  {| fs := f; trace := trace w |}.

Definition set_download_amount (self : AppleLoops) (l : list pyfloat)
    : AppleLoops :=
  {| download_location := download_location self;
     dry_run := dry_run self;
     package_set := package_set self;
     package_year := package_year self;
     mandatory_pkg := mandatory_pkg self;
     optional_pkg := optional_pkg self;
     base_url := base_url self;
     caching_server := caching_server self;
     source_url := source_url self;
     cache_base_url := cache_base_url self;
     files_process := files_process self;
     jss_mode := jss_mode self;
     dmg_path := dmg_path self;
     loop_feed_locations := loop_feed_locations self;
     alt_loop_feed_base_url := alt_loop_feed_base_url self;
     master_list := master_list self;
     download_amount := l |}.

Definition len {A} (l : list A) : Z := Z.of_nat (length l).

(** [sum(l)] *)
Definition sum (l : list Z) : Z := foldr Z.add 0 l.

(** ** Completeness Oracle and Duplicate Locator *)

(** [a / b] on Python 2 integers: the floor of the quotient. *)
Definition py_div (a b : Z) : result Z :=
  if b =? 0 then Raise ZeroDivisionError else Ok (a / b).

(** [os.path.getsize] of a path that exists. *)
Definition getsize (fs : FS) (p : string) : Z :=
  match fs_lookup fs p with Some nd => nd_size nd | None => 0 end.

(** [file_exists] *)
Definition file_exists (fs : FS) (loop : Loop) (local_file : string) : result pyflag :=
  if path_exists fs local_file then
    let block_size := blksize fs in
    do size <- py_int (pkg_size loop);
    do remote_blocks <- py_div size block_size;
    do local_blocks <- py_div (getsize fs local_file) block_size;
    if local_blocks >=? remote_blocks then Ok PyTrue else Ok PyFalse
  else Ok PyNone.

(** [duplicate_file]. Both branches of the loop body return, so only the
    first path of [glob_path] is ever examined; with no path at all the
    function ends without [return]. *)
Definition duplicate_file (self : AppleLoops) (fs : FS) (loop : Loop) : result pyflag :=
  let glob_path := glob3 fs (download_location self) in
  match glob_path with
  | path :: _ =>
      do found <- file_exists fs loop (OsPath.join path (pkg_name loop));
      if truthy found then Ok PyTrue else Ok PyFalse
  | [] => Ok PyNone
  end.

(** [local_directory] *)
Definition local_directory (self : AppleLoops) (loop : Loop) : string :=
  let directory_path := OsPath.join (download_location self) (pkg_plist loop) in
  if pkg_mandatory loop then OsPath.join directory_path "mandatory"
  else OsPath.join directory_path "optional".

(** ** Download Orchestrator *)

(** [os.path.expanduser]: a leading [~] or [~name] is replaced by the home
    directory of the user, without its trailing slashes. Where no home
    directory is found the path stays as it is: [expanduser] returns it for
    an unknown name, and the callers pass over what it raises. *)
Definition expanduser (f : FS) (path : string) : string :=
  if PyStr.startswith path "~" then
    let rest := PyStr.drop 1 path in
    let name := hd "" (PyStr.split "/" rest) in
    let tail := PyStr.drop (String.length name) rest in
    match List.find (fun kv => String.eqb (fst kv) name) (homes f) with
    | Some kv =>
        let expanded := PyStr.rstrip_char "/" (snd kv) +:+ tail in
        if String.eqb expanded "" then "/" else expanded
    | None => path
    end
  else path.

(** [make_storage_location]. The call of [os.path.expandvar], a function
    that does not exist, raises and is passed over. *)
Definition make_storage_location (w : World) (folder : string) : result World :=
  let folder := expanduser (fs w) folder in
  if negb (path_isdir (fs w) folder) then
    do f <- makedirs (fs w) folder;
    Ok (emit (set_fs w f) (EvMakedirs folder))
  else Ok w.

(** [shutil.copy2] into a directory that is there, as it is after
    [make_storage_location]. *)
Definition copy2 (w : World) (src dst : string) : result World :=
  match fs_lookup (fs w) src with
  | Some nd =>
      if nd_isdir nd then Raise IOError
      else
        let dst := if path_isdir (fs w) dst
                   then OsPath.join dst (OsPath.basename src) else dst in
        Ok (emit (set_fs w (fs_put (fs w) dst (mkNode false (nd_size nd))))
              (EvCopy src dst))
  | None => Raise IOError
  end.

(** The loop of [copy_duplicate] over [glob_path]: the first directory that
    holds a complete copy is used, then [break]. *)
Fixpoint copy_scan (self : AppleLoops) (loop : Loop) (counter : Z)
    (local_dir local_file : string) (glob_path : list string) (w : World)
    : result World :=
  match glob_path with
  | [] => Ok w
  | path :: rest =>
      do found <- file_exists (fs w) loop (OsPath.join path (pkg_name loop));
      if truthy found then
        let existing_copy := OsPath.join path (pkg_name loop) in
        if negb (dry_run self) then
          do w1 <- make_storage_location w local_dir;
          do w2 <- copy2 w1 existing_copy local_file;
          Ok (emit w2 (EvPrint (MsgCopied counter (len (master_list self))
                                  existing_copy)))
        else Ok (emit w (EvPrint (MsgCopy existing_copy)))
      else copy_scan self loop counter local_dir local_file rest w
  end.

(** [copy_duplicate], from the test of the target's [file_exists] result on. *)
Definition copy_duplicate_on (self : AppleLoops) (loop : Loop) (counter : Z)
    (w : World) (target_complete : pyflag) : result World :=
  let glob_path := glob3 (fs w) (download_location self) in
  let local_dir := local_directory self loop in
  let local_file := OsPath.join local_dir (pkg_name loop) in
  if negb (truthy target_complete) then
    copy_scan self loop counter local_dir local_file glob_path w
  else if negb (dry_run self) then
    Ok (emit w (EvPrint (MsgSkipped counter (len (master_list self))
                           (pkg_name loop))))
  else Ok (emit w (EvPrint (MsgSkip (pkg_name loop)))).

(** [copy_duplicate] *)
Definition copy_duplicate (self : AppleLoops) (loop : Loop) (counter : Z)
    (w : World) : result World :=
  let local_file := OsPath.join (local_directory self loop) (pkg_name loop) in
  do target_complete <- file_exists (fs w) loop local_file;
  copy_duplicate_on self loop counter w target_complete.

(** The [while True] loop of [download]: one turn per buffer read; an empty
    buffer or the end of the body stops it. The percentage needs
    [float(loop.pkg_size)] and divides by it. *)
Fixpoint stream (self : AppleLoops) (loop : Loop) (counter : Z)
    (local_file : string) (body : list string) (bytes_so_far : Z) (w : World)
    : result (Z * World) :=
  let finish := Ok (bytes_so_far,
                    if jss_mode self then w else emit w (EvPrint MsgNewline)) in
  match body with
  | [] => finish
  | buffer :: rest =>
      if String.eqb buffer "" then finish
      else
        let bytes_so_far := bytes_so_far + Z.of_nat (String.length buffer) in
        let w1 := emit (set_fs w (fs_put (fs w) local_file
                                    (mkNode false bytes_so_far)))
                    (EvWrite local_file (Z.of_nat (String.length buffer))) in
        do size <- py_float (pkg_size loop);
        if float_is_zero size then Raise ZeroDivisionError
        else
          let w2 := if jss_mode self then w1
                    else emit w1 (EvPrint (MsgProgress counter
                                             (len (master_list self))
                                             (pkg_name loop) bytes_so_far size)) in
          stream self loop counter local_file rest bytes_so_far w2
  end.

(** The [finally] block of [download] after the stream has ended: close,
    append to [download_amount], and only if both went through, sleep. *)
Definition download_finally (self : AppleLoops) (loop : Loop) (w : World)
    : AppleLoops * World :=
  let w1 := emit w (EvClose (pkg_url loop)) in
  match py_float (pkg_size loop) with
  | Ok size =>
      (set_download_amount self (download_amount self ++ [size]),
       emit w1 (EvSleepUniform 1 2))
  | Raise _ => (self, w1)
  end.

(** [download], from the test of the target's [file_exists] result on;
    [w] is the world after [make_storage_location] in a real run, where the
    directory of the file is there: [open] fails only on a path that is a
    directory. An exception that leaves the function ends the process, so
    the state it leaves behind is not kept. *)
Definition download_on (self : AppleLoops) (net : Net) (loop : Loop) (counter : Z)
    (w : World) (target_complete : pyflag) : result (AppleLoops * World) :=
  let local_file := OsPath.join (local_directory self loop) (pkg_name loop) in
  if negb (dry_run self) then
    if negb (truthy target_complete) then
      do request <- request_url net (pkg_url loop);
      let w1 := emit w (EvRequest (pkg_url loop)) in
      if path_isdir (fs w1) local_file then Raise IOError
      else
        let w2 := emit (set_fs w1 (fs_put (fs w1) local_file (mkNode false 0)))
                    (EvOpenWrite local_file) in
        do streamed <- stream self loop counter local_file (resp_body request) 0 w2;
        Ok (download_finally self loop (snd streamed))
    else
      Ok (self, emit w (EvPrint (MsgSkipped counter (len (master_list self))
                                   (pkg_name loop))))
  else
    if negb (truthy target_complete) then
      do size <- py_float (pkg_size loop);
      Ok (set_download_amount self (download_amount self ++ [size]),
          emit w (EvPrint (MsgDownload (pkg_name loop) size)))
    else Ok (self, emit w (EvPrint (MsgSkip (pkg_name loop)))).

(** [download] *)
Definition download (self : AppleLoops) (net : Net) (loop : Loop) (counter : Z)
    (w : World) : result (AppleLoops * World) :=
  let local_dir := local_directory self loop in
  let local_file := OsPath.join local_dir (pkg_name loop) in
  if negb (dry_run self) then
    do w1 <- make_storage_location w local_dir;
    do target_complete <- file_exists (fs w1) loop local_file;
    download_on self net loop counter w1 target_complete
  else
    do target_complete <- file_exists (fs w) loop local_file;
    download_on self net loop counter w target_complete.

(** [build_dmg] for a path that is given, as [main_processor] calls it (the
    default name, which holds the date, is taken for an empty path only);
    the image the external tool writes is recorded as a file whose size is
    not modelled. *)
Definition build_dmg (self : AppleLoops) (w : World) (dmg : string) : World :=
  let source_path := download_location self in
  let dmg := expanduser (fs w) dmg in
  if dry_run self then emit w (EvPrint (MsgBuild dmg source_path))
  else
    let w1 := emit w (EvPrint (MsgBuilding dmg source_path)) in
    emit (set_fs w1 (fs_put (fs w1) dmg (mkNode false 0)))
      (EvHdiutil source_path dmg).

(** The loop of [main_processor] over [master_list]. *)
Fixpoint main_loop (net : Net) (loops : list Loop) (counter download_counter : Z)
    (self : AppleLoops) (w : World) : result (AppleLoops * World * Z) :=
  match loops with
  | [] => Ok (self, w, download_counter)
  | loop :: rest =>
      do dup <- duplicate_file self (fs w) loop;
      if truthy dup then
        do w1 <- copy_duplicate self loop counter w;
        main_loop net rest (counter + 1) download_counter self w1
      else
        do w1 <- (if jss_mode self then
                    do size <- py_float (pkg_size loop);
                    Ok (emit w (EvPrint (MsgDownloading counter
                                           (len (master_list self))
                                           (pkg_name loop) size)))
                  else Ok w);
        do after <- download self net loop counter w1;
        main_loop net rest (counter + 1) (download_counter + 1)
          (fst after) (snd after)
  end.

(** [main_processor] after [build_master_list]: the loop, the closing
    report and the optional disk image. *)
Definition process_manifest (self : AppleLoops) (net : Net) (w : World)
    : result (AppleLoops * World) :=
  do looped <- main_loop net (master_list self) 1 0 self w;
  let '(self1, w1, download_counter) := looped in
  let total := fsum (download_amount self1) in
  let w2 :=
    if dry_run self1 then
      emit w1 (EvPrint (MsgToDownload (len (master_list self1)) download_counter
                          total))
    else if len (download_amount self1) >=? 1 then
      emit w1 (EvPrint (MsgDownloaded download_counter total))
    else w1 in
  Ok (self1, match dmg_path self1 with
             | Some dmg => if String.eqb dmg "" then w2
                           else build_dmg self1 w2 dmg
             | None => w2
             end).

(** [main_processor] *)
Definition main_processor (self : AppleLoops) (net : Net) (w : World)
    : result (AppleLoops * World) :=
  do self1 <- build_master_list self net;
  process_manifest self1 net w.

(** ** Totals a dry run is compared with *)

Definition holds (r : result pyflag) : bool :=
  match r with
  | Ok v => truthy v
  | Raise _ => false
  end.

Definition target_path (self : AppleLoops) (loop : Loop) : string :=
  OsPath.join (local_directory self loop) (pkg_name loop).

(** The package is complete at its own place in the download tree. *)
Definition complete_at_target (self : AppleLoops) (f : FS) (loop : Loop) : bool :=
  holds (file_exists f loop (target_path self loop)).

(** The Duplicate Locator answers "found". *)
Definition located (self : AppleLoops) (f : FS) (loop : Loop) : bool :=
  holds (duplicate_file self f loop).

(** The package is complete somewhere in the tree: at its own place or in
    one of the directories the Duplicate Locator is meant to scan. *)
Definition complete_in_tree (self : AppleLoops) (f : FS) (loop : Loop) : bool :=
  (complete_at_target self f loop ||
   List.existsb (fun path => holds (file_exists f loop
                                      (OsPath.join path (pkg_name loop))))
     (glob3 f (download_location self)))%bool.

(** The size a record declares, read as an integer. *)
Definition declared_size (loop : Loop) : Z :=
  match py_int (pkg_size loop) with
  | Ok n => n
  | Raise _ => 0
  end.

(** What a dry run records for an entry with a size that reads as an
    integer: that integer as a float. *)
Definition announced (loop : Loop) : pyfloat := to_float (declared_size loop).

Definition total_size (loops : list Loop) : Z := sum (declared_size <$> loops).

(** Sum of the declared sizes of the entries not complete at their own
    place. *)
Definition total_not_at_target (self : AppleLoops) (f : FS) : Z :=
  total_size (List.filter (fun l => negb (complete_at_target self f l))
                (master_list self)).

(** Sum of the declared sizes of the entries not complete anywhere in the
    tree. *)
Definition total_not_in_tree (self : AppleLoops) (f : FS) : Z :=
  total_size (List.filter (fun l => negb (complete_in_tree self f l))
                (master_list self)).

(** Sum of the declared sizes of the entries that the Duplicate Locator does
    not find and that are not complete at their own place. *)
Definition total_to_fetch (self : AppleLoops) (f : FS) : Z :=
  total_size (List.filter (fun l => negb (located self f l) &&
                                    negb (complete_at_target self f l))%bool
                (master_list self)).

(** The entries have sizes that read as numbers. *)
Definition sizes_numeric (loops : list Loop) : Prop :=
  forall l, l ∈ loops -> exists n, py_int (pkg_size l) = Ok n.


(** What one turn of the loop of [process_plist] does to the instance, in
    terms of the record [l] built for the entry. *)
Definition insert_loop (self : AppleLoops) (l : Loop) : AppleLoops :=
  if passes_gate self (pkg_mandatory l) then
    set_master_list self
      (if decide (l ∈ master_list self) then master_list self
       else master_list self ++ [l])
  else self.

(** Two instances that differ in [master_list] at most. *)
Definition same_options (self self' : AppleLoops) : Prop :=
  self' = set_master_list self (master_list self').

(** The answer [process_plist] works on: the one of the feed's URL, or of
    the fallback URL when the first request raises. *)
Definition feed_request (self : AppleLoops) (net : Net) (loop_year plist : string)
    : result response :=
  try_except (request_url net (build_url self loop_year plist))
    (request_url net (alt_loop_feed_base_url self +:+ loop_year +:+ "/" +:+ plist)).

(** The size probe of a URL fails: the request raises, or the answer has no
    [Content-Length] header. *)
Definition probe_fails (net : Net) (url : string) : Prop :=
  net url = None \/ exists r, net url = Some r /\ resp_content_length r = None.

(** The first path segment that holds the catalog marker. *)
Definition marker_segment (path : string) : option string :=
  head (List.filter (PyStr.contains catalog_marker) (PyStr.split "/" path)).

(** A step that leaves the filesystem alone and only prints. *)
Definition only_prints (w w' : World) : Prop :=
  fs w' = fs w /\
  exists out, trace w' = trace w ++ out /\ Forall (fun e => is_print e = true) out.

(** The bytes a body delivers: its buffers up to the first empty one. *)
Fixpoint received (body : list string) : Z :=
  match body with
  | [] => 0
  | buffer :: rest =>
      if String.eqb buffer "" then 0
      else Z.of_nat (String.length buffer) + received rest
  end.

(** ** Sample inputs *)

Module Sample.

Definition args : init_args :=
  {| arg_download_location := Some "/dl";
     arg_dry_run := true;
     arg_package_set := ["garageband"];
     arg_package_year := ["2016"];
     arg_mandatory_pkg := true;
     arg_optional_pkg := false;
     arg_caching_server := None;
     arg_files_process := None;
     arg_jss_mode := false;
     arg_dmg_path := None |}.

Definition feeds : feed_table :=
  [("garageband", [("2016", ["garageband1021.plist"])])].

(** A mandatory-only dry run into [/dl]. *)
Definition self : AppleLoops := init args feeds.

Definition core : pkg_entry :=
  {| DownloadName := "core.pkg"; IsMandatory := Some true;
     DownloadSize := PyInt 5000 |}.

Definition extra : pkg_entry :=
  {| DownloadName := "extra.pkg"; IsMandatory := None;
     DownloadSize := PyInt 700 |}.

Definition legacy : pkg_entry :=
  {| DownloadName := "../lp10_ms3_content_2013/old.pkg"; IsMandatory := Some true;
     DownloadSize := PyStr "1.234" |}.

(** The entry of the design document's example: no segment of its name
    holds the catalog marker. *)
Definition legacy_bar : pkg_entry :=
  {| DownloadName := "../legacy/bar.pkg"; IsMandatory := None;
     DownloadSize := PyInt 7 |}.

Definition feed_url : string :=
  "http://audiocontentdownload.apple.com/lp10_ms3_content_2016/garageband1021.plist".

Definition core_url : string :=
  "http://audiocontentdownload.apple.com/lp10_ms3_content_2016/core.pkg".

(** The sub-feed is served, [core.pkg] answers the size probe, nothing
    else does. *)
Definition net : Net := fun url =>
  if String.eqb url feed_url then
    Some {| resp_packages := Packages [("core", core); ("extra", extra);
                                   ("legacy", legacy); ("core2", core)];
            resp_content_length := None; resp_body := [] |}
  else if String.eqb url core_url then
    Some {| resp_packages := Undecodable; resp_content_length := Some " 4096 ";
            resp_body := ["abc"; "de"] |}
  else None.

(** The same sub-feed with the design document's legacy entry in it. *)
Definition net_bar : Net := fun url =>
  if String.eqb url feed_url then
    Some {| resp_packages := Packages [("core", core); ("bar", legacy_bar)];
            resp_content_length := None; resp_body := [] |}
  else None.

Definition core_loop : Loop :=
  new_loop "core.pkg" core_url true (PyStr "4096") "2016" "garageband"
    "garageband1021".

Definition legacy_loop : Loop :=
  new_loop "old.pkg"
    "http://audiocontentdownload.apple.com/lp10_ms3_content_2013/old.pkg"
    true (PyStr "1234") "2013" "garageband" "garageband1021".

Definition dir : node := {| nd_isdir := true; nd_size := 0 |}.

(** A download tree left by earlier runs: two leaf directories three
    levels under [/dl]; [first.pkg] lies in the one listed first,
    [second.pkg] in the other. Nothing lies yet under
    [/dl/garageband1021]. *)
Definition tree : FS :=
  {| blksize := 4096;
     nodes :=
       [("/dl", dir);
        ("/dl/garageband", dir);
        ("/dl/garageband/2016", dir);
        ("/dl/garageband/2016/mandatory", dir);
        ("/dl/garageband/2016/mandatory/first.pkg",
         {| nd_isdir := false; nd_size := 4096 |});
        ("/dl/logicpro", dir);
        ("/dl/logicpro/2016", dir);
        ("/dl/logicpro/2016/mandatory", dir);
        ("/dl/logicpro/2016/mandatory/second.pkg",
         {| nd_isdir := false; nd_size := 8192 |})];
     homes := [("", "/home/user")] |}.

Definition first_loop : Loop :=
  new_loop "first.pkg"
    "http://audiocontentdownload.apple.com/lp10_ms3_content_2016/first.pkg"
    true (PyStr "4096") "2016" "garageband" "garageband1021".

Definition second_loop : Loop :=
  new_loop "second.pkg"
    "http://audiocontentdownload.apple.com/lp10_ms3_content_2016/second.pkg"
    true (PyStr "8192") "2016" "garageband" "garageband1021".

(** The dry run with a manifest of these two packages. *)
Definition dry : AppleLoops := set_master_list self [first_loop; second_loop].

(** A real run with [core.pkg] as its manifest. *)
Definition real : AppleLoops :=
  set_master_list
    (init {| arg_download_location := Some "/dl";
             arg_dry_run := false;
             arg_package_set := ["garageband"];
             arg_package_year := ["2016"];
             arg_mandatory_pkg := false;
             arg_optional_pkg := false;
             arg_caching_server := None;
             arg_files_process := None;
             arg_jss_mode := true;
             arg_dmg_path := None |} feeds)
    [core_loop].

Definition start : World := {| fs := tree; trace := [] |}.

End Sample.

(** The entries a dry run announces as downloads. *)
Definition to_fetch (self : AppleLoops) (f : FS) (l : Loop) : bool :=
  (negb (located self f l) && negb (complete_at_target self f l))%bool.

(** [self'] has the options of [self] and its master list continued. *)
Definition extends (self self' : AppleLoops) : Prop :=
  same_options self self' /\
  exists added, master_list self' = master_list self ++ added.

(** ** More sample inputs *)

Module Demo.

(** The sub-feed's own URL does not answer; the mirror does. *)
Definition mirror_url : string :=
  "https://raw.githubusercontent.com/carlashley/appleLoops/master/lp10_ms3_content_2016/garageband1021.plist".

Definition mirror_net : Net := fun url =>
  if String.eqb url mirror_url then
    Some {| resp_packages := Packages [("core", Sample.core)];
            resp_content_length := None; resp_body := [] |}
  else None.

(** A run through a caching proxy. *)
Definition proxied : AppleLoops :=
  init {| arg_download_location := Some "/dl";
          arg_dry_run := true;
          arg_package_set := ["garageband"];
          arg_package_year := ["2016"];
          arg_mandatory_pkg := false;
          arg_optional_pkg := false;
          arg_caching_server := Some "http://cache.local:49672/";
          arg_files_process := None;
          arg_jss_mode := false;
          arg_dmg_path := None |} Sample.feeds.

End Demo.

(** ** Path components *)

Definition no_slash (s : string) : bool :=
  PyStr.all_chars (fun a => negb (Ascii.eqb a "/")) s.

(** A name that can stand between two slashes of a path. *)
Definition plain (s : string) : bool := (nonempty s && no_slash s)%bool.

(** The leading slash of an absolute path. *)
Definition root_of (p : string) : string :=
  if PyStr.startswith p "/" then "/" else "".

(** One more component after a path prefix, as [prefixes_go] adds it. *)
Definition extend_path (acc c : string) : string :=
  (if (String.eqb acc "" || String.eqb acc "/")%bool then acc else acc +:+ "/") +:+ c.

(** The step of [makedirs] on one prefix. *)
Definition mkdir_step (p : string) (f : FS) : result FS :=
  match fs_lookup f p with
  | Some nd => if nd_isdir nd then Ok f else Raise OSError
  | None => Ok (fs_put f p (mkNode true 0))
  end.

(** Every path of [f] is in [f'] with the same node, under the same block
    size. *)
Definition keeps_nodes (f f' : FS) : Prop :=
  blksize f' = blksize f /\
  forall p nd, fs_lookup f p = Some nd -> fs_lookup f' p = Some nd.

(** ** The choices offered for [--file] *)

(** The loop of [__init__] that collects the sub-feed names of the
    configuration: for every year of [loop_years] and every product of
    [loop_feeds], each name not collected yet is appended. *)
Definition file_choices (feeds : feed_table) (loop_years : list string)
    : result (list string) :=
  for_each (fun year =>
    for_each (fun app_feed choices =>
      do by_year <- getitem feeds app_feed;
      do plists <- getitem by_year year;
      for_each (fun plist choices =>
                  Ok (if str_in plist choices then choices
                      else choices ++ [plist]))
        plists choices)
      (fst <$> feeds))
    loop_years [].

(** ** The command line *)

(** The namespace [argparse] hands to [main]: an option that takes values
    holds their list, [None] when it was not given. *)
Record cli_args : Type := mkCli {
  cli_build_dmg : option (list string);
  cli_cache_server : option (list string);
  cli_destination : option (list string);
  cli_plist_file : option (list string);
  cli_jss_quiet_output : bool;
  cli_mandatory : bool;
  cli_dry_run : bool;
  cli_optional : bool;
  cli_package_set : option (list string);
  cli_content_year : option (list string)
}.

(** [main] either builds an instance from these arguments and runs it, or
    leaves with an exit status. *)
Inductive startup : Type :=
  | Run (a : init_args)
  | Exit (status : Z).

Definition given {A} (o : option (list A)) : bool :=
  match o with
  | Some (_ :: _) => true
  | _ => false
  end.

(** [o and len(o) is 1], then [o[0]]. *)
Definition single (o : option (list string)) : option string :=
  match o with
  | Some [x] => Some x
  | _ => None
  end.

(** [main], from the parsed arguments to the call of [AppleLoops(...)];
    [list.sort()] on strings is the sort by [String.le]. *)
Definition main_settings (args : cli_args) : startup :=
  let pkg_set :=
    if given (cli_package_set args) then default [] (cli_package_set args)
    else if given (cli_plist_file args)
         then ["garageband"; "logicpro"; "mainstage"]
         else ["garageband"] in
  let store_in := single (cli_destination args) in
  let year :=
    if negb (given (cli_content_year args)) then ["2016"]
    else default [] (cli_content_year args) in
  let cache_server := single (cli_cache_server args) in
  let files_to_process :=
    if given (cli_plist_file args)
    then Some (merge_sort String.le (default [] (cli_plist_file args)))
    else None in
  let jss_output_mode := cli_jss_quiet_output args in
  let run build_dmg :=
    Run {| arg_download_location := store_in;
           arg_dry_run := cli_dry_run args;
           arg_package_set := pkg_set;
           arg_package_year := year;
           arg_mandatory_pkg := cli_mandatory args;
           arg_optional_pkg := cli_optional args;
           arg_caching_server := cache_server;
           arg_files_process := files_to_process;
           arg_jss_mode := jss_output_mode;
           arg_dmg_path := build_dmg |} in
  match single (cli_build_dmg args) with
  | Some dmg => if PyStr.endswith dmg ".dmg" then run (Some dmg) else Exit 1
  | None => run None
  end.

(** An instance with both options set, which the command line rules out and
    the constructor accepts. *)
Definition both_options_instance : AppleLoops :=
  init {| arg_download_location := None; arg_dry_run := true;
          arg_package_set := ["garageband"]; arg_package_year := ["2016"];
          arg_mandatory_pkg := true; arg_optional_pkg := true;
          arg_caching_server := None; arg_files_process := None;
          arg_jss_mode := false; arg_dmg_path := None |} Sample.feeds.

(** * Properties *)

(** ** Strings *)

Lemma append_assoc (a b c : string) : (a +:+ b) +:+ c = a +:+ b +:+ c.
Proof.
  induction a as [|x a IH]; [reflexivity|].
  change (String x ((a +:+ b) +:+ c) = String x (a +:+ b +:+ c)).
  now rewrite IH.
Qed.

Lemma split_nonempty sep s : PyStr.split sep s <> [].
Proof.
  destruct s as [|a s]; cbn; [discriminate|].
  destruct (Ascii.eqb a sep); [discriminate|].
  destruct (PyStr.split sep s); discriminate.
Qed.

(** Splitting distributes over a separator that joins two strings. *)
Lemma split_app_sep sep p rest :
  PyStr.split sep (p +:+ String sep rest)
  = PyStr.split sep p ++ PyStr.split sep rest.
Proof.
  induction p as [|a p IH].
  - change (PyStr.split sep (String sep rest) = "" :: PyStr.split sep rest).
    cbn. now rewrite Ascii.eqb_refl.
  - change (String a p +:+ String sep rest) with (String a (p +:+ String sep rest)).
    cbn. destruct (Ascii.eqb a sep); [now rewrite IH|].
    rewrite IH. pose proof (split_nonempty sep p) as Hne.
    destruct (PyStr.split sep p); [contradiction|reflexivity].
Qed.

(** ** URL Resolver *)

Section UrlResolver.

Variables (a : init_args) (feeds : feed_table).

Let self := init a feeds.

Lemma init_base_url : base_url self = origin_base.
Proof. reflexivity. Qed.

Lemma init_source_url :
  opt_truthy (caching_server self) = true ->
  source_url self = "?source=" +:+ origin_host.
Proof.
  subst self. unfold init. cbn.
  destruct (opt_truthy (arg_caching_server a)); [|discriminate].
  destruct (arg_caching_server a); [reflexivity|discriminate].
Qed.

Lemma init_cache_base_url c :
  arg_caching_server a = Some c -> c <> "" ->
  caching_server self = Some (PyStr.rstrip_char "/" c) /\
  cache_base_url self = PyStr.rstrip_char "/" c +:+ "/lp10_ms3_content_".
Proof.
  intros Hc Hne. subst self. unfold init. cbn. rewrite Hc. cbn.
  apply String.eqb_neq in Hne. rewrite Hne. cbn. split; reflexivity.
Qed.

End UrlResolver.

Lemma build_url_unfold (self : AppleLoops) (year filename : string) :
  build_url self year filename =
    if (opt_truthy (caching_server self) && PyStr.endswith filename ".pkg")%bool
    then cache_base_url self +:+ year +:+ "/" +:+ filename +:+ source_url self
    else base_url self +:+ year +:+ "/" +:+ filename.
Proof.
  unfold build_url.
  destruct (opt_truthy (caching_server self) && PyStr.endswith filename ".pkg")%bool;
    cbn [PyStr.join]; now rewrite !append_assoc.
Qed.

(** C5. For a year and a file name, [build_url] gives
    [<originBase><year>/<filename>] unless a caching proxy is configured and
    the name ends in [.pkg]; in that case it gives
    [<cacheBase><year>/<filename>?source=<originHost>], where the cache base
    is the proxy's address followed by [/lp10_ms3_content_]. *)
Theorem build_url_forms (a : init_args) (feeds : feed_table) (year filename : string) :
  build_url (init a feeds) year filename =
    (if (opt_truthy (caching_server (init a feeds))
         && PyStr.endswith filename ".pkg")%bool
     then cache_base_url (init a feeds) +:+ year +:+ "/" +:+ filename
            +:+ "?source=" +:+ origin_host
     else origin_base +:+ year +:+ "/" +:+ filename)
  /\ cache_base_url (init a feeds) =
     match caching_server (init a feeds) with
     | Some proxy => proxy +:+ "/lp10_ms3_content_"
     | None => ""
     end
  /\ caching_server (init a feeds) =
     if opt_truthy (arg_caching_server a)
     then PyStr.rstrip_char "/" <$> arg_caching_server a
     else None.
Proof.
  split; [|split; reflexivity].
  rewrite build_url_unfold.
  destruct (opt_truthy (caching_server (init a feeds))) eqn:Hcs; [|reflexivity].
  destruct (PyStr.endswith filename ".pkg"); [|reflexivity].
  cbn [andb]. now rewrite (init_source_url a feeds Hcs).
Qed.

Example build_url_origin_2016 :
  build_url (init (mkArgs None true [] [] false false None None false None) [])
    "2016" "foo.pkg"
  = "http://audiocontentdownload.apple.com/lp10_ms3_content_2016/foo.pkg".
Proof. reflexivity. Qed.

Example build_url_proxy_2016 :
  build_url (init (mkArgs None true [] [] false false
                     (Some "http://cache.local:49672/") None false None) [])
    "2016" "foo.pkg"
  = "http://cache.local:49672/lp10_ms3_content_2016/foo.pkg?source=audiocontentdownload.apple.com".
Proof. reflexivity. Qed.

Example build_url_proxy_plist :
  build_url (init (mkArgs None true [] [] false false
                     (Some "http://cache.local:49672") None false None) [])
    "2016" "garageband1021.plist"
  = "http://audiocontentdownload.apple.com/lp10_ms3_content_2016/garageband1021.plist".
Proof. reflexivity. Qed.

(** ** Manifest Builder *)

Lemma set_master_list_eta self : set_master_list self (master_list self) = self.
Proof. now destruct self. Qed.

Lemma add_loop_unfold self n u m s y lf pl :
  add_loop self n u m s y lf pl =
  set_master_list self
    (if decide (new_loop n u m s y lf pl ∈ master_list self)
     then master_list self
     else master_list self ++ [new_loop n u m s y lf pl]).
Proof.
  unfold add_loop. destruct (decide _); [now rewrite set_master_list_eta|reflexivity].
Qed.

Lemma gate_add_loop_unfold self n u m s y lf pl :
  gate_add_loop self n u m s y lf pl =
  insert_loop self (new_loop n u m s y lf pl).
Proof.
  unfold gate_add_loop, insert_loop, passes_gate. cbn [pkg_mandatory new_loop].
  destruct (mandatory_pkg self) eqn:Hm, (optional_pkg self) eqn:Ho, m; cbn;
    rewrite ?add_loop_unfold; cbn; rewrite ?Hm, ?Ho; reflexivity.
Qed.

Lemma process_package_unfold net ly lf pl e self :
  process_package net ly lf pl e self =
  do l <- entry_loop self net ly lf pl e; Ok (insert_loop self l).
Proof.
  unfold process_package, entry_loop.
  destruct (name_and_url self ly e) as [name url].
  destruct (year_of_url url); [|reflexivity]. cbn.
  destruct (probe_size net url e); [|reflexivity]. cbn.
  now rewrite gate_add_loop_unfold.
Qed.

Lemma same_options_refl self : same_options self self.
Proof. unfold same_options. now rewrite set_master_list_eta. Qed.

Lemma same_options_trans a b c :
  same_options a b -> same_options b c -> same_options a c.
Proof. unfold same_options. intros -> ->. reflexivity. Qed.

Lemma insert_loop_same_options self l : same_options self (insert_loop self l).
Proof.
  unfold insert_loop. destruct (passes_gate _ _); [reflexivity|].
  apply same_options_refl.
Qed.

Lemma entry_loop_same_options self self' net ly lf pl e :
  same_options self self' ->
  entry_loop self' net ly lf pl e = entry_loop self net ly lf pl e.
Proof. intros ->. reflexivity. Qed.

Lemma passes_gate_same_options self self' m :
  same_options self self' -> passes_gate self' m = passes_gate self m.
Proof. intros ->. reflexivity. Qed.

Lemma master_list_insert_loop self l :
  master_list (insert_loop self l) =
  if passes_gate self (pkg_mandatory l) then
    if decide (l ∈ master_list self) then master_list self
    else master_list self ++ [l]
  else master_list self.
Proof. unfold insert_loop. now destruct (passes_gate _ _). Qed.

(** An invariant of the loop body is an invariant of the loop. *)
Lemma for_each_invariant {A S : Type} (I : S -> Prop) (body : A -> S -> result S) l :
  (forall x s s', body x s = Ok s' -> I s -> I s') ->
  forall s s', for_each body l s = Ok s' -> I s -> I s'.
Proof.
  intros Hbody. induction l as [|x l IH]; intros s s' Hrun Hs; cbn in Hrun.
  - now inversion Hrun; subst.
  - destruct (body x s) as [s1|] eqn:Hx; [|discriminate]. cbn in Hrun.
    eapply IH; eauto.
Qed.

Lemma NoDup_insert_loop self l :
  NoDup (master_list self) -> NoDup (master_list (insert_loop self l)).
Proof.
  intros Hnd. rewrite master_list_insert_loop.
  destruct (passes_gate _ _); [|assumption].
  destruct (decide _) as [|Hnotin]; [assumption|].
  apply NoDup_app. repeat split; [assumption| |apply NoDup_singleton].
  intros x Hx Hx'. apply list_elem_of_singleton in Hx'. now subst.
Qed.

Lemma NoDup_process_package net ly lf pl e self self' :
  process_package net ly lf pl e self = Ok self' ->
  NoDup (master_list self) -> NoDup (master_list self').
Proof.
  rewrite process_package_unfold.
  destruct (entry_loop _ _ _ _ _ _) as [l|]; [|discriminate].
  cbn. intros [= <-]. apply NoDup_insert_loop.
Qed.

Lemma NoDup_process_plist self net ly plist self' :
  process_plist self net ly plist = Ok self' ->
  NoDup (master_list self) -> NoDup (master_list self').
Proof.
  unfold process_plist.
  destruct (try_except _ _) as [request|]; [|discriminate]. cbn.
  destruct (resp_packages request) as [| | |data]; [discriminate..|]. cbn.
  apply (for_each_invariant (fun s => NoDup (master_list s))).
  intros pkg s s'. apply NoDup_process_package.
Qed.

Lemma NoDup_build_master_list self net self' :
  build_master_list self net = Ok self' ->
  NoDup (master_list self) -> NoDup (master_list self').
Proof.
  unfold build_master_list.
  destruct (files_process self) as [files|];
    (apply (for_each_invariant (fun s => NoDup (master_list s)));
     intros pkg_set s1 s1';
     apply (for_each_invariant (fun s => NoDup (master_list s)));
     intros year s2 s2';
     destruct (getitem (loop_feed_locations s2) pkg_set) as [by_year|];
       [|discriminate]; cbn;
     destruct (getitem by_year year) as [package_plist|]; [|discriminate]; cbn;
     apply (for_each_invariant (fun s => NoDup (master_list s)));
     intros plist s3 s3').
  - destruct (str_in plist package_plist).
    + apply NoDup_process_plist.
    + now intros [= <-].
  - apply NoDup_process_plist.
Qed.

(** C4. [add_loop] keeps the master list free of records equal in all seven
    fields: a record already in the list is not added again, a record that
    differs from every listed one is appended and the listed ones stay; so
    the list a manifest build ends with has no record twice. *)
Theorem add_loop_keeps_unique (self : AppleLoops) (name url : string)
    (mandatory : bool) (size : pyval) (year loop_for plist : string) :
  NoDup (master_list self) ->
  let loop := new_loop name url mandatory size year loop_for plist in
  let self' := add_loop self name url mandatory size year loop_for plist in
  NoDup (master_list self')
  /\ loop ∈ master_list self'
  /\ (forall l, l ∈ master_list self -> l ∈ master_list self')
  /\ (loop ∈ master_list self -> master_list self' = master_list self)
  /\ (loop ∉ master_list self -> master_list self' = master_list self ++ [loop])
  /\ (forall net built, build_master_list self net = Ok built ->
        NoDup (master_list built)).
Proof.
  intros Hnd loop self'. subst self'. rewrite add_loop_unfold. fold loop.
  cbn [master_list set_master_list].
  destruct (decide (loop ∈ master_list self)) as [Hin|Hnotin].
  - repeat split; try done. intros net built Hb.
    eapply NoDup_build_master_list; eauto.
  - repeat split; try done.
    + apply NoDup_app. repeat split; [assumption| |apply NoDup_singleton].
      intros x Hx Hx'. apply list_elem_of_singleton in Hx'. now subst.
    + apply elem_of_app. right. apply list_elem_of_singleton. reflexivity.
    + intros l Hl. apply elem_of_app. now left.
    + intros net built Hb. eapply NoDup_build_master_list; eauto.
Qed.

Lemma add_loop_keeps_unique_witness :
  NoDup (master_list (set_master_list Sample.self [Sample.core_loop]))
  /\ NoDup (master_list
              (add_loop (set_master_list Sample.self [Sample.core_loop])
                 "extra.pkg" "http://x/lp10_ms3_content_2016/extra.pkg" false
                 (PyInt 700) "2016" "garageband" "garageband1021")).
Proof.
  assert (H : NoDup (master_list (set_master_list Sample.self [Sample.core_loop])))
    by (apply (bool_decide_unpack _); vm_compute; exact I).
  split; [exact H|].
  exact (proj1 (add_loop_keeps_unique
                  (set_master_list Sample.self [Sample.core_loop])
                  "extra.pkg" "http://x/lp10_ms3_content_2016/extra.pkg" false
                  (PyInt 700) "2016" "garageband" "garageband1021" H)).
Defined.

(** What the loop of [process_plist] leaves in the master list: what was
    there, and the records of the entries that pass the gate. *)
Lemma process_packages_spec self0 net ly lf pl (data : list (string * pkg_entry)) :
  forall cur self',
    same_options self0 cur ->
    for_each (fun pkg => process_package net ly lf pl (snd pkg)) data cur = Ok self' ->
    exists loops,
      collect (fun pkg => entry_loop self0 net ly lf pl (snd pkg)) data = Ok loops
      /\ same_options self0 self'
      /\ forall l, l ∈ master_list self' <->
                   l ∈ master_list cur
                   \/ (l ∈ loops /\ passes_gate self0 (pkg_mandatory l) = true).
Proof.
  induction data as [|pkg data IH]; intros cur self' Hsame Hrun; cbn in Hrun.
  - injection Hrun as <-. exists []. split; [reflexivity|]. split; [assumption|].
    intros l. split; [now left|]. intros [H|[H _]]; [assumption|inversion H].
  - rewrite process_package_unfold in Hrun.
    rewrite (entry_loop_same_options _ _ _ _ _ _ _ Hsame) in Hrun.
    cbn [collect].
    destruct (entry_loop self0 net ly lf pl (snd pkg)) as [l0|]; [|discriminate].
    cbn in Hrun.
    destruct (IH (insert_loop cur l0) self') as (loops & Hcollect & Hsame' & Hmem).
    { eapply same_options_trans; [exact Hsame|apply insert_loop_same_options]. }
    { exact Hrun. }
    exists (l0 :: loops). rewrite Hcollect. cbn. split; [reflexivity|].
    split; [assumption|]. intros l. rewrite Hmem, master_list_insert_loop.
    rewrite (passes_gate_same_options _ _ _ Hsame).
    rewrite elem_of_cons.
    destruct (passes_gate self0 (pkg_mandatory l0)) eqn:Hgate.
    + destruct (decide (l0 ∈ master_list cur)) as [Hin|Hnotin].
      * split; [tauto|]. intros [H|[[->|H] Hg]]; tauto.
      * rewrite elem_of_app, list_elem_of_singleton.
        split; [intros [[H| ->]|H]; tauto|].
        intros [H|[[->|H] Hg]]; tauto.
    + split; [tauto|]. intros [H|[[->|H] Hg]]; [tauto|congruence|tauto].
Qed.

Lemma process_plist_spec self net ly plist self' :
  process_plist self net ly plist = Ok self' ->
  exists loops,
    feed_loops self net ly plist = Ok loops
    /\ same_options self self'
    /\ forall l, l ∈ master_list self' <->
                 l ∈ master_list self
                 \/ (l ∈ loops /\ passes_gate self (pkg_mandatory l) = true).
Proof.
  unfold process_plist, feed_loops.
  destruct (try_except _ _) as [request|]; [|discriminate]. cbn.
  destruct (resp_packages request) as [| | |data]; [discriminate..|]. cbn.
  apply process_packages_spec, same_options_refl.
Qed.

(** C3. Of the entries [process_plist] inserts, a mandatory-only run takes
    mandatory ones only and an optional-only run takes the others only; with
    neither option the master list ends as what it held before together with
    the records of all the entries of the feed. *)
Theorem gate_filters_entries (self : AppleLoops) (net : Net) (loop_year plist : string)
    (self' : AppleLoops) :
  process_plist self net loop_year plist = Ok self' ->
  (mandatory_pkg self = true -> optional_pkg self = false ->
   forall l, l ∈ master_list self' -> l ∉ master_list self ->
             pkg_mandatory l = true)
  /\ (optional_pkg self = true -> mandatory_pkg self = false ->
      forall l, l ∈ master_list self' -> l ∉ master_list self ->
                pkg_mandatory l = false)
  /\ (mandatory_pkg self = false -> optional_pkg self = false ->
      exists loops,
        feed_loops self net loop_year plist = Ok loops
        /\ forall l, l ∈ master_list self' <-> l ∈ master_list self \/ l ∈ loops).
Proof.
  intros Hrun.
  destruct (process_plist_spec _ _ _ _ _ Hrun) as (loops & Hfeed & _ & Hmem).
  unfold passes_gate in Hmem. repeat split.
  - intros Hm Ho l Hl Hnew. apply Hmem in Hl as [Hl|[_ Hg]]; [contradiction|].
    rewrite Hm, Ho in Hg. now destruct (pkg_mandatory l).
  - intros Ho Hm l Hl Hnew. apply Hmem in Hl as [Hl|[_ Hg]]; [contradiction|].
    rewrite Hm, Ho in Hg. now destruct (pkg_mandatory l).
  - intros Hm Ho. exists loops. split; [assumption|]. intros l.
    rewrite Hmem, Hm, Ho. cbn.
    split; [intros [H|[H _]]; tauto|].
    intros [H|H]; [now left|right; now split].
Qed.

Lemma gate_filters_entries_witness :
  process_plist Sample.self Sample.net "2016" "garageband1021.plist"
  = Ok (set_master_list Sample.self [Sample.core_loop; Sample.legacy_loop])
  /\ forall l, l ∈ [Sample.core_loop; Sample.legacy_loop] ->
               l ∉ master_list Sample.self -> pkg_mandatory l = true.
Proof.
  assert (H : process_plist Sample.self Sample.net "2016" "garageband1021.plist"
              = Ok (set_master_list Sample.self [Sample.core_loop; Sample.legacy_loop]))
    by (vm_compute; reflexivity).
  split; [exact H|].
  exact (proj1 (gate_filters_entries Sample.self Sample.net "2016"
                  "garageband1021.plist" _ H) eq_refl eq_refl).
Defined.

(** *** The size probe *)

Lemma probe_size_total net url e : exists size, probe_size net url e = Ok size.
Proof.
  unfold probe_size, request_url.
  destruct (net url) as [r|]; cbn; [|eauto].
  destruct (resp_content_length r); cbn; eauto.
Qed.

Lemma probe_size_fallback net url e :
  probe_fails net url -> probe_size net url e = Ok (DownloadSize e).
Proof.
  unfold probe_size, request_url. intros [Hnone|(r & Hsome & Hlen)].
  - now rewrite Hnone.
  - rewrite Hsome. cbn. now rewrite Hlen.
Qed.

Lemma name_and_url_same_options self self' ly e :
  same_options self self' -> name_and_url self' ly e = name_and_url self ly e.
Proof. intros ->. reflexivity. Qed.

(** The loop over the entries of a feed ends normally as soon as every
    entry's URL shows a year, whatever the network answers to the probes. *)
Lemma packages_loop_completes net ly lf pl (data : list (string * pkg_entry)) self0 :
  (forall pkg, pkg ∈ data ->
     exists y, year_of_url (snd (name_and_url self0 ly (snd pkg))) = Ok y) ->
  forall cur, same_options self0 cur ->
    exists self',
      for_each (fun pkg => process_package net ly lf pl (snd pkg)) data cur = Ok self'.
Proof.
  induction data as [|pkg data IH]; intros Hyears cur Hsame; cbn; [eauto|].
  unfold process_package at 1. rewrite (name_and_url_same_options _ _ _ _ Hsame).
  destruct (Hyears pkg) as [y Hy]; [apply elem_of_cons; now left|].
  destruct (name_and_url self0 ly (snd pkg)) as [name url]. cbn in Hy.
  rewrite Hy. cbn.
  destruct (probe_size_total net url (snd pkg)) as [size ->]. cbn.
  apply IH.
  - intros p Hp. apply Hyears, elem_of_cons. now right.
  - eapply same_options_trans; [exact Hsame|].
    rewrite gate_add_loop_unfold. apply insert_loop_same_options.
Qed.

Lemma collect_Forall2 {A B} (f : A -> result B) (l : list A) (ys : list B) :
  collect f l = Ok ys -> Forall2 (fun x y => f x = Ok y) l ys.
Proof.
  revert ys. induction l as [|x l IH]; intros ys; cbn.
  - intros [= <-]. constructor.
  - destruct (f x) as [y|] eqn:Hx; [|discriminate]. cbn.
    destruct (collect f l) as [ys'|]; [|discriminate]. cbn.
    intros [= <-]. constructor; [exact Hx|now apply IH].
Qed.

(** The record of an entry has the entry's URL, and the feed's size (as
    [add_loop] cleans it) when the probe of that URL fails. *)
Lemma entry_loop_size self net ly lf pl e l :
  entry_loop self net ly lf pl e = Ok l ->
  pkg_url l = snd (name_and_url self ly e)
  /\ (probe_fails net (pkg_url l) -> pkg_size l = clean_size (DownloadSize e)).
Proof.
  unfold entry_loop. destruct (name_and_url self ly e) as [name url]. cbn [snd].
  destruct (year_of_url url) as [year|]; [|discriminate]. cbn [bind].
  destruct (probe_size net url e) as [size|] eqn:Hsize; [|discriminate].
  cbn [bind]. intros [= <-]. cbn [pkg_url pkg_size new_loop].
  split; [reflexivity|]. intros Hfail.
  rewrite (probe_size_fallback _ _ _ Hfail) in Hsize. now injection Hsize as <-.
Qed.

(** C8. Once the feed is fetched and read, [process_plist] ends normally
    whatever the network answers to the size probes of its entries (every
    entry's URL showing a year); an entry whose probe fails, because the
    request raises or the answer has no Content-Length, gets the feed's
    DownloadSize as [add_loop] cleans it, and goes through the gate into the
    master list like any other. *)
Theorem probe_failure_falls_back (self : AppleLoops) (net : Net)
    (loop_year plist : string) (request : response)
    (data : list (string * pkg_entry)) :
  feed_request self net loop_year plist = Ok request ->
  resp_packages request = Packages data ->
  (forall pkg, pkg ∈ data ->
     exists y, year_of_url (snd (name_and_url self loop_year (snd pkg))) = Ok y) ->
  exists self' loops,
    process_plist self net loop_year plist = Ok self'
    /\ feed_loops self net loop_year plist = Ok loops
    /\ (forall l, l ∈ master_list self' <->
                  l ∈ master_list self
                  \/ (l ∈ loops /\ passes_gate self (pkg_mandatory l) = true))
    /\ Forall2 (fun pkg l =>
                  pkg_url l = snd (name_and_url self loop_year (snd pkg))
                  /\ (probe_fails net (pkg_url l) ->
                      pkg_size l = clean_size (DownloadSize (snd pkg))))
         data loops.
Proof.
  intros Hreq Hdata Hyears.
  set (loop_for := PyStr.filter (fun c => negb (is_digit c))
                     (OsPath.splitext_root plist)).
  destruct (packages_loop_completes net loop_year loop_for
              (OsPath.splitext_root plist) data self Hyears self
              (same_options_refl self)) as [self' Hloop].
  assert (Hrun : process_plist self net loop_year plist = Ok self').
  { unfold process_plist. fold (feed_request self net loop_year plist).
    rewrite Hreq. cbn [bind]. rewrite Hdata. cbn [bind]. exact Hloop. }
  destruct (process_plist_spec _ _ _ _ _ Hrun) as (loops & Hfeed & _ & Hmem).
  exists self', loops. split; [exact Hrun|]. split; [exact Hfeed|].
  split; [exact Hmem|].
  unfold feed_loops in Hfeed. fold (feed_request self net loop_year plist) in Hfeed.
  rewrite Hreq in Hfeed. cbn [bind] in Hfeed. rewrite Hdata in Hfeed.
  cbn [bind] in Hfeed. apply collect_Forall2 in Hfeed.
  eapply Forall2_impl; [exact Hfeed|].
  intros pkg l Hl. cbn beta in Hl. now apply entry_loop_size in Hl.
Qed.

Lemma probe_failure_falls_back_witness :
  probe_fails Sample.net (pkg_url Sample.legacy_loop)
  /\ pkg_size Sample.legacy_loop = clean_size (DownloadSize Sample.legacy)
  /\ process_plist Sample.self Sample.net "2016" "garageband1021.plist"
     = Ok (set_master_list Sample.self [Sample.core_loop; Sample.legacy_loop])
  /\ exists self' loops,
       process_plist Sample.self Sample.net "2016" "garageband1021.plist" = Ok self'
       /\ feed_loops Sample.self Sample.net "2016" "garageband1021.plist" = Ok loops
       /\ (forall l, l ∈ master_list self' <->
                     l ∈ master_list Sample.self
                     \/ (l ∈ loops
                         /\ passes_gate Sample.self (pkg_mandatory l) = true))
       /\ Forall2 (fun pkg l =>
                     pkg_url l = snd (name_and_url Sample.self "2016" (snd pkg))
                     /\ (probe_fails Sample.net (pkg_url l) ->
                         pkg_size l = clean_size (DownloadSize (snd pkg))))
            [("core", Sample.core); ("extra", Sample.extra);
             ("legacy", Sample.legacy); ("core2", Sample.core)] loops.
Proof.
  split; [left; vm_compute; reflexivity|]. split; [reflexivity|].
  split; [vm_compute; reflexivity|].
  apply (probe_failure_falls_back Sample.self Sample.net "2016"
           "garageband1021.plist"
           {| resp_packages := Packages [("core", Sample.core);
                                         ("extra", Sample.extra);
                                         ("legacy", Sample.legacy);
                                         ("core2", Sample.core)];
              resp_content_length := None; resp_body := [] |}).
  - vm_compute. reflexivity.
  - reflexivity.
  - intros pkg Hpkg.
    repeat (apply elem_of_cons in Hpkg as [->|Hpkg];
            [eexists; vm_compute; reflexivity|]).
    inversion Hpkg.
Defined.

(** *** Names that start with [../] *)

Lemma legacy_origin_split rest :
  PyStr.split "/" (legacy_origin +:+ rest)
  = ["http:"; ""; "audiocontentdownload.apple.com"] ++ PyStr.split "/" rest.
Proof.
  change (legacy_origin +:+ rest)
    with ("http://audiocontentdownload.apple.com" +:+ String "/" rest).
  now rewrite split_app_sep.
Qed.

Lemma year_of_legacy_url rest seg :
  marker_segment rest = Some seg ->
  year_of_url (legacy_origin +:+ rest) = Ok (PyStr.last_chars 4 seg).
Proof.
  unfold marker_segment, year_of_url. rewrite legacy_origin_split.
  rewrite List.filter_app.
  change (List.filter (PyStr.contains catalog_marker)
            ["http:"; ""; "audiocontentdownload.apple.com"]) with (@nil string).
  cbn [app].
  destruct (List.filter _ (PyStr.split "/" rest)) as [|x xs]; [discriminate|].
  cbn. now intros [= ->].
Qed.

(** C6, as the code has it. For an entry whose name starts with [../] and
    has a segment holding the catalog marker: the URL is the fixed origin
    followed by the name without its first three characters, the record's
    name is the base name, and the year is the last four characters of the
    first such segment, whatever the year of the loop. *)
Theorem legacy_path_rewrite (self : AppleLoops) (net : Net)
    (loop_year loop_for _plist : string) (e : pkg_entry) (seg : string) :
  PyStr.startswith (DownloadName e) "../" = true ->
  marker_segment (PyStr.drop 3 (DownloadName e)) = Some seg ->
  exists l,
    entry_loop self net loop_year loop_for _plist e = Ok l
    /\ pkg_url l = legacy_origin +:+ PyStr.drop 3 (DownloadName e)
    /\ pkg_name l = OsPath.basename (DownloadName e)
    /\ pkg_year l = PyStr.last_chars 4 seg
    /\ process_package net loop_year loop_for _plist e self
       = Ok (insert_loop self l).
Proof.
  intros Hstart Hseg. rewrite process_package_unfold.
  unfold entry_loop, name_and_url. rewrite Hstart.
  rewrite (year_of_legacy_url _ _ Hseg). cbn [bind].
  destruct (probe_size_total net
              (legacy_origin +:+ PyStr.drop 3 (DownloadName e)) e) as [size ->].
  cbn [bind]. eexists. repeat split; reflexivity.
Qed.

Lemma legacy_path_rewrite_witness :
  exists l,
    entry_loop Sample.self Sample.net "2016" "garageband" "garageband1021"
      Sample.legacy = Ok l
    /\ pkg_url l = "http://audiocontentdownload.apple.com/lp10_ms3_content_2013/old.pkg"
    /\ pkg_name l = "old.pkg"
    /\ pkg_year l = "2013".
Proof.
  destruct (legacy_path_rewrite Sample.self Sample.net "2016" "garageband"
              "garageband1021" Sample.legacy "lp10_ms3_content_2013"
              eq_refl eq_refl) as (l & H1 & H2 & H3 & H4 & _).
  exists l. repeat split; assumption.
Defined.

(** C6, as stated, fails on the design document's own example: the URL made
    from [../legacy/bar.pkg] has no segment with the catalog marker, the
    year lookup raises, and no record is made. *)
Lemma legacy_bar_has_no_year :
  PyStr.startswith (DownloadName Sample.legacy_bar) "../" = true
  /\ (forall l, entry_loop Sample.self Sample.net_bar "2016" "garageband"
                  "garageband1021" Sample.legacy_bar <> Ok l)
  /\ process_plist Sample.self Sample.net_bar "2016" "garageband1021.plist"
     = Raise IndexError.
Proof.
  split; [reflexivity|]. split; [|vm_compute; reflexivity].
  intros l. vm_compute. discriminate.
Qed.

(** ** Completeness Oracle *)

Lemma file_exists_missing f loop p :
  path_exists f p = false -> file_exists f loop p = Ok PyNone.
Proof. unfold file_exists. now intros ->. Qed.

Lemma file_exists_present f loop p n :
  path_exists f p = true -> py_int (pkg_size loop) = Ok n -> blksize f <> 0 ->
  file_exists f loop p =
  Ok (if getsize f p / blksize f >=? n / blksize f then PyTrue else PyFalse).
Proof.
  intros Hex Hn Hblk. unfold file_exists, py_div. rewrite Hex, Hn. cbn.
  apply Z.eqb_neq in Hblk. rewrite Hblk. cbn.
  now destruct (_ >=? _).
Qed.

(** With numeric sizes and a block size that is not zero the oracle always
    answers. *)
Lemma file_exists_answers f loop p :
  (exists n, py_int (pkg_size loop) = Ok n) -> blksize f <> 0 ->
  exists flag, file_exists f loop p = Ok flag.
Proof.
  intros [n Hn] Hblk. destruct (path_exists f p) eqn:Hex.
  - rewrite (file_exists_present _ _ _ _ Hex Hn Hblk). eauto.
  - rewrite (file_exists_missing _ _ _ Hex). eauto.
Qed.

(** C1. [file_exists] says "complete" exactly when something exists at the
    path and the local size holds at least as many whole blocks as the
    declared size; so a file short of the declared size with the same number
    of whole blocks counts as complete, and a missing file does not. *)
Theorem file_exists_compares_blocks (f : FS) (loop : Loop) (local_file : string)
    (n : Z) :
  py_int (pkg_size loop) = Ok n ->
  blksize f <> 0 ->
  (exists flag,
     file_exists f loop local_file = Ok flag
     /\ (truthy flag = true <->
         path_exists f local_file = true
         /\ n / blksize f <= getsize f local_file / blksize f))
  /\ (path_exists f local_file = true ->
      getsize f local_file < n ->
      getsize f local_file / blksize f = n / blksize f ->
      file_exists f loop local_file = Ok PyTrue)
  /\ (path_exists f local_file = false ->
      exists flag, file_exists f loop local_file = Ok flag /\ truthy flag = false).
Proof.
  intros Hn Hblk. split; [|split].
  - destruct (path_exists f local_file) eqn:Hex.
    + rewrite (file_exists_present _ _ _ _ Hex Hn Hblk).
      eexists. split; [reflexivity|].
      destruct (Z.geb_spec (getsize f local_file / blksize f) (n / blksize f));
        cbn; split.
      * intros _. split; [reflexivity|lia].
      * reflexivity.
      * discriminate.
      * intros [_ H']. lia.
    + rewrite (file_exists_missing _ _ _ Hex). eexists. split; [reflexivity|].
      cbn. split; [discriminate|]. intros [H _]. discriminate.
  - intros Hex _ Heq. rewrite (file_exists_present _ _ _ _ Hex Hn Hblk), Heq.
    destruct (Z.geb_spec (n / blksize f) (n / blksize f)); [reflexivity|lia].
  - intros Hex. rewrite (file_exists_missing _ _ _ Hex). now exists PyNone.
Qed.

Lemma file_exists_compares_blocks_witness :
  getsize Sample.tree "/dl/garageband/2016/mandatory/first.pkg" < 5000
  /\ file_exists Sample.tree
       (new_loop "first.pkg" "" true (PyInt 5000) "" "" "")
       "/dl/garageband/2016/mandatory/first.pkg" = Ok PyTrue.
Proof.
  split; [reflexivity|].
  refine (proj1 (proj2 (file_exists_compares_blocks Sample.tree
                          (new_loop "first.pkg" "" true (PyInt 5000) "" "" "")
                          "/dl/garageband/2016/mandatory/first.pkg" 5000
                          eq_refl _)) eq_refl eq_refl eq_refl).
  vm_compute. discriminate.
Defined.

(** ** Duplicate Locator *)

(** What [duplicate_file] computes: the oracle's verdict on the first
    directory of the listing, and nothing about the others. *)
Lemma duplicate_file_first_only self f loop path rest :
  glob3 f (download_location self) = path :: rest ->
  duplicate_file self f loop =
  do found <- file_exists f loop (OsPath.join path (pkg_name loop));
  Ok (if truthy found then PyTrue else PyFalse).
Proof.
  unfold duplicate_file. intros ->.
  destruct (file_exists _ _ _) as [found|]; [|reflexivity].
  cbn. now destruct (truthy found).
Qed.

Lemma duplicate_file_empty self f loop :
  glob3 f (download_location self) = [] -> duplicate_file self f loop = Ok PyNone.
Proof. unfold duplicate_file. now intros ->. Qed.

Lemma duplicate_file_answers self f loop :
  (exists n, py_int (pkg_size loop) = Ok n) -> blksize f <> 0 ->
  exists flag, duplicate_file self f loop = Ok flag.
Proof.
  intros Hn Hblk. destruct (glob3 f (download_location self)) as [|path rest] eqn:Hg.
  - rewrite (duplicate_file_empty _ _ _ Hg). eauto.
  - rewrite (duplicate_file_first_only _ _ _ _ _ Hg).
    destruct (file_exists_answers f loop (OsPath.join path (pkg_name loop)) Hn Hblk)
      as [flag ->].
    cbn. eauto.
Qed.

(** C2 fails on the code. In the sample tree two leaf directories are
    listed; the second holds a complete [second.pkg], the first does not,
    and [duplicate_file] answers [False]. *)
Theorem duplicate_file_misses_later_directory :
  glob3 Sample.tree (download_location Sample.dry)
  = ["/dl/garageband/2016/mandatory/"; "/dl/logicpro/2016/mandatory/"]
  /\ file_exists Sample.tree Sample.second_loop
       (OsPath.join "/dl/logicpro/2016/mandatory/" (pkg_name Sample.second_loop))
     = Ok PyTrue
  /\ duplicate_file Sample.dry Sample.tree Sample.second_loop = Ok PyFalse.
Proof. repeat split; vm_compute; reflexivity. Qed.

(** ** Sizes as floats *)

Lemma py_float_numeric v n : py_int v = Ok n -> py_float v = Ok (to_float n).
Proof.
  destruct v as [m|s]; cbn.
  - now intros [= ->].
  - destruct (int_of_string s); [now intros [= ->]|discriminate].
Qed.

Lemma to_float_exact n : Z.abs n <= 2 ^ 53 -> to_float n = Exact n.
Proof. intros H. unfold to_float. now apply Z.leb_le in H as ->. Qed.

Lemma to_float_nonzero n : n <> 0 -> float_is_zero (to_float n) = false.
Proof.
  intros Hn. unfold to_float. destruct (Z.abs n <=? 2 ^ 53); [|reflexivity].
  now apply Z.eqb_neq.
Qed.

Lemma sum_app l1 l2 : sum (l1 ++ l2) = sum l1 + sum l2.
Proof. induction l1 as [|x l1 IH]; cbn; [reflexivity|]. unfold sum in *. lia. Qed.

Lemma sum_nonneg l : Forall (fun n => 0 <= n) l -> 0 <= sum l.
Proof.
  induction 1 as [|x l Hx _ IH]; [reflexivity|].
  change (sum (x :: l)) with (x + sum l). lia.
Qed.

Lemma fsum_from a l :
  0 <= a -> Forall (fun n => 0 <= n) l -> a + sum l <= 2 ^ 53 ->
  foldl fadd (Exact a) (to_float <$> l) = Exact (a + sum l).
Proof.
  revert a. induction l as [|x l IH]; intros a Ha Hl Hbound.
  - cbn. now rewrite Z.add_0_r.
  - apply Forall_cons in Hl as [Hx Hl]. pose proof (sum_nonneg l Hl) as Hs.
    change (sum (x :: l)) with (x + sum l) in *.
    cbn [fmap list_fmap foldl].
    rewrite (to_float_exact x) by (rewrite Z.abs_eq by assumption; lia).
    cbn [fadd].
    rewrite (to_float_exact (a + x)) by (rewrite Z.abs_eq by lia; lia).
    rewrite Z.add_assoc. apply IH; [lia|assumption|lia].
Qed.

(** Sizes that are not negative and add up to at most 2^53 are summed
    without rounding. *)
Lemma fsum_exact l :
  Forall (fun n => 0 <= n) l -> sum l <= 2 ^ 53 ->
  fsum (to_float <$> l) = Exact (sum l).
Proof. intros Hl Hbound. now apply (fsum_from 0 l). Qed.

(** ** The [None] of a missing file *)

Lemma truthy_none_is_false : truthy PyNone = truthy PyFalse.
Proof. reflexivity. Qed.

(** C10. For a path where nothing exists [file_exists] returns [None],
    neither [True] nor [False], and each caller takes the branch of an
    incomplete file: [duplicate_file] answers [False]; [copy_duplicate]
    goes into the scan of the listed directories; [download] announces the
    download and records the size in a dry run, and in a real run requests
    the package, raising when the request fails and otherwise (the download
    location not starting with [~]) opening the file and streaming the body
    into it. *)
Theorem missing_file_gives_none (f : FS) (loop : Loop) (local_file : string) :
  path_exists f local_file = false ->
  file_exists f loop local_file = Ok PyNone
  /\ PyNone <> PyTrue /\ PyNone <> PyFalse
  /\ (forall self path rest,
        glob3 f (download_location self) = path :: rest ->
        OsPath.join path (pkg_name loop) = local_file ->
        duplicate_file self f loop = Ok PyFalse)
  /\ (forall self counter w,
        fs w = f -> target_path self loop = local_file ->
        copy_duplicate self loop counter w
        = copy_scan self loop counter (local_directory self loop) local_file
            (glob3 f (download_location self)) w)
  /\ (forall self net counter w,
        dry_run self = true ->
        fs w = f -> target_path self loop = local_file ->
        download self net loop counter w
        = do size <- py_float (pkg_size loop);
          Ok (set_download_amount self (download_amount self ++ [size]),
              emit w (EvPrint (MsgDownload (pkg_name loop) size))))
  /\ (forall self net counter w w1,
        dry_run self = false ->
        make_storage_location w (local_directory self loop) = Ok w1 ->
        fs w1 = f -> target_path self loop = local_file ->
        (net (pkg_url loop) = None ->
         download self net loop counter w = Raise URLError)
        /\ (forall request, net (pkg_url loop) = Some request ->
              PyStr.startswith (local_directory self loop) "~" = false ->
              download self net loop counter w
              = do streamed <-
                     stream self loop counter local_file (resp_body request) 0
                       (emit (set_fs (emit w1 (EvRequest (pkg_url loop)))
                                (fs_put f local_file (mkNode false 0)))
                          (EvOpenWrite local_file));
                Ok (download_finally self loop (snd streamed)))).
Proof.
  intros Hmissing. pose proof (file_exists_missing f loop _ Hmissing) as Hnone.
  assert (Hnotdir : path_isdir f local_file = false).
  { unfold path_exists in Hmissing. unfold path_isdir.
    now destruct (fs_lookup f local_file). }
  split; [exact Hnone|]. split; [discriminate|]. split; [discriminate|].
  split; [|split; [|split]].
  - intros self path rest Hglob Hpath.
    rewrite (duplicate_file_first_only _ _ _ _ _ Hglob), Hpath, Hnone.
    reflexivity.
  - intros self counter w Hfs Hpath.
    unfold copy_duplicate. fold (target_path self loop).
    rewrite Hfs, Hpath, Hnone. cbn [bind]. unfold copy_duplicate_on.
    fold (target_path self loop). rewrite Hfs, Hpath. reflexivity.
  - intros self net counter w Hdry Hfs Hpath.
    unfold download. fold (target_path self loop).
    rewrite Hdry, Hfs, Hpath, Hnone. cbn [negb bind]. unfold download_on.
    rewrite Hdry. reflexivity.
  - intros self net counter w w1 Hdry Hmk Hfs Hpath.
    assert (Hrun : download self net loop counter w
                   = download_on self net loop counter w1 PyNone).
    { unfold download. fold (target_path self loop).
      rewrite Hdry. cbn [negb]. rewrite Hmk. cbn [bind].
      now rewrite Hfs, Hpath, Hnone. }
    rewrite Hrun. unfold download_on, request_url.
    fold (target_path self loop). rewrite Hdry, Hpath. cbn [negb truthy].
    split.
    + now intros ->.
    + intros request -> _. cbn [bind fs emit]. rewrite Hfs, Hnotdir. reflexivity.
Qed.

Lemma missing_file_gives_none_witness :
  path_exists Sample.tree "/dl/garageband1021/mandatory/first.pkg" = false
  /\ file_exists Sample.tree Sample.first_loop
       "/dl/garageband1021/mandatory/first.pkg" = Ok PyNone
  /\ copy_duplicate Sample.dry Sample.first_loop 1 Sample.start
     = Ok (emit Sample.start
             (EvPrint (MsgCopy "/dl/garageband/2016/mandatory/first.pkg")))
  /\ download Sample.dry Sample.net Sample.first_loop 1 Sample.start
     = Ok (set_download_amount Sample.dry [Exact 4096],
           emit Sample.start (EvPrint (MsgDownload "first.pkg" (Exact 4096))))
  /\ download Sample.real Sample.net Sample.second_loop 1 Sample.start
     = Raise URLError
  /\ exists w',
       download Sample.real Sample.net Sample.core_loop 1 Sample.start
       = Ok (set_download_amount Sample.real [Exact 4096], w')
       /\ fs_lookup (fs w') "/dl/garageband1021/mandatory/core.pkg"
          = Some {| nd_isdir := false; nd_size := 5 |}.
Proof.
  pose proof (missing_file_gives_none Sample.tree Sample.first_loop
                "/dl/garageband1021/mandatory/first.pkg" eq_refl)
    as (Hnone & _ & _ & _ & Hcopy & Hdry & _).
  split; [reflexivity|]. split; [exact Hnone|]. split; [|split].
  - rewrite (Hcopy Sample.dry 1 Sample.start eq_refl eq_refl). reflexivity.
  - rewrite (Hdry Sample.dry Sample.net 1 Sample.start eq_refl eq_refl eq_refl).
    reflexivity.
  - set (w1 := emit (set_fs Sample.start
                       (fs_put
                          (fs_put Sample.tree "/dl/garageband1021" Sample.dir)
                          "/dl/garageband1021/mandatory" Sample.dir))
                 (EvMakedirs "/dl/garageband1021/mandatory")).
    assert (Hsecond : make_storage_location Sample.start
                        (local_directory Sample.real Sample.second_loop)
                      = Ok w1) by (vm_compute; reflexivity).
    assert (Hcore : make_storage_location Sample.start
                      (local_directory Sample.real Sample.core_loop)
                    = Ok w1) by (vm_compute; reflexivity).
    split.
    + pose proof (missing_file_gives_none (fs w1) Sample.second_loop
                    "/dl/garageband1021/mandatory/second.pkg" eq_refl)
        as (_ & _ & _ & _ & _ & _ & Hreal).
      exact (proj1 (Hreal Sample.real Sample.net 1 Sample.start w1
                      eq_refl Hsecond eq_refl eq_refl) eq_refl).
    + pose proof (missing_file_gives_none (fs w1) Sample.core_loop
                    "/dl/garageband1021/mandatory/core.pkg" eq_refl)
        as (_ & _ & _ & _ & _ & _ & Hreal).
      rewrite (proj2 (Hreal Sample.real Sample.net 1 Sample.start w1
                        eq_refl Hcore eq_refl eq_refl)
                 {| resp_packages := Undecodable;
                    resp_content_length := Some " 4096 ";
                    resp_body := ["abc"; "de"] |} eq_refl eq_refl).
      eexists. split; vm_compute; reflexivity.
Defined.

(** ** Dry run *)

Lemma only_prints_refl w : only_prints w w.
Proof.
  split; [reflexivity|]. exists []. split; [now rewrite app_nil_r|constructor].
Qed.

Lemma only_prints_trans w1 w2 w3 :
  only_prints w1 w2 -> only_prints w2 w3 -> only_prints w1 w3.
Proof.
  intros [Hfs1 (out1 & Ht1 & Hp1)] [Hfs2 (out2 & Ht2 & Hp2)]. split.
  - congruence.
  - exists (out1 ++ out2). split.
    + now rewrite Ht2, Ht1, app_assoc.
    + now apply Forall_app.
Qed.

Lemma only_prints_emit w m : only_prints w (emit w (EvPrint m)).
Proof.
  split; [reflexivity|]. exists [EvPrint m]. split; [reflexivity|].
  now repeat constructor.
Qed.

Lemma set_download_amount_eta self :
  set_download_amount self (download_amount self) = self.
Proof. now destruct self. Qed.

Lemma declared_size_numeric loop n :
  py_int (pkg_size loop) = Ok n -> declared_size loop = n.
Proof. unfold declared_size. now intros ->. Qed.

Section DryRun.

Variables (self : AppleLoops) (net : Net).
Hypothesis Hdry : dry_run self = true.

Lemma copy_scan_dry loop counter local_dir local_file glob_path w :
  (exists n, py_int (pkg_size loop) = Ok n) -> blksize (fs w) <> 0 ->
  exists w',
    copy_scan self loop counter local_dir local_file glob_path w = Ok w'
    /\ only_prints w w'.
Proof.
  intros Hn Hblk. induction glob_path as [|path rest IH]; cbn.
  - eexists. split; [reflexivity|apply only_prints_refl].
  - destruct (file_exists_answers (fs w) loop
                (OsPath.join path (pkg_name loop)) Hn Hblk) as [found ->].
    cbn [bind]. destruct (truthy found); [|exact IH].
    rewrite Hdry. cbn [negb].
    eexists. split; [reflexivity|apply only_prints_emit].
Qed.

Lemma copy_duplicate_dry loop counter w :
  (exists n, py_int (pkg_size loop) = Ok n) -> blksize (fs w) <> 0 ->
  exists w', copy_duplicate self loop counter w = Ok w' /\ only_prints w w'.
Proof.
  intros Hn Hblk. unfold copy_duplicate.
  destruct (file_exists_answers (fs w) loop
              (OsPath.join (local_directory self loop) (pkg_name loop)) Hn Hblk)
    as [flag ->].
  cbn [bind]. unfold copy_duplicate_on. destruct (truthy flag); cbn [negb].
  - rewrite Hdry. cbn [negb].
    eexists. split; [reflexivity|apply only_prints_emit].
  - now apply copy_scan_dry.
Qed.

Lemma download_dry loop counter w n :
  py_int (pkg_size loop) = Ok n -> blksize (fs w) <> 0 ->
  exists w',
    download self net loop counter w
    = Ok (set_download_amount self
            (download_amount self ++
             if complete_at_target self (fs w) loop then [] else [to_float n]),
          w')
    /\ only_prints w w'.
Proof.
  intros Hn Hblk. unfold download, complete_at_target, target_path.
  rewrite Hdry. cbn [negb].
  destruct (file_exists_answers (fs w) loop
              (OsPath.join (local_directory self loop) (pkg_name loop))
              (ex_intro _ n Hn) Hblk) as [flag ->].
  cbn [bind holds]. unfold download_on. rewrite Hdry. cbn [negb].
  destruct (truthy flag); cbn [negb].
  - rewrite app_nil_r, set_download_amount_eta.
    eexists. split; [reflexivity|apply only_prints_emit].
  - rewrite (py_float_numeric _ _ Hn). cbn [bind].
    eexists. split; [reflexivity|apply only_prints_emit].
Qed.

End DryRun.

(** C7 fails on the code. In the sample tree both packages of the manifest
    lie complete in the download tree, none at its own place; the sum of the
    declared sizes of the entries not complete in the tree is 0. The dry run
    writes nothing, and it announces one package of 8192 bytes to download:
    the Duplicate Locator looks at the first listed directory only and does
    not find [second.pkg], which lies complete in the second. *)
Theorem dry_run_total_is_neither_sum :
  (exists self' w',
     process_manifest Sample.dry Sample.net Sample.start = Ok (self', w')
     /\ fs w' = Sample.tree
     /\ download_amount self' = [Exact 8192]
     /\ trace w'
        = [EvPrint (MsgCopy "/dl/garageband/2016/mandatory/first.pkg");
           EvPrint (MsgDownload "second.pkg" (Exact 8192));
           EvPrint (MsgToDownload 2 1 (Exact 8192))])
  /\ complete_in_tree Sample.dry Sample.tree Sample.first_loop = true
  /\ complete_in_tree Sample.dry Sample.tree Sample.second_loop = true
  /\ located Sample.dry Sample.tree Sample.second_loop = false
  /\ total_not_in_tree Sample.dry Sample.tree = 0
  /\ total_not_at_target Sample.dry Sample.tree = 12288.
Proof.
  split; [|repeat split; vm_compute; reflexivity].
  do 2 eexists. split; [vm_compute; reflexivity|]. repeat split; reflexivity.
Qed.

(** ** A completed download *)

Lemma find_put_node k nd l :
  List.find (fun kv : string * node => String.eqb (fst kv) k) (put_node k nd l)
  = Some (k, nd).
Proof.
  induction l as [|[k' nd'] l IH]; cbn.
  - now rewrite String.eqb_refl.
  - destruct (String.eqb k' k) eqn:Hk; cbn.
    + now rewrite String.eqb_refl.
    + now rewrite Hk.
Qed.

Lemma getsize_put f p nd : getsize (fs_put f p nd) p = nd_size nd.
Proof. unfold getsize, fs_lookup, fs_put. cbn. now rewrite find_put_node. Qed.

Lemma received_nonneg body : 0 <= received body.
Proof.
  induction body as [|buffer rest IH]; cbn [received]; [reflexivity|].
  destruct (String.eqb buffer ""); lia.
Qed.

(** A body that delivers nothing ends the stream loop at its first turn,
    before the size is looked at. *)
Lemma stream_of_nothing self loop counter local_file body bytes_so_far w :
  received body = 0 ->
  stream self loop counter local_file body bytes_so_far w
  = Ok (bytes_so_far, if jss_mode self then w else emit w (EvPrint MsgNewline)).
Proof.
  destruct body as [|buffer rest]; cbn [stream received]; [reflexivity|].
  destruct (String.eqb buffer "") eqn:Hbuf; [reflexivity|].
  intros Hzero. pose proof (received_nonneg rest).
  apply String.eqb_neq in Hbuf. destruct buffer; [congruence|].
  cbn [String.length] in Hzero. lia.
Qed.

(** With a size that [float] reads and that is not zero the stream loop
    runs to the end of the body; it returns the bytes received, and that is
    the size of the file it leaves. *)
Lemma stream_completes self loop counter local_file size body :
  py_float (pkg_size loop) = Ok size -> float_is_zero size = false ->
  forall bytes_so_far w,
    getsize (fs w) local_file = bytes_so_far ->
    exists w',
      stream self loop counter local_file body bytes_so_far w
      = Ok (bytes_so_far + received body, w')
      /\ getsize (fs w') local_file = bytes_so_far + received body
      /\ exists out, trace w' = trace w ++ out.
Proof.
  intros Hn Hnz.
  induction body as [|buffer rest IH]; intros bytes w Hsize; cbn [stream received].
  - rewrite Z.add_0_r. eexists. split; [reflexivity|].
    destruct (jss_mode self); cbn [fs trace emit]; (split; [assumption|]);
      eexists; [symmetry; apply app_nil_r|reflexivity].
  - destruct (String.eqb buffer "").
    + rewrite Z.add_0_r. eexists. split; [reflexivity|].
      destruct (jss_mode self); cbn [fs trace emit]; (split; [assumption|]);
        eexists; [symmetry; apply app_nil_r|reflexivity].
    + rewrite Hn. cbn [bind]. rewrite Hnz. rewrite Z.add_assoc.
      set (w2 := if jss_mode self then _ else _).
      destruct (IH (bytes + Z.of_nat (String.length buffer)) w2)
        as (w' & Hrun & Hsize' & out & Hout).
      { subst w2. destruct (jss_mode self); cbn [fs emit set_fs];
          now rewrite getsize_put. }
      exists w'. split; [exact Hrun|]. split; [exact Hsize'|].
      subst w2. destruct (jss_mode self); cbn [trace emit set_fs] in Hout;
        rewrite Hout, <- ?app_assoc; eexists; reflexivity.
Qed.

(** C9, as the code has it. When the stream of a package has run to its
    end, [download] closes the request and then appends [float(pkg_size)],
    the size the record declares, to [download_amount], and sleeps for
    [uniform(1, 2)]; the bytes received are the size of the file written,
    and are not what is appended. The stream runs to its end when [float]
    reads the size and it is not zero, or when the body is empty. With an
    empty body and a size that [float] does not read, the request is closed,
    nothing is appended and there is no sleep. *)
Theorem completed_download_records_pkg_size (self : AppleLoops) (net : Net)
    (loop : Loop) (counter : Z) (w : World) (target_complete : pyflag)
    (request : response) :
  dry_run self = false ->
  truthy target_complete = false ->
  net (pkg_url loop) = Some request ->
  path_isdir (fs w) (target_path self loop) = false ->
  (forall size,
     py_float (pkg_size loop) = Ok size ->
     float_is_zero size = false \/ received (resp_body request) = 0 ->
     exists w',
       download_on self net loop counter w target_complete
       = Ok (set_download_amount self (download_amount self ++ [size]), w')
       /\ (exists before,
             trace w' = before ++ [EvClose (pkg_url loop); EvSleepUniform 1 2])
       /\ getsize (fs w') (target_path self loop) = received (resp_body request))
  /\ (forall e,
        py_float (pkg_size loop) = Raise e ->
        received (resp_body request) = 0 ->
        exists w',
          download_on self net loop counter w target_complete = Ok (self, w')
          /\ trace w'
             = trace w ++ [EvRequest (pkg_url loop);
                           EvOpenWrite (target_path self loop)]
               ++ (if jss_mode self then [] else [EvPrint MsgNewline])
               ++ [EvClose (pkg_url loop)]).
Proof.
  intros Hdry Hflag Hnet Hdir.
  assert (Hrun : download_on self net loop counter w target_complete
                 = do streamed <-
                        stream self loop counter (target_path self loop)
                          (resp_body request) 0
                          (emit (set_fs (emit w (EvRequest (pkg_url loop)))
                                   (fs_put (fs w) (target_path self loop)
                                      (mkNode false 0)))
                             (EvOpenWrite (target_path self loop)));
                   Ok (download_finally self loop (snd streamed))).
  { unfold download_on, request_url. fold (target_path self loop).
    rewrite Hdry, Hflag, Hnet. cbn [negb bind fs emit]. now rewrite Hdir. }
  rewrite Hrun. set (w2 := emit _ (EvOpenWrite _)).
  assert (Hsize2 : getsize (fs w2) (target_path self loop) = 0)
    by (subst w2; cbn [fs emit set_fs]; now rewrite getsize_put).
  split.
  - intros size Hsize Hends.
    assert (Hstream : exists w3,
               stream self loop counter (target_path self loop)
                 (resp_body request) 0 w2
               = Ok (received (resp_body request), w3)
               /\ getsize (fs w3) (target_path self loop)
                  = received (resp_body request)).
    { destruct Hends as [Hnz|Hzero].
      - destruct (stream_completes self loop counter (target_path self loop) size
                    (resp_body request) Hsize Hnz 0 w2 Hsize2)
          as (w3 & H1 & H2 & _).
        exists w3. now split.
      - rewrite (stream_of_nothing _ _ _ _ _ _ _ Hzero), Hzero.
        eexists. split; [reflexivity|]. now destruct (jss_mode self). }
    destruct Hstream as (w3 & -> & Hsize3).
    cbn [bind snd]. unfold download_finally. rewrite Hsize.
    eexists. split; [reflexivity|]. split.
    + exists (trace w3). cbn [trace emit]. now rewrite <- app_assoc.
    + exact Hsize3.
  - intros e Hsize Hzero.
    rewrite (stream_of_nothing _ _ _ _ _ _ _ Hzero).
    cbn [bind snd]. unfold download_finally. rewrite Hsize.
    eexists. split; [reflexivity|].
    subst w2. destruct (jss_mode self); cbn [trace emit set_fs];
      now rewrite <- !app_assoc.
Qed.

Lemma completed_download_records_pkg_size_witness :
  exists w',
    download_on Sample.real Sample.net Sample.core_loop 1 Sample.start PyNone
    = Ok (set_download_amount Sample.real [Exact 4096], w')
    /\ (exists before,
          trace w' = before ++ [EvClose Sample.core_url; EvSleepUniform 1 2])
    /\ getsize (fs w') (target_path Sample.real Sample.core_loop) = 5.
Proof.
  exact (proj1 (completed_download_records_pkg_size Sample.real Sample.net
                  Sample.core_loop 1 Sample.start PyNone
                  {| resp_packages := Undecodable;
                     resp_content_length := Some " 4096 ";
                     resp_body := ["abc"; "de"] |}
                  eq_refl eq_refl eq_refl eq_refl)
           (Exact 4096) eq_refl (or_introl eq_refl)).
Defined.

(** C9, as stated, fails on the code. The sample server announces 4096
    bytes for [core.pkg] and delivers 5; the file written has 5 bytes and
    the amount recorded is 4096. *)
Lemma recorded_amount_is_not_bytes_received :
  exists self' w',
    download Sample.real Sample.net Sample.core_loop 1 Sample.start
    = Ok (self', w')
    /\ download_amount self' = [Exact 4096]
    /\ getsize (fs w') "/dl/garageband1021/mandatory/core.pkg" = 5
    /\ trace w'
       = [EvMakedirs "/dl/garageband1021/mandatory";
          EvRequest Sample.core_url;
          EvOpenWrite "/dl/garageband1021/mandatory/core.pkg";
          EvWrite "/dl/garageband1021/mandatory/core.pkg" 3;
          EvWrite "/dl/garageband1021/mandatory/core.pkg" 2;
          EvClose Sample.core_url;
          EvSleepUniform 1 2].
Proof.
  do 2 eexists. split; [vm_compute; reflexivity|]. repeat split; reflexivity.
Qed.

(** * Further properties of the code *)

(** ** The oracle on files that are there *)

(** X1. A file that holds at least the declared number of bytes is
    complete, and a file with fewer whole blocks than the declared size gets
    the answer [False]. *)
Theorem file_exists_full_size (f : FS) (loop : Loop) (local_file : string) (n : Z) :
  path_exists f local_file = true ->
  py_int (pkg_size loop) = Ok n ->
  0 < blksize f ->
  (n <= getsize f local_file -> file_exists f loop local_file = Ok PyTrue)
  /\ (getsize f local_file / blksize f < n / blksize f ->
      file_exists f loop local_file = Ok PyFalse).
Proof.
  intros Hex Hn Hblk.
  assert (Hnz : blksize f <> 0) by lia.
  rewrite (file_exists_present _ _ _ _ Hex Hn Hnz). split; intros H.
  - pose proof (Z.div_le_mono _ _ _ Hblk H).
    destruct (Z.geb_spec (getsize f local_file / blksize f) (n / blksize f));
      [reflexivity|lia].
  - destruct (Z.geb_spec (getsize f local_file / blksize f) (n / blksize f));
      [lia|reflexivity].
Qed.

Lemma file_exists_full_size_witness :
  file_exists Sample.tree Sample.second_loop
    "/dl/logicpro/2016/mandatory/second.pkg" = Ok PyTrue
  /\ file_exists Sample.tree Sample.second_loop
       "/dl/garageband/2016/mandatory/first.pkg" = Ok PyFalse.
Proof.
  split.
  - refine (proj1 (file_exists_full_size Sample.tree Sample.second_loop
                     "/dl/logicpro/2016/mandatory/second.pkg" 8192
                     eq_refl eq_refl _) _); vm_compute; [reflexivity|discriminate].
  - refine (proj2 (file_exists_full_size Sample.tree Sample.second_loop
                     "/dl/garageband/2016/mandatory/first.pkg" 8192
                     eq_refl eq_refl _) _); vm_compute; reflexivity.
Defined.

(** X2. On a path that exists the oracle reads the size with [int]: a size
    that is no number raises [ValueError], and a block size of zero raises
    [ZeroDivisionError]. *)
Theorem file_exists_raises (f : FS) (loop : Loop) (local_file : string) :
  path_exists f local_file = true ->
  (forall s, pkg_size loop = PyStr s -> int_of_string s = None ->
             file_exists f loop local_file = Raise ValueError)
  /\ (forall n, py_int (pkg_size loop) = Ok n -> blksize f = 0 ->
                file_exists f loop local_file = Raise ZeroDivisionError).
Proof.
  intros Hex. unfold file_exists. rewrite Hex. split.
  - intros s Hs Hbad. unfold py_int. now rewrite Hs, Hbad.
  - intros n Hn Hz. rewrite Hn, Hz. reflexivity.
Qed.

Lemma file_exists_raises_witness :
  file_exists Sample.tree
    (new_loop "first.pkg" "" true (PyStr "4,096") "" "" "")
    "/dl/garageband/2016/mandatory/first.pkg" = Raise ValueError.
Proof.
  exact (proj1 (file_exists_raises Sample.tree
                  (new_loop "first.pkg" "" true (PyStr "4,096") "" "" "")
                  "/dl/garageband/2016/mandatory/first.pkg" eq_refl)
           "4,096" eq_refl eq_refl).
Defined.

(** ** More on the Manifest Builder *)

Lemma remove_char_idempotent c s :
  PyStr.remove_char c (PyStr.remove_char c s) = PyStr.remove_char c s.
Proof.
  unfold PyStr.remove_char. induction s as [|a s IH]; [reflexivity|].
  cbn. destruct (negb (Ascii.eqb a c)) eqn:Ha; [|exact IH].
  cbn. now rewrite Ha, IH.
Qed.

Lemma clean_size_idempotent size : clean_size (clean_size size) = clean_size size.
Proof. destruct size; cbn; [reflexivity|]. now rewrite remove_char_idempotent. Qed.

(** X3. Adding a record a second time changes nothing, also when the second
    call gives the size in another spelling that cleans up to the same
    value (["1.234"] after ["1234"]). *)
Theorem add_loop_twice (self : AppleLoops) (name url : string) (mandatory : bool)
    (size size' : pyval) (year loop_for plist : string) :
  clean_size size' = clean_size size ->
  add_loop (add_loop self name url mandatory size year loop_for plist)
    name url mandatory size' year loop_for plist
  = add_loop self name url mandatory size year loop_for plist.
Proof.
  intros Hsize.
  assert (Hsame : new_loop name url mandatory size' year loop_for plist
                  = new_loop name url mandatory size year loop_for plist)
    by (unfold new_loop; now rewrite Hsize).
  rewrite (add_loop_unfold (add_loop _ _ _ _ _ _ _ _)), Hsame.
  set (loop := new_loop name url mandatory size year loop_for plist).
  assert (Hin : loop ∈ master_list
                  (add_loop self name url mandatory size year loop_for plist)).
  { rewrite add_loop_unfold. fold loop. cbn [master_list set_master_list].
    destruct (decide (loop ∈ master_list self)); [assumption|].
    apply elem_of_app. right. now apply list_elem_of_singleton. }
  destruct (decide _) as [_|Hnot]; [|contradiction].
  apply set_master_list_eta.
Qed.

Lemma add_loop_twice_witness :
  add_loop (add_loop Sample.self "old.pkg" "u" true (PyStr "1234") "2013" "g" "p")
    "old.pkg" "u" true (PyStr "1.234") "2013" "g" "p"
  = add_loop Sample.self "old.pkg" "u" true (PyStr "1234") "2013" "g" "p".
Proof.
  exact (add_loop_twice Sample.self "old.pkg" "u" true (PyStr "1234")
           (PyStr "1.234") "2013" "g" "p" eq_refl).
Defined.

Lemma extends_refl self : extends self self.
Proof.
  split; [apply same_options_refl|]. exists []. now rewrite app_nil_r.
Qed.

Lemma extends_trans a b c : extends a b -> extends b c -> extends a c.
Proof.
  intros [Hab [l1 H1]] [Hbc [l2 H2]]. split.
  - eapply same_options_trans; eassumption.
  - exists (l1 ++ l2). now rewrite H2, H1, app_assoc.
Qed.

Lemma insert_loop_extends self l : extends self (insert_loop self l).
Proof.
  split; [apply insert_loop_same_options|].
  rewrite master_list_insert_loop.
  destruct (passes_gate _ _); [|exists []; now rewrite app_nil_r].
  destruct (decide _); [exists []; now rewrite app_nil_r|now exists [l]].
Qed.

Lemma process_plist_extends self net ly plist self' :
  process_plist self net ly plist = Ok self' -> extends self self'.
Proof.
  unfold process_plist.
  destruct (try_except _ _) as [request|]; [|discriminate]. cbn [bind].
  destruct (resp_packages request) as [| | |data]; [discriminate..|]. cbn [bind].
  intros Hrun.
  refine (for_each_invariant (extends self) _ data _ self self' Hrun
            (extends_refl self)).
  intros pkg s s' Hs Hext. rewrite process_package_unfold in Hs.
  destruct (entry_loop _ _ _ _ _ _) as [l|]; [|discriminate].
  injection Hs as <-.
  eapply extends_trans; [exact Hext|apply insert_loop_extends].
Qed.

(** X4. A manifest build that ends normally leaves every option of the
    instance as it was and only appends to the master list: the records
    that were there keep their places. *)
Theorem build_master_list_extends (self : AppleLoops) (net : Net) (self' : AppleLoops) :
  build_master_list self net = Ok self' ->
  same_options self self'
  /\ exists added, master_list self' = master_list self ++ added.
Proof.
  intros Hrun. change (extends self self').
  revert Hrun. unfold build_master_list.
  assert (Hplist : forall year plist s s',
             process_plist s net year plist = Ok s' ->
             extends self s -> extends self s').
  { intros year plist s s' Hs Hext.
    eapply extends_trans; [exact Hext|eapply process_plist_extends; exact Hs]. }
  destruct (files_process self) as [files|]; intros Hrun;
    (refine (for_each_invariant (extends self) _ _ _ self self' Hrun
               (extends_refl self));
     intros pkg_set s1 s1';
     apply (for_each_invariant (extends self));
     intros year s2 s2';
     destruct (getitem (loop_feed_locations s2) pkg_set) as [by_year|];
       [|discriminate]; cbn [bind];
     destruct (getitem by_year year) as [package_plist|]; [|discriminate];
     cbn [bind];
     apply (for_each_invariant (extends self));
     intros plist s3 s3').
  - destruct (str_in plist package_plist); [apply Hplist|].
    now intros [= <-].
  - apply Hplist.
Qed.

Lemma build_master_list_extends_witness :
  exists built added,
    build_master_list (set_master_list Sample.self [Sample.first_loop]) Sample.net
    = Ok built
    /\ master_list built = [Sample.first_loop] ++ added.
Proof.
  assert (H : build_master_list (set_master_list Sample.self [Sample.first_loop])
                Sample.net
              = Ok (set_master_list Sample.self
                      [Sample.first_loop; Sample.core_loop; Sample.legacy_loop]))
    by (vm_compute; reflexivity).
  destruct (build_master_list_extends _ _ _ H) as [_ [added Hadded]].
  exists (set_master_list Sample.self
            [Sample.first_loop; Sample.core_loop; Sample.legacy_loop]), added.
  split; [exact H|exact Hadded].
Defined.

(** X5. A product that the feed table does not list, or a year that the
    table does not list for the product, stops the build with [KeyError] at
    the first product and year it tries. *)
Theorem build_master_list_key_error (self : AppleLoops) (net : Net)
    (pkg_set year : string) (sets years : list string) :
  package_set self = pkg_set :: sets ->
  package_year self = year :: years ->
  (getitem (loop_feed_locations self) pkg_set = Raise KeyError
   \/ exists by_year,
        getitem (loop_feed_locations self) pkg_set = Ok by_year
        /\ getitem by_year year = Raise KeyError) ->
  build_master_list self net = Raise KeyError.
Proof.
  intros Hset Hyear Hmiss. unfold build_master_list. rewrite Hset, Hyear.
  destruct (files_process self); cbn [for_each bind];
    destruct Hmiss as [->|(by_year & -> & Hy)]; cbn [bind];
    try reflexivity; now rewrite Hy.
Qed.

Lemma build_master_list_key_error_witness :
  build_master_list
    (init {| arg_download_location := None; arg_dry_run := true;
             arg_package_set := ["mainstage"]; arg_package_year := ["2016"];
             arg_mandatory_pkg := false; arg_optional_pkg := false;
             arg_caching_server := None; arg_files_process := None;
             arg_jss_mode := false; arg_dmg_path := None |} Sample.feeds)
    Sample.net
  = Raise KeyError.
Proof.
  apply (build_master_list_key_error _ Sample.net "mainstage" "2016" [] []);
    [reflexivity|reflexivity|left; reflexivity].
Defined.

(** X6. The sub-feed is asked for at its own URL and, when that request
    fails, at the mirror: the build goes on with the mirror's answer. It
    stops with [URLError] when the mirror fails as well, with the decoding
    error when the answer cannot be read as a property list, with
    [TypeError] when what is read is no dictionary and with [KeyError] when
    the dictionary has no key ['Packages']. *)
Theorem process_plist_uses_mirror (self : AppleLoops) (net : Net)
    (loop_year plist : string) :
  net (build_url self loop_year plist) = None ->
  let mirror := alt_loop_feed_base_url self +:+ loop_year +:+ "/" +:+ plist in
  (net mirror = None -> process_plist self net loop_year plist = Raise URLError)
  /\ (forall r, net mirror = Some r -> resp_packages r = Undecodable ->
        process_plist self net loop_year plist = Raise PlistError)
  /\ (forall r, net mirror = Some r -> resp_packages r = NoDictionary ->
        process_plist self net loop_year plist = Raise TypeError)
  /\ (forall r, net mirror = Some r -> resp_packages r = NoPackages ->
        process_plist self net loop_year plist = Raise KeyError)
  /\ (forall r data, net mirror = Some r -> resp_packages r = Packages data ->
        process_plist self net loop_year plist
        = for_each (fun pkg =>
                      process_package net loop_year
                        (PyStr.filter (fun c => negb (is_digit c))
                           (OsPath.splitext_root plist))
                        (OsPath.splitext_root plist) (snd pkg))
            data self).
Proof.
  intros Hprimary mirror. unfold process_plist, request_url.
  rewrite Hprimary. cbn [try_except]. fold mirror.
  split; [now intros ->|].
  split; [intros r -> Hbad; cbn [bind]; now rewrite Hbad|].
  split; [intros r -> Hbad; cbn [bind]; now rewrite Hbad|].
  split; [intros r -> Hbad; cbn [bind]; now rewrite Hbad|].
  intros r data -> Hdata. cbn [bind]. now rewrite Hdata.
Qed.

Lemma process_plist_uses_mirror_witness :
  process_plist Sample.self Demo.mirror_net "2016" "garageband1021.plist"
  = for_each (fun pkg =>
                process_package Demo.mirror_net "2016" "garageband"
                  "garageband1021" (snd pkg))
      [("core", Sample.core)] Sample.self.
Proof.
  exact (proj2 (proj2 (proj2 (proj2
            (process_plist_uses_mirror Sample.self Demo.mirror_net
               "2016" "garageband1021.plist" eq_refl))))
           {| resp_packages := Packages [("core", Sample.core)];
              resp_content_length := None; resp_body := [] |}
           [("core", Sample.core)] eq_refl eq_refl).
Defined.

(** *** Names that need no fix-up *)

Lemma split_cons_other sep a s w ws :
  Ascii.eqb a sep = false ->
  PyStr.split sep s = w :: ws ->
  PyStr.split sep (String a s) = String a w :: ws.
Proof. intros Ha Hs. cbn. now rewrite Ha, Hs. Qed.

Lemma split_content_dir ly :
  PyStr.split "/" ly = [ly] ->
  PyStr.split "/" ("lp10_ms3_content_" +:+ ly) = ["lp10_ms3_content_" +:+ ly].
Proof.
  intros Hly.
  change ("lp10_ms3_content_" +:+ ly)
    with (String "l" (String "p" (String "1" (String "0" (String "_"
         (String "m" (String "s" (String "3" (String "_" (String "c"
         (String "o" (String "n" (String "t" (String "e" (String "n"
         (String "t" (String "_" ly))))))))))))))))).
  repeat (apply split_cons_other; [reflexivity|]). exact Hly.
Qed.

Lemma last_four_of_content_dir ly :
  String.length ly = 4%nat ->
  PyStr.last_chars 4 ("lp10_ms3_content_" +:+ ly) = ly.
Proof.
  destruct ly as [|a [|b [|c [|d [|? ?]]]]]; try discriminate. reflexivity.
Qed.

(** The year read off a URL whose content directory follows a prefix with
    no catalog marker in it. *)
Lemma year_after_prefix prefix ly rest :
  List.filter (PyStr.contains catalog_marker) (PyStr.split "/" prefix) = [] ->
  String.length ly = 4%nat ->
  PyStr.split "/" ly = [ly] ->
  year_of_url ((prefix +:+ "/lp10_ms3_content_") +:+ ly +:+ "/" +:+ rest) = Ok ly.
Proof.
  intros Hprefix Hlen Hly. unfold year_of_url.
  replace ((prefix +:+ "/lp10_ms3_content_") +:+ ly +:+ "/" +:+ rest)
    with (prefix +:+ String "/" (("lp10_ms3_content_" +:+ ly) +:+ String "/" rest)).
  2:{ rewrite !append_assoc. reflexivity. }
  rewrite !split_app_sep, split_content_dir by exact Hly.
  rewrite !List.filter_app, Hprefix. cbn [app List.filter].
  replace (PyStr.contains catalog_marker ("lp10_ms3_content_" +:+ ly)) with true
    by reflexivity.
  cbn [app fmap list_fmap]. now rewrite last_four_of_content_dir.
Qed.

(** X7. For an entry whose name does not start with [../], in a run for a
    four-character year, the record keeps the name, gets the URL of
    [build_url] and the year of the run; with a caching proxy this needs
    that no segment of the proxy's address holds the catalog marker. *)
Theorem ordinary_entry_keeps_year (a : init_args) (feeds : feed_table) (net : Net)
    (loop_year loop_for _plist : string) (e : pkg_entry) :
  PyStr.startswith (DownloadName e) "../" = false ->
  String.length loop_year = 4%nat ->
  PyStr.split "/" loop_year = [loop_year] ->
  (forall proxy, caching_server (init a feeds) = Some proxy ->
     List.filter (PyStr.contains catalog_marker) (PyStr.split "/" proxy) = []) ->
  exists l,
    entry_loop (init a feeds) net loop_year loop_for _plist e = Ok l
    /\ pkg_name l = DownloadName e
    /\ pkg_url l = build_url (init a feeds) loop_year (DownloadName e)
    /\ pkg_year l = loop_year.
Proof.
  intros Hname Hlen Hly Hproxy. unfold entry_loop, name_and_url. rewrite Hname.
  assert (Hyear : year_of_url (build_url (init a feeds) loop_year (DownloadName e))
                  = Ok loop_year).
  { rewrite build_url_unfold.
    destruct (opt_truthy (caching_server (init a feeds))
              && PyStr.endswith (DownloadName e) ".pkg")%bool eqn:Hcase.
    - destruct (caching_server (init a feeds)) as [proxy|] eqn:Hcs;
        [|discriminate].
      replace (cache_base_url (init a feeds))
        with (proxy +:+ "/lp10_ms3_content_").
      2:{ change (cache_base_url (init a feeds))
            with (match caching_server (init a feeds) with
                  | Some c => c +:+ "/lp10_ms3_content_"
                  | None => ""
                  end).
          now rewrite Hcs. }
      apply year_after_prefix; auto.
    - change (base_url (init a feeds))
        with ("http://audiocontentdownload.apple.com" +:+ "/lp10_ms3_content_").
      apply year_after_prefix; auto. }
  rewrite Hyear. cbn [bind].
  destruct (probe_size_total net
              (build_url (init a feeds) loop_year (DownloadName e)) e) as [size ->].
  cbn [bind]. eexists. repeat split; reflexivity.
Qed.

Lemma ordinary_entry_keeps_year_witness :
  exists l,
    entry_loop Demo.proxied Sample.net "2016" "garageband" "garageband1021"
      Sample.core = Ok l
    /\ pkg_url l
       = "http://cache.local:49672/lp10_ms3_content_2016/core.pkg?source=audiocontentdownload.apple.com"
    /\ pkg_year l = "2016".
Proof.
  destruct (ordinary_entry_keeps_year
              {| arg_download_location := Some "/dl";
                 arg_dry_run := true;
                 arg_package_set := ["garageband"];
                 arg_package_year := ["2016"];
                 arg_mandatory_pkg := false;
                 arg_optional_pkg := false;
                 arg_caching_server := Some "http://cache.local:49672/";
                 arg_files_process := None;
                 arg_jss_mode := false;
                 arg_dmg_path := None |} Sample.feeds Sample.net
              "2016" "garageband" "garageband1021" Sample.core
              eq_refl eq_refl eq_refl) as (l & H1 & _ & H3 & H4).
  { intros proxy [= <-]. reflexivity. }
  exists l. repeat split; [exact H1|exact H3|exact H4].
Defined.

(** ** More on the dry run *)

(** The loop of a dry run, with the count it keeps: one for every entry the
    Duplicate Locator does not find. *)
Lemma main_loop_dry_counts net loops :
  forall counter download_counter self w,
    dry_run self = true -> sizes_numeric loops -> blksize (fs w) <> 0 ->
    exists w',
      main_loop net loops counter download_counter self w
      = Ok (set_download_amount self
              (download_amount self ++
               (announced <$> List.filter (to_fetch self (fs w)) loops)),
            w',
            download_counter
            + len (List.filter (fun l => negb (located self (fs w) l)) loops))
      /\ only_prints w w'.
Proof.
  induction loops as [|loop rest IH]; intros counter dc self w Hdry Hnum Hblk.
  - cbn. rewrite app_nil_r, set_download_amount_eta, Z.add_0_r.
    eexists. split; [reflexivity|apply only_prints_refl].
  - assert (Hloop : exists n, py_int (pkg_size loop) = Ok n)
      by (apply Hnum, elem_of_cons; now left).
    assert (Hrest : sizes_numeric rest)
      by (intros l Hl; apply Hnum, elem_of_cons; now right).
    cbn [main_loop List.filter]. unfold to_fetch at 1.
    destruct (duplicate_file_answers self (fs w) loop Hloop Hblk) as [dup Hdup].
    assert (Hloc : located self (fs w) loop = truthy dup)
      by (unfold located; now rewrite Hdup).
    rewrite Hloc, Hdup.
    cbn [bind]. destruct (truthy dup); cbn [negb andb].
    + destruct (copy_duplicate_dry self Hdry loop counter w Hloop Hblk)
        as (w1 & -> & Hw1).
      cbn [bind].
      assert (Hfs1 : fs w1 = fs w) by apply Hw1.
      destruct (IH (counter + 1) dc self w1 Hdry Hrest) as (w' & Hrun & Hw').
      { now rewrite Hfs1. }
      rewrite Hrun, Hfs1. eexists. split; [reflexivity|].
      eapply only_prints_trans; [exact Hw1|exact Hw'].
    + destruct Hloop as [n Hn].
      assert (Hpre : exists w0,
                 (if jss_mode self
                  then do size <- py_float (pkg_size loop);
                       Ok (emit w (EvPrint (MsgDownloading counter
                                              (len (master_list self))
                                              (pkg_name loop) size)))
                  else Ok w) = Ok w0 /\ only_prints w w0).
      { destruct (jss_mode self).
        - rewrite (py_float_numeric _ _ Hn). cbn [bind].
          eexists. split; [reflexivity|apply only_prints_emit].
        - eexists. split; [reflexivity|apply only_prints_refl]. }
      destruct Hpre as (w0 & -> & Hw0). cbn [bind].
      assert (Hfs0 : fs w0 = fs w) by apply Hw0.
      assert (Hblk0 : blksize (fs w0) <> 0) by now rewrite Hfs0.
      destruct (download_dry self net Hdry loop counter w0 n Hn Hblk0)
        as (w1 & -> & Hw1).
      cbn [bind fst snd].
      set (self1 := set_download_amount self _).
      assert (Hfs1 : fs w1 = fs w) by (destruct Hw1 as [-> _]; exact Hfs0).
      destruct (IH (counter + 1) (dc + 1) self1 w1 Hdry Hrest) as (w' & Hrun & Hw').
      { now rewrite Hfs1. }
      rewrite Hrun. eexists. split.
      * f_equal. f_equal; [f_equal|].
        -- subst self1. rewrite Hfs1, Hfs0.
           cbn [download_amount set_download_amount].
           change (to_fetch (set_download_amount self _) (fs w))
             with (to_fetch self (fs w)).
           destruct (complete_at_target self (fs w) loop);
             cbn [negb fmap list_fmap].
           ++ now rewrite app_nil_r.
           ++ change (announced loop) with (to_float (declared_size loop)).
              rewrite (declared_size_numeric _ _ Hn), <- app_assoc. reflexivity.
        -- rewrite Hfs1.
           change (located self1) with (located self).
           unfold len. cbn [length]. lia.
      * eapply only_prints_trans; [exact Hw0|].
        eapply only_prints_trans; [exact Hw1|exact Hw'].
Qed.

(** A dry run over a manifest with numeric sizes, from the loop to the
    closing report and the announcement of the disk image. *)
Lemma process_manifest_dry self net w :
  dry_run self = true ->
  sizes_numeric (master_list self) ->
  blksize (fs w) <> 0 ->
  exists self' w',
    process_manifest self net w = Ok (self', w')
    /\ only_prints w w'
    /\ download_amount self'
       = download_amount self
         ++ (announced <$> List.filter (to_fetch self (fs w)) (master_list self))
    /\ EvPrint (MsgToDownload
                  (len (master_list self))
                  (len (List.filter (fun l => negb (located self (fs w) l))
                          (master_list self)))
                  (fsum (download_amount self')))
       ∈ trace w'.
Proof.
  intros Hdry Hnum Hblk. unfold process_manifest.
  destruct (main_loop_dry_counts net (master_list self) 1 0 self w Hdry Hnum Hblk)
    as (w1 & -> & Hw1).
  cbn [bind]. set (self1 := set_download_amount self _).
  change (dry_run self1) with (dry_run self). rewrite Hdry.
  change (master_list self1) with (master_list self).
  change (dmg_path self1) with (dmg_path self).
  rewrite Z.add_0_l.
  set (report := EvPrint (MsgToDownload _ _ _)).
  assert (Hw2 : only_prints w (emit w1 report))
    by (eapply only_prints_trans; [exact Hw1|apply only_prints_emit]).
  assert (Hin : report ∈ trace (emit w1 report)).
  { cbn. apply elem_of_app. right. now apply list_elem_of_singleton. }
  destruct (dmg_path self) as [dmg|]; [destruct (String.eqb dmg "")|].
  1,3: (exists self1, (emit w1 report); split; [reflexivity|];
        split; [exact Hw2|]; split; [reflexivity|exact Hin]).
  unfold build_dmg. change (dry_run self1) with (dry_run self). rewrite Hdry.
  exists self1. eexists. split; [reflexivity|]. split; [|split; [reflexivity|]].
  - eapply only_prints_trans; [exact Hw2|apply only_prints_emit].
  - cbn [trace emit]. apply elem_of_app. left. exact Hin.
Qed.

Lemma elem_of_filter_list {A} (p : A -> bool) (l : list A) (x : A) :
  x ∈ List.filter p l -> x ∈ l.
Proof.
  induction l as [|y l IH]; cbn; [trivial|].
  destruct (p y).
  - intros H. apply elem_of_cons in H as [->|H]; apply elem_of_cons; auto.
  - intros H. apply elem_of_cons. auto.
Qed.

Lemma Forall_declared (P : Z -> Prop) (loops : list Loop) :
  (forall l, l ∈ loops -> P (declared_size l)) ->
  Forall P (declared_size <$> loops).
Proof.
  intros H. apply Forall_fmap, Forall_forall. intros l Hl. now apply H.
Qed.

(** The byte total of entries whose sizes are not negative and add up to
    at most 2^53 is that sum, without rounding. *)
Lemma fsum_announced (loops : list Loop) :
  (forall l, l ∈ loops -> 0 <= declared_size l) ->
  total_size loops <= 2 ^ 53 ->
  fsum (announced <$> loops) = Exact (total_size loops).
Proof.
  intros Hpos Hbound. unfold total_size in *.
  rewrite <- (fsum_exact (declared_size <$> loops));
    [|now apply Forall_declared|assumption].
  f_equal. now rewrite <- list_fmap_compose.
Qed.

(** X8. A dry run over a manifest with sizes that read as integers ends
    normally, leaves the filesystem as it was and only prints. The count it
    reports as "to download" is the number of entries the Duplicate Locator
    does not find; entries that are complete at their place and only
    skipped are counted too, while the ledger and the byte total leave them
    out: the ledger gets the sizes, as floats, of the entries not found and
    not complete at their place, and the total reported is their float sum,
    which is their exact sum when the ledger was empty, no size is negative
    and the sum is at most 2^53. *)
Theorem dry_run_counts_unlocated (self : AppleLoops) (net : Net) (w : World) :
  dry_run self = true ->
  sizes_numeric (master_list self) ->
  blksize (fs w) <> 0 ->
  exists self' w',
    process_manifest self net w = Ok (self', w')
    /\ only_prints w w'
    /\ download_amount self'
       = download_amount self
         ++ (announced <$> List.filter (to_fetch self (fs w)) (master_list self))
    /\ EvPrint (MsgToDownload
                  (len (master_list self))
                  (len (List.filter (fun l => negb (located self (fs w) l))
                          (master_list self)))
                  (fsum (download_amount self')))
       ∈ trace w'
    /\ (download_amount self = [] ->
        (forall l, l ∈ master_list self -> 0 <= declared_size l) ->
        total_to_fetch self (fs w) <= 2 ^ 53 ->
        fsum (download_amount self') = Exact (total_to_fetch self (fs w))).
Proof.
  intros Hdry Hnum Hblk.
  destruct (process_manifest_dry self net w Hdry Hnum Hblk)
    as (self' & w' & Hrun & Hpure & Hledger & Hreport).
  exists self', w'. repeat (split; [assumption|]).
  intros Hempty Hpos Hbound. rewrite Hledger, Hempty. cbn [app].
  apply fsum_announced; [|exact Hbound].
  intros l Hl. eapply Hpos, elem_of_filter_list, Hl.
Qed.

Lemma dry_run_counts_unlocated_witness :
  exists self' w',
    process_manifest Sample.dry Sample.net Sample.start = Ok (self', w')
    /\ fs w' = Sample.tree
    /\ EvPrint (MsgToDownload 2 1 (fsum (download_amount self'))) ∈ trace w'
    /\ fsum (download_amount self') = Exact 8192.
Proof.
  assert (Hnum : sizes_numeric (master_list Sample.dry)).
  { intros l Hl. apply elem_of_cons in Hl as [->|Hl]; [now exists 4096|].
    apply list_elem_of_singleton in Hl as ->. now exists 8192. }
  assert (Hblk : blksize (fs Sample.start) <> 0) by (vm_compute; discriminate).
  destruct (dry_run_counts_unlocated Sample.dry Sample.net Sample.start
              eq_refl Hnum Hblk) as (self' & w' & H1 & H2 & _ & H4 & H5).
  exists self', w'. split; [exact H1|]. split; [apply H2|].
  split; [exact H4|]. apply H5; [reflexivity| |vm_compute; discriminate].
  intros l Hl. apply elem_of_cons in Hl as [->|Hl]; [vm_compute; discriminate|].
  apply list_elem_of_singleton in Hl as ->. vm_compute. discriminate.
Defined.

Lemma filter_all {A} (p : A -> bool) (l : list A) :
  (forall x, x ∈ l -> p x = true) -> List.filter p l = l.
Proof.
  induction l as [|x l IH]; intros Hall; [reflexivity|]. cbn.
  rewrite (Hall x) by (apply elem_of_cons; now left).
  f_equal. apply IH. intros y Hy. apply Hall, elem_of_cons. now right.
Qed.

(** X9. On a download root with no directory three levels down and none of
    the packages at its place (a first run), the dry run over a manifest
    with sizes that read as integers announces every entry: the count is
    the length of the manifest, the ledger gets the size of every entry as
    a float, the total reported is their float sum (their exact sum when
    the ledger was empty, no size is negative and the sum is at most 2^53),
    and nothing is written. *)
Theorem dry_run_on_fresh_root (self : AppleLoops) (net : Net) (w : World) :
  dry_run self = true ->
  sizes_numeric (master_list self) ->
  blksize (fs w) <> 0 ->
  glob3 (fs w) (download_location self) = [] ->
  (forall l, l ∈ master_list self ->
             path_exists (fs w) (target_path self l) = false) ->
  exists self' w',
    process_manifest self net w = Ok (self', w')
    /\ fs w' = fs w
    /\ download_amount self'
       = download_amount self ++ (announced <$> master_list self)
    /\ EvPrint (MsgToDownload (len (master_list self)) (len (master_list self))
                  (fsum (download_amount self')))
       ∈ trace w'
    /\ (download_amount self = [] ->
        (forall l, l ∈ master_list self -> 0 <= declared_size l) ->
        total_size (master_list self) <= 2 ^ 53 ->
        fsum (download_amount self') = Exact (total_size (master_list self))).
Proof.
  intros Hdry Hnum Hblk Hglob Hnone.
  destruct (process_manifest_dry self net w Hdry Hnum Hblk)
    as (self' & w' & Hrun & Hpure & Hledger & Hreport).
  assert (Hloc : forall l, located self (fs w) l = false).
  { intros l. unfold located. now rewrite (duplicate_file_empty _ _ _ Hglob). }
  rewrite (filter_all (to_fetch self (fs w))) in Hledger.
  2:{ intros l Hl. unfold to_fetch, complete_at_target.
      now rewrite Hloc, (file_exists_missing _ _ _ (Hnone l Hl)). }
  rewrite (filter_all (fun l => negb (located self (fs w) l))) in Hreport
    by (intros l _; now rewrite Hloc).
  exists self', w'. split; [exact Hrun|]. split; [apply Hpure|].
  split; [exact Hledger|]. split; [exact Hreport|].
  intros Hempty Hpos Hbound. rewrite Hledger, Hempty. cbn [app].
  now apply fsum_announced.
Qed.

Lemma dry_run_on_fresh_root_witness :
  exists self' w',
    process_manifest Sample.dry Sample.net
      {| fs := {| blksize := 4096; nodes := [("/dl", Sample.dir)]; homes := [] |};
         trace := [] |}
    = Ok (self', w')
    /\ download_amount self' = [Exact 4096; Exact 8192]
    /\ fsum (download_amount self') = Exact 12288.
Proof.
  assert (Hnum : sizes_numeric (master_list Sample.dry)).
  { intros l Hl. apply elem_of_cons in Hl as [->|Hl]; [now exists 4096|].
    apply list_elem_of_singleton in Hl as ->. now exists 8192. }
  destruct (dry_run_on_fresh_root Sample.dry Sample.net
              {| fs := {| blksize := 4096; nodes := [("/dl", Sample.dir)];
                          homes := [] |};
                 trace := [] |} eq_refl Hnum)
    as (self' & w' & H1 & _ & H3 & _ & H5).
  - vm_compute. discriminate.
  - reflexivity.
  - intros l Hl. apply elem_of_cons in Hl as [->|Hl]; [reflexivity|].
    apply list_elem_of_singleton in Hl as ->. reflexivity.
  - exists self', w'. split; [exact H1|]. split; [exact H3|].
    apply H5; [reflexivity| |vm_compute; discriminate].
    intros l Hl. apply elem_of_cons in Hl as [->|Hl]; [vm_compute; discriminate|].
    apply list_elem_of_singleton in Hl as ->. vm_compute. discriminate.
Defined.

(** With at most one directory listed, the Duplicate Locator finds a
    package exactly when that directory holds it complete. *)
Lemma to_fetch_one_directory self f l :
  (length (glob3 f (download_location self)) <= 1)%nat ->
  to_fetch self f l = negb (complete_in_tree self f l).
Proof.
  intros Hone. unfold to_fetch, complete_in_tree, located.
  destruct (glob3 f (download_location self)) as [|path [|path' rest]] eqn:Hg.
  - rewrite (duplicate_file_empty _ _ _ Hg). cbn.
    now destruct (complete_at_target self f l).
  - rewrite (duplicate_file_first_only _ _ _ _ _ Hg). cbn [List.existsb].
    destruct (file_exists f l (OsPath.join path (pkg_name l))) as [found|];
      cbn [bind holds].
    + destruct (truthy found), (complete_at_target self f l); reflexivity.
    + now destruct (complete_at_target self f l).
  - cbn [length] in Hone. lia.
Qed.

(** X24. Where the download tree lists at most one directory three levels
    down, the dry run over a manifest with sizes that read as integers
    (none negative, the ledger empty at the start) writes nothing and
    reports as byte total the sum of the declared sizes of the entries not
    complete anywhere in the tree, as long as that sum is at most 2^53. *)
Theorem dry_run_total_one_directory (self : AppleLoops) (net : Net) (w : World) :
  dry_run self = true ->
  sizes_numeric (master_list self) ->
  blksize (fs w) <> 0 ->
  (length (glob3 (fs w) (download_location self)) <= 1)%nat ->
  download_amount self = [] ->
  (forall l, l ∈ master_list self -> 0 <= declared_size l) ->
  total_not_in_tree self (fs w) <= 2 ^ 53 ->
  exists self' w' download_counter,
    process_manifest self net w = Ok (self', w')
    /\ only_prints w w'
    /\ EvPrint (MsgToDownload (len (master_list self)) download_counter
                  (Exact (total_not_in_tree self (fs w))))
       ∈ trace w'.
Proof.
  intros Hdry Hnum Hblk Hone Hempty Hpos Hbound.
  destruct (process_manifest_dry self net w Hdry Hnum Hblk)
    as (self' & w' & Hrun & Hpure & Hledger & Hreport).
  assert (Hsame : List.filter (to_fetch self (fs w)) (master_list self)
                  = List.filter (fun l => negb (complete_in_tree self (fs w) l))
                      (master_list self)).
  { apply List.filter_ext. intros l. now apply to_fetch_one_directory. }
  assert (Htotal : fsum (download_amount self')
                   = Exact (total_not_in_tree self (fs w))).
  { rewrite Hledger, Hempty, Hsame. cbn [app].
    apply fsum_announced; [|exact Hbound].
    intros l Hl. eapply Hpos, elem_of_filter_list, Hl. }
  rewrite Htotal in Hreport.
  exists self', w'. eexists. split; [exact Hrun|]. split; [exact Hpure|].
  exact Hreport.
Qed.

Lemma dry_run_total_one_directory_witness :
  exists self' w' download_counter,
    process_manifest Sample.dry Sample.net
      {| fs := {| blksize := 4096;
                  nodes := [("/dl", Sample.dir);
                            ("/dl/logicpro", Sample.dir);
                            ("/dl/logicpro/2016", Sample.dir);
                            ("/dl/logicpro/2016/mandatory", Sample.dir);
                            ("/dl/logicpro/2016/mandatory/second.pkg",
                             {| nd_isdir := false; nd_size := 8192 |})];
                  homes := [] |};
         trace := [] |}
    = Ok (self', w')
    /\ EvPrint (MsgToDownload 2 download_counter (Exact 4096)) ∈ trace w'.
Proof.
  assert (Hnum : sizes_numeric (master_list Sample.dry)).
  { intros l Hl. apply elem_of_cons in Hl as [->|Hl]; [now exists 4096|].
    apply list_elem_of_singleton in Hl as ->. now exists 8192. }
  destruct (dry_run_total_one_directory Sample.dry Sample.net
              {| fs := {| blksize := 4096;
                          nodes := [("/dl", Sample.dir);
                                    ("/dl/logicpro", Sample.dir);
                                    ("/dl/logicpro/2016", Sample.dir);
                                    ("/dl/logicpro/2016/mandatory", Sample.dir);
                                    ("/dl/logicpro/2016/mandatory/second.pkg",
                                     {| nd_isdir := false; nd_size := 8192 |})];
                          homes := [] |};
                 trace := [] |} eq_refl Hnum)
    as (self' & w' & dc & H1 & _ & H3).
  - vm_compute. discriminate.
  - vm_compute. lia.
  - reflexivity.
  - intros l Hl. apply elem_of_cons in Hl as [->|Hl]; [vm_compute; discriminate|].
    apply list_elem_of_singleton in Hl as ->. vm_compute. discriminate.
  - vm_compute. discriminate.
  - exists self', w', dc. split; [exact H1|exact H3].
Defined.

(** ** More on real downloads *)

(** X10. When the server sends data for a package whose recorded size is
    zero, the progress percentage divides by zero and [download] ends with
    [ZeroDivisionError]. *)
Theorem download_raises_on_zero_size (self : AppleLoops) (net : Net) (loop : Loop)
    (counter : Z) (w : World) (target_complete : pyflag) (request : response)
    (buffer : string) (rest : list string) :
  dry_run self = false ->
  truthy target_complete = false ->
  net (pkg_url loop) = Some request ->
  path_isdir (fs w) (target_path self loop) = false ->
  resp_body request = buffer :: rest ->
  buffer <> "" ->
  py_float (pkg_size loop) = Ok (Exact 0) ->
  download_on self net loop counter w target_complete = Raise ZeroDivisionError.
Proof.
  intros Hdry Hflag Hnet Hdir Hbody Hbuf Hzero.
  unfold download_on, request_url. fold (target_path self loop).
  rewrite Hdry, Hflag, Hnet. cbn [negb bind fs emit]. rewrite Hdir, Hbody.
  cbn [stream]. apply String.eqb_neq in Hbuf. rewrite Hbuf, Hzero.
  reflexivity.
Qed.

Lemma download_raises_on_zero_size_witness :
  download_on Sample.real Sample.net
    (new_loop "core.pkg" Sample.core_url true (PyInt 0) "2016" "g" "p")
    1 Sample.start PyNone
  = Raise ZeroDivisionError.
Proof.
  refine (download_raises_on_zero_size Sample.real Sample.net
            (new_loop "core.pkg" Sample.core_url true (PyInt 0) "2016" "g" "p")
            1 Sample.start PyNone
            {| resp_packages := Undecodable; resp_content_length := Some " 4096 ";
               resp_body := ["abc"; "de"] |} "abc" ["de"]
            eq_refl eq_refl eq_refl eq_refl eq_refl _ eq_refl).
  discriminate.
Defined.

(** ** Paths *)

Lemma append_nil_r (s : string) : s +:+ "" = s.
Proof.
  induction s as [|a s IH]; [reflexivity|].
  change (String a (s +:+ "") = String a s). now rewrite IH.
Qed.

Lemma append_cons a (s t : string) : String a s +:+ t = String a (s +:+ t).
Proof. reflexivity. Qed.

Lemma split_no_slash s : no_slash s = true -> PyStr.split "/" s = [s].
Proof.
  unfold no_slash. induction s as [|a s IH]; [reflexivity|].
  cbn [PyStr.all_chars]. intros [Ha Hs]%andb_true_iff.
  apply split_cons_other; [now apply negb_true_iff in Ha|now apply IH].
Qed.

Lemma split_parts_no_slash s :
  Forall (fun x => no_slash x = true) (PyStr.split "/" s).
Proof.
  induction s as [|a s IH]; [repeat constructor|]. cbn [PyStr.split].
  destruct (Ascii.eqb a "/") eqn:Ha; [constructor; [reflexivity|exact IH]|].
  destruct (PyStr.split "/" s) as [|w ws]; [repeat constructor; cbn; now rewrite Ha|].
  inversion IH as [|? ? Hw Hws]; subst. constructor; [|exact Hws].
  unfold no_slash in *. cbn [PyStr.all_chars]. now rewrite Ha, Hw.
Qed.

Lemma components_plain p : Forall (fun x => plain x = true) (components p).
Proof.
  unfold components. pose proof (split_parts_no_slash p) as Hall.
  induction Hall as [|x l Hx Hl IH]; [constructor|]. cbn [List.filter].
  destruct (nonempty x) eqn:Hne; [|exact IH].
  constructor; [unfold plain; now rewrite Hne, Hx|exact IH].
Qed.

Lemma plain_no_slash x : plain x = true -> no_slash x = true.
Proof. unfold plain. now intros [_ H]%andb_true_iff. Qed.

Lemma plain_nonempty x : plain x = true -> nonempty x = true.
Proof. unfold plain. now intros [H _]%andb_true_iff. Qed.

(** Joining components with slashes and splitting again gives them back. *)
Lemma split_join comps :
  comps <> [] -> Forall (fun x => plain x = true) comps ->
  PyStr.split "/" (PyStr.join "/" comps) = comps.
Proof.
  induction comps as [|x rest IH]; [contradiction|]. intros _ Hall.
  inversion Hall as [|? ? Hx Hrest]; subst.
  destruct rest as [|y rest'].
  - cbn [PyStr.join]. now apply split_no_slash, plain_no_slash.
  - change (PyStr.join "/" (x :: y :: rest'))
      with (x +:+ String "/" (PyStr.join "/" (y :: rest'))).
    rewrite split_app_sep, IH by (assumption || discriminate).
    now rewrite (split_no_slash x (plain_no_slash _ Hx)).
Qed.

Lemma filter_nonempty_plain comps :
  Forall (fun x => plain x = true) comps -> List.filter nonempty comps = comps.
Proof.
  intros Hall. apply filter_all. intros x Hx.
  rewrite Forall_forall in Hall. now apply plain_nonempty, Hall.
Qed.

Lemma components_join comps :
  Forall (fun x => plain x = true) comps ->
  components (PyStr.join "/" comps) = comps.
Proof.
  intros Hall. unfold components. destruct comps as [|x rest]; [reflexivity|].
  rewrite split_join by (assumption || discriminate).
  now apply filter_nonempty_plain.
Qed.

Lemma components_slash p : components (String "/" p) = components p.
Proof. unfold components. cbn [PyStr.split]. reflexivity. Qed.

Lemma startswith_cons a s c :
  PyStr.startswith (String a s) (String c "") = Ascii.eqb a c.
Proof.
  unfold PyStr.startswith. cbn.
  destruct (Ascii.eqb_spec a c) as [->|Hne].
  - destruct (ascii_dec c c); [now destruct s|contradiction].
  - destruct (ascii_dec c a) as [->|]; [contradiction|reflexivity].
Qed.

Lemma plain_head x :
  plain x = true -> exists a s, x = String a s /\ Ascii.eqb a "/" = false.
Proof.
  unfold plain, no_slash. destruct x as [|a s]; [discriminate|].
  cbn. intros [Ha _]%andb_true_iff. exists a, s. split; [reflexivity|].
  now apply negb_true_iff.
Qed.

Lemma startswith_join comps :
  Forall (fun x => plain x = true) comps ->
  PyStr.startswith (PyStr.join "/" comps) "/" = false.
Proof.
  intros Hall. destruct comps as [|x rest]; [reflexivity|].
  inversion Hall as [|? ? Hx _]; subst.
  destruct (plain_head x Hx) as (a & s & -> & Ha).
  destruct rest; cbn [PyStr.join]; rewrite ?append_cons;
    now rewrite startswith_cons.
Qed.

Lemma normpath_absolute comps :
  Forall (fun x => plain x = true) comps ->
  normpath ("/" +:+ PyStr.join "/" comps) = "/" +:+ PyStr.join "/" comps.
Proof.
  intros Hall. unfold normpath.
  change ("/" +:+ PyStr.join "/" comps) with (String "/" (PyStr.join "/" comps)).
  rewrite startswith_cons, components_slash, components_join by assumption.
  reflexivity.
Qed.

Lemma normpath_relative comps :
  Forall (fun x => plain x = true) comps ->
  normpath (PyStr.join "/" comps) = PyStr.join "/" comps.
Proof.
  intros Hall. unfold normpath.
  now rewrite startswith_join, components_join by assumption.
Qed.

Lemma normpath_unfold p : normpath p = root_of p +:+ PyStr.join "/" (components p).
Proof. reflexivity. Qed.

(** A normalised path names itself. *)
Lemma normpath_idempotent p : normpath (normpath p) = normpath p.
Proof.
  rewrite (normpath_unfold p). unfold root_of.
  destruct (PyStr.startswith p "/").
  - apply normpath_absolute, components_plain.
  - apply normpath_relative, components_plain.
Qed.

(** ** Creating directories *)

Lemma find_put_node_other k k' nd l :
  k' <> k ->
  List.find (fun kv : string * node => String.eqb (fst kv) k') (put_node k nd l)
  = List.find (fun kv : string * node => String.eqb (fst kv) k') l.
Proof.
  intros Hne. induction l as [|[k0 nd0] l IH]; cbn.
  - apply String.eqb_neq in Hne. rewrite String.eqb_sym. now rewrite Hne.
  - destruct (String.eqb k0 k) eqn:Hk0; cbn.
    + apply String.eqb_eq in Hk0 as ->.
      assert (H : String.eqb k k' = false)
        by (apply String.eqb_neq; congruence).
      now rewrite H.
    + destruct (String.eqb k0 k'); [reflexivity|exact IH].
Qed.

Lemma fs_lookup_put f p nd : fs_lookup (fs_put f p nd) p = Some nd.
Proof. unfold fs_lookup, fs_put. cbn. now rewrite find_put_node. Qed.

Lemma fs_lookup_put_other f p q nd :
  normpath q <> normpath p -> fs_lookup (fs_put f p nd) q = fs_lookup f q.
Proof.
  intros Hne. unfold fs_lookup, fs_put. cbn. now rewrite find_put_node_other.
Qed.

Lemma keeps_nodes_refl f : keeps_nodes f f.
Proof. split; [reflexivity|auto]. Qed.

Lemma keeps_nodes_trans f1 f2 f3 :
  keeps_nodes f1 f2 -> keeps_nodes f2 f3 -> keeps_nodes f1 f3.
Proof. intros [Hb1 H1] [Hb2 H2]. split; [congruence|auto]. Qed.

(** Putting a node where nothing was keeps what was there. *)
Lemma keeps_nodes_put_fresh f p nd :
  fs_lookup f p = None -> keeps_nodes f (fs_put f p nd).
Proof.
  intros Hnone. split; [reflexivity|]. intros q ndq Hq.
  rewrite fs_lookup_put_other; [exact Hq|].
  intros Heq. unfold fs_lookup in *. rewrite Heq in Hq. congruence.
Qed.

Lemma mkdir_step_spec p f f' :
  mkdir_step p f = Ok f' -> keeps_nodes f f' /\ path_isdir f' p = true.
Proof.
  unfold mkdir_step, path_isdir. destruct (fs_lookup f p) as [nd|] eqn:Hp.
  - destruct (nd_isdir nd) eqn:Hd; [|discriminate]. intros [= <-].
    split; [apply keeps_nodes_refl|]. now rewrite Hp.
  - intros [= <-]. split; [now apply keeps_nodes_put_fresh|].
    now rewrite fs_lookup_put.
Qed.

Lemma keeps_nodes_isdir f f' p :
  keeps_nodes f f' -> path_isdir f p = true -> path_isdir f' p = true.
Proof.
  intros [_ Hkeep]. unfold path_isdir.
  destruct (fs_lookup f p) as [nd|] eqn:Hp; [|discriminate].
  intros Hd. now rewrite (Hkeep _ _ Hp).
Qed.

Lemma mkdir_steps_spec prefixes :
  forall f f',
    for_each mkdir_step prefixes f = Ok f' ->
    keeps_nodes f f' /\ forall q, q ∈ prefixes -> path_isdir f' q = true.
Proof.
  induction prefixes as [|p rest IH]; intros f f' Hrun; cbn in Hrun.
  - injection Hrun as <-. split; [apply keeps_nodes_refl|].
    intros q Hq. inversion Hq.
  - destruct (mkdir_step p f) as [f1|] eqn:Hstep; [|discriminate]. cbn in Hrun.
    destruct (mkdir_step_spec _ _ _ Hstep) as [Hkeep1 Hdir1].
    destruct (IH _ _ Hrun) as [Hkeep2 Hdirs].
    split; [eapply keeps_nodes_trans; eassumption|].
    intros q [->|Hq]%elem_of_cons; [|now apply Hdirs].
    eapply keeps_nodes_isdir; eassumption.
Qed.

Lemma makedirs_unfold f folder :
  makedirs f folder
  = for_each mkdir_step (prefixes_go (root_of folder) (components folder)) f.
Proof. reflexivity. Qed.

Lemma prefixes_go_unfold acc c rest :
  prefixes_go acc (c :: rest)
  = extend_path acc c :: prefixes_go (extend_path acc c) rest.
Proof. reflexivity. Qed.

Lemma join_snoc done c :
  done <> [] -> PyStr.join "/" (done ++ [c]) = PyStr.join "/" done +:+ "/" +:+ c.
Proof.
  induction done as [|x rest IH]; [contradiction|]. intros _.
  destruct rest as [|y rest'].
  - reflexivity.
  - change (PyStr.join "/" ((x :: y :: rest') ++ [c]))
      with (x +:+ "/" +:+ PyStr.join "/" ((y :: rest') ++ [c])).
    rewrite IH by discriminate.
    change (PyStr.join "/" (x :: y :: rest'))
      with (x +:+ "/" +:+ PyStr.join "/" (y :: rest')).
    now rewrite !append_assoc.
Qed.

Lemma extend_path_start start c :
  start = "" \/ start = "/" -> extend_path start c = start +:+ PyStr.join "/" [c].
Proof. intros [->| ->]; reflexivity. Qed.

Lemma extend_path_later start done c :
  start = "" \/ start = "/" ->
  done <> [] -> Forall (fun x => plain x = true) done ->
  extend_path (start +:+ PyStr.join "/" done) c
  = start +:+ PyStr.join "/" (done ++ [c]).
Proof.
  intros Hstart Hne Hall. unfold extend_path.
  assert (Hacc : (String.eqb (start +:+ PyStr.join "/" done) ""
                  || String.eqb (start +:+ PyStr.join "/" done) "/")%bool = false).
  { destruct done as [|x rest]; [contradiction|].
    inversion Hall as [|? ? Hx _]; subst.
    destruct (plain_head x Hx) as (a & s & -> & Ha).
    assert (Hjoin : exists t, PyStr.join "/" (String a s :: rest) = String a t).
    { destruct rest; cbn [PyStr.join]; rewrite ?append_cons; eauto. }
    destruct Hjoin as [t ->].
    apply orb_false_iff.
    destruct Hstart as [->| ->]; split; apply String.eqb_neq;
      rewrite ?append_cons; try discriminate.
    intros [= ->]. discriminate. }
  rewrite Hacc, join_snoc by assumption. now rewrite !append_assoc.
Qed.

(** The prefixes that [makedirs] goes through are the normalised paths of
    the leading components. *)
Lemma prefixes_go_spec start comps :
  start = "" \/ start = "/" ->
  forall done,
    Forall (fun x => plain x = true) (done ++ comps) ->
    forall q,
      q ∈ prefixes_go (start +:+ PyStr.join "/" done) comps <->
      exists k, (0 < k <= length comps)%nat
                /\ q = start +:+ PyStr.join "/" (done ++ take k comps).
Proof.
  intros Hstart. induction comps as [|c rest IH]; intros done Hall q.
  - cbn. split; [intros H; inversion H|]. intros (k & Hk & _). cbn in Hk. lia.
  - rewrite prefixes_go_unfold.
    assert (Hext : extend_path (start +:+ PyStr.join "/" done) c
                   = start +:+ PyStr.join "/" (done ++ [c])).
    { destruct done as [|d done'].
      - change (start +:+ PyStr.join "/" []) with (start +:+ "").
        rewrite append_nil_r. now apply extend_path_start.
      - apply extend_path_later; [assumption|discriminate|].
        apply Forall_app in Hall. apply Hall. }
    rewrite Hext, elem_of_cons, IH by (now rewrite <- app_assoc).
    split.
    + intros [->|(k & Hk & ->)].
      * exists 1%nat. cbn. split; [lia|reflexivity].
      * exists (S k). cbn [length take]. split; [lia|].
        now rewrite <- app_assoc.
    + intros (k & Hk & ->). destruct k as [|k]; [lia|].
      destruct k as [|k].
      * left. reflexivity.
      * right. exists (S k). cbn [length] in Hk. split; [lia|].
        cbn [take]. now rewrite <- app_assoc.
Qed.

Lemma root_of_cases p : root_of p = "" \/ root_of p = "/".
Proof. unfold root_of. destruct (PyStr.startswith p "/"); auto. Qed.

Lemma normpath_in_prefixes folder :
  components folder <> [] ->
  normpath folder ∈ prefixes_go (root_of folder) (components folder).
Proof.
  intros Hne.
  pose proof (prefixes_go_spec (root_of folder) (components folder)
                (root_of_cases folder) [] (components_plain folder)
                (normpath folder)) as Hspec.
  change (root_of folder +:+ PyStr.join "/" []) with (root_of folder +:+ "") in Hspec.
  rewrite append_nil_r in Hspec. apply Hspec.
  exists (length (components folder)). split.
  - destruct (components folder); [contradiction|cbn; lia].
  - cbn [app]. now rewrite firstn_all.
Qed.

Lemma path_isdir_normpath f p : path_isdir f (normpath p) = path_isdir f p.
Proof. unfold path_isdir, fs_lookup. now rewrite normpath_idempotent. Qed.

Lemma fs_lookup_normpath f p : fs_lookup f (normpath p) = fs_lookup f p.
Proof. unfold fs_lookup. now rewrite normpath_idempotent. Qed.

Lemma expanduser_no_tilde f path :
  PyStr.startswith path "~" = false -> expanduser f path = path.
Proof. unfold expanduser. now intros ->. Qed.

Lemma make_storage_location_unfold w folder :
  make_storage_location w folder
  = if negb (path_isdir (fs w) (expanduser (fs w) folder)) then
      do f <- makedirs (fs w) (expanduser (fs w) folder);
      Ok (emit (set_fs w f) (EvMakedirs (expanduser (fs w) folder)))
    else Ok w.
Proof. reflexivity. Qed.


(** X11. When [make_storage_location] returns, the folder, with a leading
    [~] or [~user] replaced by the home directory, is a directory, every
    path that existed is still there with the same node, and at most one
    [makedirs] was issued; a folder that was a directory already leaves the
    world as it is. A folder that does not start with [~] is taken as it
    is. *)
Theorem make_storage_location_makes_directory (w : World) (folder : string)
    (w' : World) :
  components (expanduser (fs w) folder) <> [] ->
  make_storage_location w folder = Ok w' ->
  path_isdir (fs w') (expanduser (fs w) folder) = true
  /\ keeps_nodes (fs w) (fs w')
  /\ (trace w' = trace w
      \/ trace w' = trace w ++ [EvMakedirs (expanduser (fs w) folder)])
  /\ (path_isdir (fs w) (expanduser (fs w) folder) = true -> w' = w)
  /\ (PyStr.startswith folder "~" = false -> expanduser (fs w) folder = folder).
Proof.
  intros Hcomps. rewrite make_storage_location_unfold.
  set (expanded := expanduser (fs w) folder) in *.
  assert (Hplain : PyStr.startswith folder "~" = false -> expanded = folder)
    by apply expanduser_no_tilde.
  destruct (path_isdir (fs w) expanded) eqn:Hdir; cbn [negb].
  - intros [= <-].
    split; [exact Hdir|]. split; [apply keeps_nodes_refl|].
    split; [now left|]. split; [reflexivity|exact Hplain].
  - destruct (makedirs (fs w) expanded) as [f'|] eqn:Hmk; [|discriminate].
    cbn [bind]. intros [= <-]. cbn [fs trace emit set_fs].
    rewrite makedirs_unfold in Hmk.
    destruct (mkdir_steps_spec _ _ _ Hmk) as [Hkeep Hdirs].
    split; [|split; [exact Hkeep|split; [now right|split; [discriminate|]]]].
    + rewrite <- path_isdir_normpath. now apply Hdirs, normpath_in_prefixes.
    + exact Hplain.
Qed.

Lemma make_storage_location_makes_directory_witness :
  exists w',
    make_storage_location Sample.start "~/loops/mandatory" = Ok w'
    /\ path_isdir (fs w') "/home/user/loops/mandatory" = true
    /\ trace w' = [EvMakedirs "/home/user/loops/mandatory"].
Proof.
  assert (H : exists w', make_storage_location Sample.start
                           "~/loops/mandatory" = Ok w')
    by (eexists; vm_compute; reflexivity).
  destruct H as [w' H]. exists w'. split; [exact H|].
  assert (Hcomps : components (expanduser (fs Sample.start) "~/loops/mandatory")
                   <> []) by (vm_compute; discriminate).
  destruct (make_storage_location_makes_directory Sample.start
              "~/loops/mandatory" w' Hcomps H) as (H1 & _ & H3 & _).
  split; [exact H1|].
  destruct H3 as [H3|H3]; [|exact H3].
  vm_compute in H. injection H as <-. discriminate H3.
Defined.

Lemma mkdir_steps_blocked prefixes :
  forall f q nd,
    q ∈ prefixes -> fs_lookup f q = Some nd -> nd_isdir nd = false ->
    for_each mkdir_step prefixes f = Raise OSError.
Proof.
  induction prefixes as [|p rest IH]; intros f q nd Hq Hlook Hfile.
  - inversion Hq.
  - cbn [for_each]. destruct (mkdir_step p f) as [f1|e] eqn:Hstep.
    + cbn [bind]. apply elem_of_cons in Hq as [->|Hq].
      * unfold mkdir_step in Hstep. rewrite Hlook, Hfile in Hstep. discriminate.
      * destruct (mkdir_step_spec _ _ _ Hstep) as [[_ Hkeep] _].
        eapply IH; [exact Hq|apply Hkeep; exact Hlook|exact Hfile].
    + cbn [bind]. unfold mkdir_step in Hstep.
      destruct (fs_lookup f p) as [nd'|]; [|discriminate].
      destruct (nd_isdir nd'); [discriminate|]. now injection Hstep as <-.
Qed.

(** X12. A file standing where the folder should be (the folder with a
    leading [~] or [~user] replaced by the home directory) makes
    [make_storage_location] end with [OSError]. *)
Theorem make_storage_location_blocked_by_file (w : World) (folder : string)
    (nd : node) :
  components (expanduser (fs w) folder) <> [] ->
  fs_lookup (fs w) (expanduser (fs w) folder) = Some nd ->
  nd_isdir nd = false ->
  make_storage_location w folder = Raise OSError.
Proof.
  intros Hcomps Hlook Hfile. rewrite make_storage_location_unfold.
  unfold path_isdir. rewrite Hlook, Hfile. cbn [negb]. rewrite makedirs_unfold.
  rewrite (mkdir_steps_blocked _ (fs w)
             (normpath (expanduser (fs w) folder)) nd); [reflexivity| | |].
  - now apply normpath_in_prefixes.
  - now rewrite fs_lookup_normpath.
  - exact Hfile.
Qed.

Lemma make_storage_location_blocked_by_file_witness :
  make_storage_location Sample.start "/dl/garageband/2016/mandatory/first.pkg"
  = Raise OSError.
Proof.
  refine (make_storage_location_blocked_by_file Sample.start
            "/dl/garageband/2016/mandatory/first.pkg"
            {| nd_isdir := false; nd_size := 4096 |} _ eq_refl eq_refl).
  vm_compute. discriminate.
Defined.

(** ** Joining paths *)

Lemma rev_app_spec s acc : String.rev_app s acc = String.rev s +:+ acc.
Proof.
  revert acc. induction s as [|a s IH]; intros acc; [reflexivity|].
  unfold String.rev. cbn [String.rev_app].
  rewrite (IH (String a acc)), (IH (String a "")).
  now rewrite append_assoc.
Qed.

Lemma rev_cons a s : String.rev (String a s) = String.rev s +:+ String a "".
Proof. unfold String.rev at 1. cbn [String.rev_app]. apply rev_app_spec. Qed.

Lemma rev_append s t : String.rev (s +:+ t) = String.rev t +:+ String.rev s.
Proof.
  induction s as [|a s IH].
  - change ("" +:+ t) with t. change (String.rev "") with "".
    now rewrite append_nil_r.
  - rewrite append_cons, !rev_cons, IH. now rewrite append_assoc.
Qed.

Lemma rev_involutive s : String.rev (String.rev s) = s.
Proof.
  induction s as [|a s IH]; [reflexivity|].
  rewrite rev_cons, rev_append, IH. reflexivity.
Qed.

Lemma endswith_slash_inv a :
  PyStr.endswith a "/" = true -> exists a', a = a' +:+ "/".
Proof.
  unfold PyStr.endswith. change (String.rev "/") with "/".
  destruct (String.rev a) as [|c r] eqn:Hrev; [discriminate|].
  fold (PyStr.startswith (String c r) "/"). rewrite startswith_cons.
  intros Hc. apply Ascii.eqb_eq in Hc as ->.
  exists (String.rev r). rewrite <- (rev_involutive a), Hrev. apply rev_cons.
Qed.

Lemma components_app_slash a b :
  components (a +:+ String "/" b) = components a ++ components b.
Proof. unfold components. now rewrite split_app_sep, List.filter_app. Qed.

Lemma components_join_path a b :
  PyStr.startswith b "/" = false ->
  components (OsPath.join a b) = components a ++ components b.
Proof.
  intros Hb. unfold OsPath.join. rewrite Hb.
  destruct (String.eqb_spec a "") as [->|Hne]; [reflexivity|]. cbn [orb].
  destruct (PyStr.endswith a "/") eqn:Hend.
  - destruct (endswith_slash_inv _ Hend) as [a' ->].
    rewrite append_assoc. change ("/" +:+ b) with (String "/" b).
    rewrite !components_app_slash. change (components "") with (@nil string).
    now rewrite app_nil_r.
  - change (a +:+ "/" +:+ b) with (a +:+ String "/" b).
    apply components_app_slash.
Qed.



Lemma components_normal start comps :
  start = "" \/ start = "/" -> Forall (fun x => plain x = true) comps ->
  components (start +:+ PyStr.join "/" comps) = comps.
Proof.
  intros [->| ->] Hall.
  - now apply components_join.
  - change ("/" +:+ PyStr.join "/" comps) with (String "/" (PyStr.join "/" comps)).
    rewrite components_slash. now apply components_join.
Qed.





(** ** Reusing a copy *)


Lemma path_exists_put f p nd : path_exists (fs_put f p nd) p = true.
Proof. unfold path_exists. now rewrite fs_lookup_put. Qed.

Lemma file_exists_at_node f loop p n nd :
  fs_lookup f p = Some nd -> py_int (pkg_size loop) = Ok n -> blksize f <> 0 ->
  file_exists f loop p =
  Ok (if nd_size nd / blksize f >=? n / blksize f then PyTrue else PyFalse).
Proof.
  intros Hlook Hn Hblk.
  rewrite (file_exists_present f loop p n); [|unfold path_exists; now rewrite Hlook|
                                             assumption|assumption].
  unfold getsize. now rewrite Hlook.
Qed.




(** ** After a download *)

(** What the stream loop leaves: the file with the bytes received, and every
    other path as it was. *)
Lemma stream_leaves_file self loop counter local_file size body :
  py_float (pkg_size loop) = Ok size -> float_is_zero size = false ->
  forall bytes_so_far w,
    fs_lookup (fs w) local_file
    = Some {| nd_isdir := false; nd_size := bytes_so_far |} ->
    exists w',
      stream self loop counter local_file body bytes_so_far w
      = Ok (bytes_so_far + received body, w')
      /\ fs_lookup (fs w') local_file
         = Some {| nd_isdir := false; nd_size := bytes_so_far + received body |}
      /\ blksize (fs w') = blksize (fs w)
      /\ forall q, normpath q <> normpath local_file ->
                   fs_lookup (fs w') q = fs_lookup (fs w) q.
Proof.
  intros Hn Hnz.
  induction body as [|buffer rest IH]; intros bytes w Hfile; cbn [stream received].
  - rewrite Z.add_0_r. eexists. split; [reflexivity|].
    destruct (jss_mode self); cbn [fs emit]; auto.
  - destruct (String.eqb buffer "").
    + rewrite Z.add_0_r. eexists. split; [reflexivity|].
      destruct (jss_mode self); cbn [fs emit]; auto.
    + rewrite Hn. cbn [bind]. rewrite Hnz. rewrite Z.add_assoc.
      set (w2 := if jss_mode self then _ else _).
      assert (Hfs2 : fs w2 = fs_put (fs w) local_file
                               {| nd_isdir := false;
                                  nd_size := bytes + Z.of_nat (String.length buffer) |})
        by (subst w2; now destruct (jss_mode self)).
      destruct (IH (bytes + Z.of_nat (String.length buffer)) w2)
        as (w' & Hrun & Hlook & Hblk & Hother).
      { rewrite Hfs2. apply fs_lookup_put. }
      exists w'. split; [exact Hrun|]. split; [exact Hlook|].
      rewrite Hfs2 in Hblk, Hother. split; [exact Hblk|].
      intros q Hq. rewrite (Hother q Hq). now apply fs_lookup_put_other.
Qed.

(** A real download that goes through, with what it leaves behind. *)
Lemma download_on_result self net loop counter w target_complete request size :
  dry_run self = false ->
  truthy target_complete = false ->
  net (pkg_url loop) = Some request ->
  path_isdir (fs w) (target_path self loop) = false ->
  py_float (pkg_size loop) = Ok size ->
  float_is_zero size = false ->
  exists w',
    download_on self net loop counter w target_complete
    = Ok (set_download_amount self (download_amount self ++ [size]), w')
    /\ fs_lookup (fs w') (target_path self loop)
       = Some {| nd_isdir := false; nd_size := received (resp_body request) |}
    /\ blksize (fs w') = blksize (fs w)
    /\ forall q, normpath q <> normpath (target_path self loop) ->
                 fs_lookup (fs w') q = fs_lookup (fs w) q.
Proof.
  intros Hdry Hflag Hnet Hdir Hn Hnz.
  unfold download_on, request_url. fold (target_path self loop).
  rewrite Hdry, Hflag, Hnet. cbn [negb bind fs emit]. rewrite Hdir.
  set (w2 := emit _ (EvOpenWrite _)).
  destruct (stream_leaves_file self loop counter (target_path self loop) size
              (resp_body request) Hn Hnz 0 w2)
    as (w3 & -> & Hlook & Hblk & Hother).
  { subst w2. cbn [fs emit set_fs]. apply fs_lookup_put. }
  cbn [bind snd]. unfold download_finally. rewrite Hn.
  eexists. split; [reflexivity|]. cbn [fs emit].
  split; [exact Hlook|]. split; [exact Hblk|].
  intros q Hq. rewrite (Hother q Hq). subst w2. cbn [fs emit set_fs].
  now apply fs_lookup_put_other.
Qed.

(** X14. After a real download that went through, the oracle judges the
    file by what the server sent: complete when at least the recorded size
    arrived, [False] when fewer whole blocks did, so that a short delivery
    is fetched again by the next run. *)
Theorem download_then_file_exists (self : AppleLoops) (net : Net) (loop : Loop)
    (counter : Z) (w : World) (target_complete : pyflag) (request : response)
    (n : Z) :
  dry_run self = false ->
  truthy target_complete = false ->
  net (pkg_url loop) = Some request ->
  path_isdir (fs w) (target_path self loop) = false ->
  py_int (pkg_size loop) = Ok n ->
  n <> 0 ->
  0 < blksize (fs w) ->
  exists self' w',
    download_on self net loop counter w target_complete = Ok (self', w')
    /\ (n <= received (resp_body request) ->
        file_exists (fs w') loop (target_path self loop) = Ok PyTrue)
    /\ (received (resp_body request) / blksize (fs w) < n / blksize (fs w) ->
        file_exists (fs w') loop (target_path self loop) = Ok PyFalse).
Proof.
  intros Hdry Hflag Hnet Hdir Hn Hnz Hblk.
  destruct (download_on_result self net loop counter w target_complete request
              (to_float n) Hdry Hflag Hnet Hdir (py_float_numeric _ _ Hn)
              (to_float_nonzero _ Hnz)) as (w' & Hrun & Hlook & Hblk' & _).
  do 2 eexists. split; [exact Hrun|].
  rewrite (file_exists_at_node _ loop _ n _ Hlook Hn) by (rewrite Hblk'; lia).
  rewrite Hblk'. cbn [nd_size]. split; intros H.
  - pose proof (Z.div_le_mono _ _ _ Hblk H).
    destruct (Z.geb_spec (received (resp_body request) / blksize (fs w))
                (n / blksize (fs w))); [reflexivity|lia].
  - destruct (Z.geb_spec (received (resp_body request) / blksize (fs w))
                (n / blksize (fs w))); [lia|reflexivity].
Qed.

Lemma download_then_file_exists_witness :
  exists self' w',
    download_on Sample.real Sample.net Sample.core_loop 1 Sample.start PyNone
    = Ok (self', w')
    /\ file_exists (fs w') Sample.core_loop
         (target_path Sample.real Sample.core_loop) = Ok PyFalse.
Proof.
  destruct (download_then_file_exists Sample.real Sample.net Sample.core_loop 1
              Sample.start PyNone
              {| resp_packages := Undecodable; resp_content_length := Some " 4096 ";
                 resp_body := ["abc"; "de"] |} 4096
              eq_refl eq_refl eq_refl eq_refl eq_refl)
    as (self' & w' & H1 & _ & H3).
  - discriminate.
  - reflexivity.
  - exists self', w'. split; [exact H1|]. apply H3. reflexivity.
Defined.






(** ** Where the scan looks and where files are written *)

Lemma prefix_split p k :
  String.prefix p k = true -> k = p +:+ PyStr.drop (String.length p) k.
Proof.
  revert k. induction p as [|a p IH]; intros k Hk; [reflexivity|].
  destruct k as [|b k]; [discriminate|]. cbn in Hk.
  destruct (ascii_dec a b) as [->|]; [|discriminate].
  cbn [String.length PyStr.drop]. rewrite append_cons. f_equal. now apply IH.
Qed.

Lemma components_normpath p : components (normpath p) = components p.
Proof.
  rewrite normpath_unfold.
  apply components_normal; [apply root_of_cases|apply components_plain].
Qed.

Lemma plain_components x : plain x = true -> components x = [x].
Proof.
  intros Hx. unfold components.
  rewrite (split_no_slash x (plain_no_slash _ Hx)). cbn.
  now rewrite (plain_nonempty _ Hx).
Qed.

Lemma plain_not_absolute x : plain x = true -> PyStr.startswith x "/" = false.
Proof.
  intros Hx. destruct (plain_head x Hx) as (a & s & -> & Ha).
  now rewrite startswith_cons.
Qed.

(** Every directory the pattern lists lies exactly three components under
    the root. *)
Lemma glob3_depth f root path :
  path ∈ glob3 f root ->
  length (components path) = (length (components root) + 3)%nat.
Proof.
  unfold glob3. set (r := normpath root).
  set (pre := if String.eqb r "/" then "/" else r +:+ "/").
  intros Hin. apply list_elem_of_fmap in Hin as ([k nd] & -> & Hhit).
  apply list_elem_of_In, List.filter_In in Hhit as [_ Hhit]. cbn [fst snd] in *.
  apply andb_true_iff in Hhit as [Hhit Hparts].
  apply andb_true_iff in Hhit as [_ Hpre].
  apply prefix_split in Hpre.
  set (rest := PyStr.drop (String.length pre) k) in *.
  assert (Hrest : length (components rest) = 3%nat).
  { unfold components.
    destruct (PyStr.split "/" rest) as [|a [|b [|c [|? ?]]]]; try discriminate.
    apply andb_true_iff in Hparts as [Hab Hc].
    apply andb_true_iff in Hab as [Ha Hb].
    unfold star_matches in *.
    apply andb_true_iff in Ha as [Ha _]. apply andb_true_iff in Hb as [Hb _].
    apply andb_true_iff in Hc as [Hc _]. cbn. now rewrite Ha, Hb, Hc. }
  change (k +:+ "/") with (k +:+ String "/" "").
  rewrite components_app_slash. change (components "") with (@nil string).
  rewrite app_nil_r, Hpre.
  assert (Hk : components (pre +:+ rest) = components root ++ components rest).
  { subst pre. destruct (String.eqb_spec r "/") as [Hr|Hr].
    - change ("/" +:+ rest) with (String "/" rest). rewrite components_slash.
      replace (components root) with (@nil string); [reflexivity|].
      rewrite <- components_normpath. fold r. now rewrite Hr.
    - rewrite append_assoc. change ("/" +:+ rest) with (String "/" rest).
      rewrite components_app_slash. subst r. now rewrite components_normpath. }
  rewrite Hk, length_app, Hrest. reflexivity.
Qed.

(** X16. The files this program writes are not where its duplicate scan
    looks: a target lies under [<root>/<plist>/<mandatory|optional>], two
    levels down, and the scan examines files in directories three levels
    down. For records with plain names, no path the scan examines is the
    target of any record. *)
Theorem scan_never_examines_a_target (self : AppleLoops) (f : FS)
    (loop written : Loop) (path : string) :
  plain (pkg_name loop) = true ->
  plain (pkg_name written) = true ->
  plain (pkg_plist written) = true ->
  path ∈ glob3 f (download_location self) ->
  normpath (OsPath.join path (pkg_name loop))
  <> normpath (target_path self written).
Proof.
  intros Hname Hwname Hwplist Hpath Heq.
  apply (f_equal components) in Heq. rewrite !components_normpath in Heq.
  apply (f_equal length) in Heq.
  rewrite components_join_path in Heq by now apply plain_not_absolute.
  unfold target_path, local_directory in Heq.
  rewrite (components_join_path _ (pkg_name written)) in Heq
    by now apply plain_not_absolute.
  assert (Hdir : forall kind,
             kind = "mandatory" \/ kind = "optional" ->
             length (components
                       (OsPath.join
                          (OsPath.join (download_location self) (pkg_plist written))
                          kind))
             = (length (components (download_location self)) + 2)%nat).
  { intros kind Hkind.
    rewrite components_join_path by (destruct Hkind as [->| ->]; reflexivity).
    rewrite components_join_path by now apply plain_not_absolute.
    rewrite (plain_components _ Hwplist), !length_app.
    destruct Hkind as [->| ->]; cbn; lia. }
  rewrite !length_app, (glob3_depth _ _ _ Hpath) in Heq.
  rewrite (plain_components _ Hname), (plain_components _ Hwname) in Heq.
  destruct (pkg_mandatory written);
    rewrite Hdir in Heq by auto; cbn in Heq; lia.
Qed.

Lemma scan_never_examines_a_target_witness :
  normpath (OsPath.join "/dl/garageband/2016/mandatory/" "first.pkg")
  <> normpath (target_path Sample.dry Sample.first_loop).
Proof.
  refine (scan_never_examines_a_target Sample.dry Sample.tree Sample.first_loop
            Sample.first_loop "/dl/garageband/2016/mandatory/"
            eq_refl eq_refl eq_refl _).
  apply (bool_decide_unpack _). vm_compute. exact I.
Defined.

(** ** Both options at once *)

Lemma insert_loop_blocked self l :
  mandatory_pkg self = true -> optional_pkg self = true -> insert_loop self l = self.
Proof. intros Hm Ho. unfold insert_loop, passes_gate. now rewrite Hm, Ho. Qed.

Lemma process_plist_blocked self net ly plist self' :
  mandatory_pkg self = true -> optional_pkg self = true ->
  process_plist self net ly plist = Ok self' -> self' = self.
Proof.
  intros Hm Ho. unfold process_plist.
  destruct (try_except _ _) as [request|]; [|discriminate]. cbn [bind].
  destruct (resp_packages request) as [| | |data]; [discriminate..|]. cbn [bind].
  intros Hrun.
  refine (for_each_invariant (fun s => s = self) _ data _ self self' Hrun eq_refl).
  intros pkg s s' Hs ->. rewrite process_package_unfold in Hs.
  destruct (entry_loop _ _ _ _ _ _) as [l|]; [|discriminate].
  injection Hs as <-. now apply insert_loop_blocked.
Qed.

(** X17. An instance made with both [mandatory_pkg] and [optional_pkg] set
    never gets a record: a manifest build that ends normally returns the
    instance as it was. *)
Theorem both_options_add_nothing (self : AppleLoops) (net : Net) (self' : AppleLoops) :
  mandatory_pkg self = true ->
  optional_pkg self = true ->
  build_master_list self net = Ok self' ->
  self' = self.
Proof.
  intros Hm Ho. unfold build_master_list.
  assert (Hplist : forall year plist s s',
             process_plist s net year plist = Ok s' -> s = self -> s' = self).
  { intros year plist s s' Hs ->. now apply (process_plist_blocked _ _ _ _ _ Hm Ho Hs). }
  destruct (files_process self) as [files|]; intros Hrun;
    (refine (for_each_invariant (fun s => s = self) _ _ _ self self' Hrun eq_refl);
     intros pkg_set s1 s1';
     apply (for_each_invariant (fun s => s = self));
     intros year s2 s2';
     destruct (getitem (loop_feed_locations s2) pkg_set) as [by_year|];
       [|discriminate]; cbn [bind];
     destruct (getitem by_year year) as [package_plist|]; [|discriminate];
     cbn [bind];
     apply (for_each_invariant (fun s => s = self));
     intros plist s3 s3').
  - destruct (str_in plist package_plist); [apply Hplist|].
    now intros [= <-].
  - apply Hplist.
Qed.

Lemma both_options_add_nothing_witness :
  build_master_list both_options_instance Sample.net = Ok both_options_instance.
Proof.
  assert (H : exists built,
             build_master_list both_options_instance Sample.net = Ok built)
    by (eexists; vm_compute; reflexivity).
  destruct H as [built H]. rewrite H. f_equal.
  exact (both_options_add_nothing both_options_instance Sample.net built
           eq_refl eq_refl H).
Defined.

(** ** The choices offered for [--file] *)

Lemma str_in_spec x l : str_in x l = true <-> x ∈ l.
Proof.
  unfold str_in. rewrite List.existsb_exists. split.
  - intros (y & Hy & Heq). apply String.eqb_eq in Heq as ->.
    now apply list_elem_of_In.
  - intros Hx. exists x. split; [now apply list_elem_of_In|apply String.eqb_refl].
Qed.

(** A loop whose turns only move the state forward, and each of which
    establishes something the later turns keep. *)
Lemma for_each_covers {A S : Type} (R : S -> S -> Prop) (P : A -> S -> Prop)
    (body : A -> S -> result S) l :
  (forall s, R s s) ->
  (forall a b c, R a b -> R b c -> R a c) ->
  (forall x s s', body x s = Ok s' -> R s s' /\ P x s') ->
  (forall x s s', P x s -> R s s' -> P x s') ->
  forall s s', for_each body l s = Ok s' -> R s s' /\ forall x, x ∈ l -> P x s'.
Proof.
  intros Hrefl Htrans Hbody Hkeep.
  induction l as [|x l IH]; intros s s' Hrun; cbn in Hrun.
  - injection Hrun as <-. split; [apply Hrefl|]. intros x Hx. inversion Hx.
  - destruct (body x s) as [s1|] eqn:Hx; [|discriminate]. cbn in Hrun.
    destruct (Hbody _ _ _ Hx) as [HR1 HP1].
    destruct (IH _ _ Hrun) as [HR2 HP2].
    split; [eapply Htrans; eassumption|].
    intros y [->|Hy]%elem_of_cons; [eapply Hkeep; eassumption|now apply HP2].
Qed.

Lemma add_choice_spec plist (choices : list string) :
  let choices' := if str_in plist choices then choices else choices ++ [plist] in
  (NoDup choices -> NoDup choices')
  /\ choices ⊆ choices'
  /\ plist ∈ choices'
  /\ forall c, c ∈ choices' -> c ∈ choices \/ c = plist.
Proof.
  cbn. destruct (str_in plist choices) eqn:Hin.
  - apply str_in_spec in Hin. repeat split; auto. 
  - assert (Hnot : plist ∉ choices)
      by (intros H; apply str_in_spec in H; congruence).
    repeat split.
    + intros Hnd. apply NoDup_app. repeat split; [assumption| |apply NoDup_singleton].
      intros x Hx Hx'. apply list_elem_of_singleton in Hx'. now subst.
    + intros c Hc. apply elem_of_app. now left.
    + apply elem_of_app. right. now apply list_elem_of_singleton.
    + intros c [Hc|Hc]%elem_of_app; [now left|right].
      now apply list_elem_of_singleton in Hc.
Qed.

Lemma getitem_key {V : Type} (d : list (string * V)) k v :
  getitem d k = Ok v -> k ∈ (fst <$> d).
Proof.
  unfold getitem. destruct (List.find _ d) as [kv|] eqn:Hfind; [|discriminate].
  intros _. apply List.find_some in Hfind as [Hin Heq].
  apply String.eqb_eq in Heq as <-.
  apply list_elem_of_fmap. exists kv. split; [reflexivity|].
  now apply list_elem_of_In.
Qed.

Lemma subseteq_refl_list (s : list string) : s ⊆ s.
Proof. intros x. auto. Qed.

Lemma subseteq_trans_list (a b c : list string) : a ⊆ b -> b ⊆ c -> a ⊆ c.
Proof. intros Hab Hbc x Hx. auto. Qed.

Lemma choices_of_plists plists c c' :
  for_each (fun plist choices =>
              Ok (if str_in plist choices then choices else choices ++ [plist]))
    plists c = Ok c' ->
  c ⊆ c' /\ forall plist, plist ∈ plists -> plist ∈ c'.
Proof.
  apply (for_each_covers (fun a b : list string => a ⊆ b)
           (fun plist (c : list string) => plist ∈ c)).
  - apply subseteq_refl_list.
  - apply subseteq_trans_list.
  - intros x s s' [= <-]. split; apply add_choice_spec.
  - intros x s s' Hx Hs. now apply Hs.
Qed.

Lemma choices_of_products (feeds : feed_table) year products c c' :
  for_each (fun app_feed choices =>
              do by_year <- getitem feeds app_feed;
              do plists <- getitem by_year year;
              for_each (fun plist choices =>
                          Ok (if str_in plist choices then choices
                              else choices ++ [plist]))
                plists choices)
    products c = Ok c' ->
  c ⊆ c'
  /\ forall product, product ∈ products ->
       forall by_year plists plist,
         getitem feeds product = Ok by_year ->
         getitem by_year year = Ok plists ->
         plist ∈ plists -> plist ∈ c'.
Proof.
  apply (for_each_covers (fun a b : list string => a ⊆ b)
           (fun product (c : list string) =>
              forall by_year plists plist,
                getitem feeds product = Ok by_year ->
                getitem by_year year = Ok plists ->
                plist ∈ plists -> plist ∈ c)).
  - apply subseteq_refl_list.
  - apply subseteq_trans_list.
  - intros p s s' Hp.
    destruct (getitem feeds p) as [by0|] eqn:Hby0; [|discriminate].
    cbn [bind] in Hp.
    destruct (getitem by0 year) as [pl0|] eqn:Hpl0; [|discriminate].
    cbn [bind] in Hp.
    destruct (choices_of_plists _ _ _ Hp) as [Hsub Hcov].
    split; [exact Hsub|]. intros by1 pl1 x [= <-] Hpl1 Hx.
    rewrite Hpl1 in Hpl0. injection Hpl0 as <-. now apply Hcov.
  - intros p s s' Hp Hs by1 pl1 x Hby1 Hpl1 Hx. apply Hs. eapply Hp; eassumption.
Qed.

(** X18. The list of sub-feed names that [__init__] collects for the
    [--file] option has no name twice and holds every sub-feed that the
    configuration lists for a product under one of the known years. *)
Theorem file_choices_complete (feeds : feed_table) (loop_years : list string)
    (choices : list string) :
  file_choices feeds loop_years = Ok choices ->
  NoDup choices
  /\ forall product by_year year plists plist,
       getitem feeds product = Ok by_year ->
       year ∈ loop_years ->
       getitem by_year year = Ok plists ->
       plist ∈ plists ->
       plist ∈ choices.
Proof.
  intros Hrun. split.
  - revert Hrun. unfold file_choices. intros Hrun.
    refine (for_each_invariant (fun c : list string => NoDup c) _ _ _ _ _ Hrun
              (NoDup_nil_2)).
    intros year c1 c1'. apply (for_each_invariant (fun c : list string => NoDup c)).
    intros product c2 c2'.
    destruct (getitem feeds product) as [by_year|]; [|discriminate]. cbn [bind].
    destruct (getitem by_year year) as [plists|]; [|discriminate]. cbn [bind].
    apply (for_each_invariant (fun c : list string => NoDup c)).
    intros plist c3 c3' [= <-]. apply add_choice_spec.
  - intros product by_year year plists plist Hby Hyear Hpl Hplist.
    pose proof (getitem_key _ _ _ Hby) as Hproduct.
    unfold file_choices in Hrun.
    apply (for_each_covers (fun a b : list string => a ⊆ b)
             (fun year (c : list string) =>
                forall product, product ∈ (fst <$> feeds) ->
                  forall by_year plists plist,
                    getitem feeds product = Ok by_year ->
                    getitem by_year year = Ok plists ->
                    plist ∈ plists -> plist ∈ c)) in Hrun.
    + destruct Hrun as [_ Hall]. eapply Hall; eassumption.
    + apply subseteq_refl_list.
    + apply subseteq_trans_list.
    + intros y s s' Hy. destruct (choices_of_products _ _ _ _ _ Hy) as [Hsub Hcov].
      split; [exact Hsub|exact Hcov].
    + intros y s s' Hy Hs p Hp by1 pl1 x Hby1 Hpl1 Hx.
      apply Hs. eapply Hy; eassumption.
Qed.

Lemma file_choices_complete_witness :
  file_choices
    [("garageband", [("2016", ["garageband1021.plist"; "shared.plist"])]);
     ("logicpro", [("2016", ["logicpro1040.plist"; "shared.plist"])])]
    ["2016"]
  = Ok ["garageband1021.plist"; "shared.plist"; "logicpro1040.plist"]
  /\ NoDup ["garageband1021.plist"; "shared.plist"; "logicpro1040.plist"].
Proof.
  assert (H : file_choices
                [("garageband", [("2016", ["garageband1021.plist"; "shared.plist"])]);
                 ("logicpro", [("2016", ["logicpro1040.plist"; "shared.plist"])])]
                ["2016"]
              = Ok ["garageband1021.plist"; "shared.plist"; "logicpro1040.plist"])
    by (vm_compute; reflexivity).
  split; [exact H|].
  exact (proj1 (file_choices_complete _ _ _ H)).
Defined.

(** ** The command line *)

Lemma given_nonempty {A} (o : option (list A)) :
  given o = true -> default [] o <> [].
Proof. destruct o as [[|x l]|]; cbn; discriminate || (intros _; discriminate). Qed.

(** X19. Whatever the command line holds, the instance that [main] makes
    gets a package set and a list of years that are not empty (["garageband"]
    and ["2016"] when none are given, all three products when only files
    are named), the files to process in sorted order, and an image path
    that ends in [.dmg]. *)
Theorem main_settings_run (args : cli_args) (a : init_args) :
  main_settings args = Run a ->
  arg_package_set a <> []
  /\ arg_package_year a <> []
  /\ (given (cli_package_set args) = false ->
      arg_package_set a = if given (cli_plist_file args)
                          then ["garageband"; "logicpro"; "mainstage"]
                          else ["garageband"])
  /\ (given (cli_content_year args) = false -> arg_package_year a = ["2016"])
  /\ (forall files, arg_files_process a = Some files ->
        exists named, cli_plist_file args = Some named
                      /\ Sorted String.le files /\ files ≡ₚ named)
  /\ (forall dmg, arg_dmg_path a = Some dmg -> PyStr.endswith dmg ".dmg" = true).
Proof.
  unfold main_settings.
  assert (Hset : (if given (cli_package_set args)
                  then default [] (cli_package_set args)
                  else if given (cli_plist_file args)
                       then ["garageband"; "logicpro"; "mainstage"]
                       else ["garageband"]) <> []).
  { destruct (given (cli_package_set args)) eqn:Hg; [now apply given_nonempty|].
    destruct (given (cli_plist_file args)); discriminate. }
  assert (Hyear : (if negb (given (cli_content_year args)) then ["2016"]
                   else default [] (cli_content_year args)) <> []).
  { destruct (given (cli_content_year args)) eqn:Hg; cbn [negb];
      [now apply given_nonempty|discriminate]. }
  assert (Hfiles : forall files,
             (if given (cli_plist_file args)
              then Some (merge_sort String.le (default [] (cli_plist_file args)))
              else None) = Some files ->
             exists named, cli_plist_file args = Some named
                           /\ Sorted String.le files /\ files ≡ₚ named).
  { intros files. destruct (cli_plist_file args) as [named|]; cbn [given];
      [|discriminate].
    destruct named as [|x named]; [discriminate|]. cbn [default]. intros [= <-].
    exists (x :: named). split; [reflexivity|].
    split; [apply Sorted_merge_sort, _|apply merge_sort_Permutation]. }
  destruct (single (cli_build_dmg args)) as [dmg|].
  - destruct (PyStr.endswith dmg ".dmg") eqn:Hdmg; [|discriminate].
    intros [= <-]. cbn.
    repeat split; try assumption.
    + now intros ->.
    + now intros ->.
    + now intros dmg0 [= <-].
  - intros [= <-]. cbn.
    repeat split; try assumption.
    + now intros ->.
    + now intros ->.
    + discriminate.
Qed.

Lemma main_settings_run_witness :
  exists a,
    main_settings
      {| cli_build_dmg := Some ["/tmp/loops.dmg"]; cli_cache_server := None;
         cli_destination := None;
         cli_plist_file := Some ["logicpro1040.plist"; "garageband1021.plist"];
         cli_jss_quiet_output := false; cli_mandatory := true;
         cli_dry_run := true; cli_optional := false;
         cli_package_set := None; cli_content_year := None |} = Run a
    /\ arg_package_set a = ["garageband"; "logicpro"; "mainstage"]
    /\ arg_package_year a = ["2016"].
Proof.
  assert (H : exists a,
             main_settings
               {| cli_build_dmg := Some ["/tmp/loops.dmg"]; cli_cache_server := None;
                  cli_destination := None;
                  cli_plist_file := Some ["logicpro1040.plist";
                                          "garageband1021.plist"];
                  cli_jss_quiet_output := false; cli_mandatory := true;
                  cli_dry_run := true; cli_optional := false;
                  cli_package_set := None; cli_content_year := None |} = Run a)
    by (eexists; vm_compute; reflexivity).
  destruct H as [a H]. exists a. split; [exact H|].
  destruct (main_settings_run _ a H) as (_ & _ & H3 & H4 & _).
  split; [exact (H3 eq_refl)|exact (H4 eq_refl)].
Defined.

(** X20. Once [parse_args] has returned the arguments, [main] leaves with
    status 1 before it makes an instance exactly when [--build-dmg] names
    one path and the path does not end in [.dmg]; in every other case it
    goes on to make the instance. The exits of [parse_args] itself (a usage
    error, [--help]) come before this part of [main]. *)
Theorem main_settings_exit (args : cli_args) (status : Z) :
  main_settings args = Exit status <->
  status = 1
  /\ exists dmg, cli_build_dmg args = Some [dmg]
                 /\ PyStr.endswith dmg ".dmg" = false.
Proof.
  unfold main_settings, single.
  destruct (cli_build_dmg args) as [[|dmg [|? ?]]|]; split;
    try discriminate;
    try (intros [_ (other & Hother & _)]; discriminate Hother).
  - destruct (PyStr.endswith dmg ".dmg") eqn:Hdmg; [discriminate|].
    intros [= <-]. split; [reflexivity|]. now exists dmg.
  - intros [-> (other & [= <-] & ->)]. reflexivity.
Qed.

(** ** A request that fails *)

(** What [make_storage_location] does to the filesystem depends on the
    filesystem only. *)
Lemma make_storage_location_same_fs w0 w folder w1 :
  fs w0 = fs w ->
  make_storage_location w folder = Ok w1 ->
  exists w1', make_storage_location w0 folder = Ok w1' /\ fs w1' = fs w1.
Proof.
  intros Hfs. rewrite !make_storage_location_unfold. rewrite Hfs.
  destruct (path_isdir (fs w) (expanduser (fs w) folder)); cbn [negb].
  - intros [= <-]. now exists w0.
  - destruct (makedirs (fs w) (expanduser (fs w) folder)) as [f'|];
      [|discriminate]. cbn [bind].
    intros [= <-]. eexists. split; reflexivity.
Qed.

(** X21. In a real run a package request that fails is not caught: when the
    first entry of the manifest has no duplicate, is not at its place and
    cannot be requested, the whole run ends with [URLError], whatever
    follows in the manifest. *)
Theorem failed_request_ends_run (self : AppleLoops) (net : Net) (w w1 : World)
    (loop : Loop) (rest : list Loop) (n : Z) :
  dry_run self = false ->
  master_list self = loop :: rest ->
  py_int (pkg_size loop) = Ok n ->
  located self (fs w) loop = false ->
  (exists flag, duplicate_file self (fs w) loop = Ok flag) ->
  make_storage_location w (local_directory self loop) = Ok w1 ->
  path_exists (fs w1) (target_path self loop) = false ->
  net (pkg_url loop) = None ->
  process_manifest self net w = Raise URLError.
Proof.
  intros Hdry Hml Hn Hloc [flag Hdup] Hmk Hmissing Hnet.
  unfold process_manifest. rewrite Hml. cbn [main_loop].
  unfold located in Hloc. rewrite Hdup in Hloc |- *. cbn [holds] in Hloc.
  cbn [bind]. rewrite Hloc.
  assert (Hfail : forall w0, fs w0 = fs w ->
                             download self net loop 1 w0 = Raise URLError).
  { intros w0 Hfs. unfold download. fold (target_path self loop).
    rewrite Hdry. cbn [negb].
    destruct (make_storage_location_same_fs w0 w _ w1 Hfs Hmk) as (w1' & -> & Hfs1).
    cbn [bind]. rewrite Hfs1, (file_exists_missing _ _ _ Hmissing). cbn [bind].
    unfold download_on, request_url. rewrite Hdry, Hnet. reflexivity. }
  destruct (jss_mode self).
  - rewrite (py_float_numeric _ _ Hn). cbn [bind]. now rewrite Hfail.
  - cbn [bind]. now rewrite Hfail.
Qed.

Lemma failed_request_ends_run_witness :
  process_manifest (set_master_list Sample.real [Sample.second_loop])
    Sample.net Sample.start
  = Raise URLError.
Proof.
  assert (Hmk : exists w1,
             make_storage_location Sample.start
               (local_directory (set_master_list Sample.real [Sample.second_loop])
                  Sample.second_loop) = Ok w1)
    by (eexists; vm_compute; reflexivity).
  destruct Hmk as [w1 Hmk].
  refine (failed_request_ends_run
            (set_master_list Sample.real [Sample.second_loop]) Sample.net
            Sample.start w1 Sample.second_loop [] 8192
            eq_refl eq_refl eq_refl eq_refl _ Hmk _ eq_refl).
  - eexists. vm_compute. reflexivity.
  - vm_compute in Hmk. injection Hmk as <-. reflexivity.
Defined.

(** ** One place per record *)

(** X22. The place of a record in the download tree is fixed by its
    sub-feed, its class and its name: two records with plain names whose
    targets are the same path agree in [pkg_plist], [pkg_mandatory] and
    [pkg_name]; a mandatory and an optional package never share a file. *)
Theorem target_path_injective (self : AppleLoops) (a b : Loop) :
  plain (pkg_plist a) = true -> plain (pkg_name a) = true ->
  plain (pkg_plist b) = true -> plain (pkg_name b) = true ->
  normpath (target_path self a) = normpath (target_path self b) ->
  pkg_plist a = pkg_plist b
  /\ pkg_mandatory a = pkg_mandatory b
  /\ pkg_name a = pkg_name b.
Proof.
  intros Hpa Hna Hpb Hnb Heq.
  apply (f_equal components) in Heq. rewrite !components_normpath in Heq.
  assert (Hcomps : forall l, plain (pkg_plist l) = true -> plain (pkg_name l) = true ->
             components (target_path self l)
             = components (download_location self)
               ++ [pkg_plist l;
                   if pkg_mandatory l then "mandatory" else "optional";
                   pkg_name l]).
  { intros l Hp Hn. unfold target_path, local_directory.
    rewrite components_join_path by now apply plain_not_absolute.
    rewrite (plain_components _ Hn).
    destruct (pkg_mandatory l);
      rewrite components_join_path by reflexivity;
      rewrite components_join_path by (now apply plain_not_absolute);
      rewrite (plain_components _ Hp), <- !app_assoc; reflexivity. }
  rewrite (Hcomps a Hpa Hna), (Hcomps b Hpb Hnb) in Heq.
  apply app_inv_head in Heq. injection Heq as Hp Hk Hn.
  repeat split; try assumption.
  destruct (pkg_mandatory a), (pkg_mandatory b); try reflexivity; discriminate.
Qed.

Lemma target_path_injective_witness :
  pkg_plist Sample.first_loop = "garageband1021"
  /\ pkg_mandatory Sample.first_loop = true
  /\ pkg_name Sample.first_loop = "first.pkg".
Proof.
  exact (target_path_injective Sample.dry Sample.first_loop
           (new_loop "first.pkg" "http://elsewhere/lp10_ms3_content_2013/first.pkg"
              true (PyInt 1) "2013" "logicpro" "garageband1021")
           eq_refl eq_refl eq_refl eq_refl eq_refl).
Defined.

(** ** The proxy address *)

Lemma rstrip_trailing_slash c :
  PyStr.rstrip_char "/" (c +:+ "/") = PyStr.rstrip_char "/" c.
Proof.
  unfold PyStr.rstrip_char. rewrite rev_append.
  change (String.rev "/") with "/". rewrite append_cons.
  change ("" +:+ String.rev c) with (String.rev c).
  reflexivity.
Qed.

(** X23. A slash at the end of the caching proxy's address makes no
    difference: the URLs built are those of the address without it. *)
Theorem proxy_trailing_slash (a a' : init_args) (feeds feeds' : feed_table)
    (proxy year filename : string) :
  proxy <> "" ->
  arg_caching_server a = Some proxy ->
  arg_caching_server a' = Some (proxy +:+ "/") ->
  build_url (init a' feeds') year filename = build_url (init a feeds) year filename.
Proof.
  intros Hne Ha Ha'.
  assert (Hne' : proxy +:+ "/" <> "").
  { destruct proxy; [contradiction|discriminate]. }
  apply String.eqb_neq in Hne, Hne'.
  unfold build_url, init. cbn [caching_server cache_base_url source_url base_url].
  rewrite Ha, Ha'. cbn [opt_truthy]. rewrite Hne, Hne'. cbn [negb fmap option_fmap option_map].
  now rewrite rstrip_trailing_slash.
Qed.

Lemma proxy_trailing_slash_witness :
  build_url
    (init {| arg_download_location := None; arg_dry_run := false;
             arg_package_set := []; arg_package_year := [];
             arg_mandatory_pkg := false; arg_optional_pkg := false;
             arg_caching_server := Some "http://cache.local:49672/";
             arg_files_process := None; arg_jss_mode := false;
             arg_dmg_path := None |} [])
    "2016" "core.pkg"
  = build_url
      (init {| arg_download_location := None; arg_dry_run := false;
               arg_package_set := []; arg_package_year := [];
               arg_mandatory_pkg := false; arg_optional_pkg := false;
               arg_caching_server := Some "http://cache.local:49672";
               arg_files_process := None; arg_jss_mode := false;
               arg_dmg_path := None |} [])
      "2016" "core.pkg".
Proof.
  refine (proxy_trailing_slash
            {| arg_download_location := None; arg_dry_run := false;
               arg_package_set := []; arg_package_year := [];
               arg_mandatory_pkg := false; arg_optional_pkg := false;
               arg_caching_server := Some "http://cache.local:49672";
               arg_files_process := None; arg_jss_mode := false;
               arg_dmg_path := None |}
            {| arg_download_location := None; arg_dry_run := false;
               arg_package_set := []; arg_package_year := [];
               arg_mandatory_pkg := false; arg_optional_pkg := false;
               arg_caching_server := Some "http://cache.local:49672/";
               arg_files_process := None; arg_jss_mode := false;
               arg_dmg_path := None |}
            [] [] "http://cache.local:49672" "2016" "core.pkg"
            _ eq_refl eq_refl).
  discriminate.
Defined.
